(** * AI Study Manager: seat policy, phase timer and to-do list

    A shallow embedding of the seat-time calculator, of the phase-timer
    handlers, of the texts and the seat box, and of the to-do list of
    [app.py], with the properties of the specification that concern
    them and further properties of the code.

    Modelling conventions.

    - A naive [datetime] is the record of its fields, the calendar date
      being kept as its proleptic Gregorian ordinal ([date.toordinal()]),
      which is also how CPython's own [datetime.__add__] and [__sub__]
      work.  The [OverflowError] raised outside years 1..9999 is not
      modelled.
    - A [timedelta] is its total number of microseconds.
    - A Python [float] is the exact rational it stands for ([Q]).  Every
      [datetime] the application builds has its microsecond cleared, so
      that the floats holding seconds are whole numbers and exact; the
      progress of a phase is the exact quotient, not its rounding.
    - [st.session_state] is a dictionary with a fixed set of keys; the
      keys are grouped by the type of what they hold, and the session is
      one total function per group.
    - [st.rerun()], which raises to end the current script run, is the
      [Rerun] outcome of a small state monad.  A widget is the value it
      returns in the run at hand: a button is [True] only in the run its
      click causes, so one enumeration tells which button, if any, was
      clicked.
    - The handlers are the functions of [app.py] and the blocks of its
      script that write the timer's state.  The page puts them together
      the way Streamlit runs them: a click on the page and every
      [st.rerun()] run the script, the timer fragment runs on its own
      every second, and a click in a dialog runs that dialog on its
      own.
    - A table is the list of its rows in the order of insertion.  The
      to-do list is a function of the table for each of its widgets; the
      result of its SELECT with ORDER BY is a relation, since SQL leaves
      the order of rows with equal keys open. *)

From Stdlib Require Import ZArith QArith Qround Bool List String Lia.
From Stdlib Require Import DecimalString DecimalZ.
From Stdlib Require Import Sorting.Permutation Sorting.Sorted.
Import ListNotations.

Local Open Scope Z_scope.

(* ================================================================== *)
(** ** Dates and times *)
(* ================================================================== *)

Record datetime : Type := mkdt {
  dt_ordinal : Z;       (* date.toordinal() *)
  dt_hour : Z;
  dt_minute : Z;
  dt_second : Z;
  dt_microsecond : Z
}.

(** [datetime.time] objects. *)
Record dtime : Type := mktime {
  t_hour : Z;
  t_minute : Z;
  t_second : Z;
  t_microsecond : Z
}.

(** Total microseconds of a [timedelta]. *)
Definition timedelta : Type := Z.

(** The invariant of Python's [datetime] type. *)
Definition wf_dt (d : datetime) : Prop :=
  0 <= dt_hour d < 24 /\ 0 <= dt_minute d < 60 /\
  0 <= dt_second d < 60 /\ 0 <= dt_microsecond d < 1000000.

Definition wf_dtb (d : datetime) : bool :=
  (0 <=? dt_hour d) && (dt_hour d <? 24) &&
  (0 <=? dt_minute d) && (dt_minute d <? 60) &&
  (0 <=? dt_second d) && (dt_second d <? 60) &&
  (0 <=? dt_microsecond d) && (dt_microsecond d <? 1000000).

Definition td_minutes (m : Z) : timedelta := m * 60000000.
Definition td_days (n : Z) : timedelta := n * 86400000000.

(** Microseconds since ordinal day 0, midnight. *)
Definition to_us (d : datetime) : Z :=
  (((dt_ordinal d * 24 + dt_hour d) * 60 + dt_minute d) * 60
     + dt_second d) * 1000000 + dt_microsecond d.

Definition of_us (z : Z) : datetime :=
  let secs := z / 1000000 in
  let mins := secs / 60 in
  let hours := mins / 60 in
  {| dt_ordinal := hours / 24;
     dt_hour := hours mod 24;
     dt_minute := mins mod 60;
     dt_second := secs mod 60;
     dt_microsecond := z mod 1000000 |}.

(** [d + td] *)
Definition dt_add (d : datetime) (td : timedelta) : datetime :=
  of_us (to_us d + td).

(** [a - b] *)
Definition dt_sub (a b : datetime) : timedelta := to_us a - to_us b.

(** [td.total_seconds()] *)
Definition total_seconds (td : timedelta) : Q := td # 1000000.

(** Python compares two datetimes field by field, date first. *)
Definition lex (c1 c2 : comparison) : comparison :=
  match c1 with Eq => c2 | _ => c1 end.

Definition dt_cmp (a b : datetime) : comparison :=
  lex (dt_ordinal a ?= dt_ordinal b)
 (lex (dt_hour a ?= dt_hour b)
 (lex (dt_minute a ?= dt_minute b)
 (lex (dt_second a ?= dt_second b)
      (dt_microsecond a ?= dt_microsecond b)))).

Definition dt_lt (a b : datetime) : bool :=
  match dt_cmp a b with Lt => true | _ => false end.
Definition dt_le (a b : datetime) : bool :=
  match dt_cmp a b with Gt => false | _ => true end.
Definition dt_ge (a b : datetime) : bool := dt_le b a.

Definition time_cmp (a b : dtime) : comparison :=
  lex (t_hour a ?= t_hour b)
 (lex (t_minute a ?= t_minute b)
 (lex (t_second a ?= t_second b)
      (t_microsecond a ?= t_microsecond b))).

Definition time_lt (a b : dtime) : bool :=
  match time_cmp a b with Lt => true | _ => false end.
Definition time_ge (a b : dtime) : bool :=
  match time_cmp a b with Lt => false | _ => true end.

Definition time_gt (a b : dtime) : bool := time_lt b a.

(** [dt.time()] *)
Definition dt_time (d : datetime) : dtime :=
  mktime (dt_hour d) (dt_minute d) (dt_second d) (dt_microsecond d).

(** [datetime.combine(d.date(), t)] *)
Definition dt_combine (d : datetime) (t : dtime) : datetime :=
  mkdt (dt_ordinal d) (t_hour t) (t_minute t) (t_second t)
       (t_microsecond t).

(** [min(a, b)]: the first of the smallest arguments. *)
Definition dt_min (a b : datetime) : datetime :=
  if dt_lt b a then b else a.

(** [datetime.now().replace(microsecond=0)] for a clock reading. *)
Definition now_of (clock : datetime) : datetime :=
  mkdt (dt_ordinal clock) (dt_hour clock) (dt_minute clock)
       (dt_second clock) 0.

(* ================================================================== *)
(** ** Seat rules *)
(* ================================================================== *)

Definition SEAT_CLOSE_HOUR : Z := 23.
Definition SEAT_OPEN_HOUR : Z := 6.
Definition SEAT_BASE_MIN : Z := 180.
Definition SEAT_ALERT_WINDOW_SEC : Z := 59 * 60.

Definition _dt_at (dt : datetime) (hh mm ss : Z) : datetime :=
  mkdt (dt_ordinal dt) hh mm ss 0.

Definition is_seat_reset_window (now : datetime) : bool :=
  let t := dt_time now in
  time_ge t (mktime SEAT_CLOSE_HOUR 0 0 0)
  || time_lt t (mktime SEAT_OPEN_HOUR 0 0 0).

Definition next_seat_open_dt (now : datetime) : datetime :=
  let today_open := _dt_at now SEAT_OPEN_HOUR 0 0 in
  if time_lt (dt_time now) (mktime SEAT_OPEN_HOUR 0 0 0)
  then today_open
  else dt_add today_open (td_days 1).

Definition seat_close_dt_for (start_dt : datetime) : datetime :=
  mkdt (dt_ordinal start_dt) SEAT_CLOSE_HOUR 0 0 0.

Definition get_seat_expiry_dt (seat_start_dt : datetime)
    (extension_min : Z) : datetime :=
  let base_expiry :=
    dt_add seat_start_dt (td_minutes (SEAT_BASE_MIN + extension_min)) in
  let close_dt := seat_close_dt_for seat_start_dt in
  dt_min base_expiry close_dt.

Definition compute_seat_left_seconds (now : datetime)
    (seat_start_dt : option datetime) (extension_min : Z) : option Q :=
  match seat_start_dt with
  | None => None
  | Some start =>
      if is_seat_reset_window now then None
      else if dt_lt now start then None
      else
        let expiry := get_seat_expiry_dt start extension_min in
        Some (total_seconds (dt_sub expiry now))
  end.

(** [seat_left_sec <= SEAT_ALERT_WINDOW_SEC] *)
Definition within_alert_window (seat_left_sec : Q) : bool :=
  Qle_bool seat_left_sec (inject_Z SEAT_ALERT_WINDOW_SEC).

(* ================================================================== *)
(** ** Floats *)
(* ================================================================== *)

Definition Qlt_bool (x y : Q) : bool := negb (Qle_bool y x).

(** [max(a, b)] and [min(a, b)] on floats: the first of the largest
    (smallest) arguments. *)
Definition float_max (a b : Q) : Q := if Qlt_bool a b then b else a.
Definition float_min (a b : Q) : Q := if Qlt_bool b a then b else a.

(** [int(x)]: truncation towards zero. *)
Definition float_int (x : Q) : Z := Z.quot (Qnum x) (Zpos (Qden x)).

(* ================================================================== *)
(** ** Session logging *)
(* ================================================================== *)

(** A row of [study_sessions].  The two text columns hold
    [strftime("%Y-%m-%d %H:%M:%S")], i.e. the timestamp to the second. *)
Record session_row : Type := mkrow {
  start_time : datetime;
  end_time : datetime;
  focus_minutes : Z
}.

Inductive Phase : Type := IDLE | FOCUS | REST.

(** A row of [interruptions]. *)
Record interruption_row : Type := mkinterruption {
  i_timestamp : datetime;
  i_reason : string;
  i_duration_lost : Z;
  i_phase : Phase
}.

(** The timestamp that [strftime("%Y-%m-%d %H:%M:%S")] prints. *)
Definition strftime (d : datetime) : datetime :=
  mkdt (dt_ordinal d) (dt_hour d) (dt_minute d) (dt_second d) 0.

Definition _minutes_between (t0 t1 : datetime) : Z :=
  let sec := Z.max 0 (float_int (total_seconds (dt_sub t1 t0))) in
  sec / 60.

(* ================================================================== *)
(** ** Session state *)
(* ================================================================== *)

(** The [seat_extension_context] values. *)
Inductive ExtContext : Type :=
  ctx_break | ctx_prestart | ctx_resume | ctx_break_start.

Definition context_str (c : ExtContext) : string :=
  match c with
  | ctx_break => "break"
  | ctx_prestart => "prestart"
  | ctx_resume => "resume"
  | ctx_break_start => "break_start"
  end.

(** The keys of [st.session_state], by the type of what they hold. *)
Inductive flag_key : Type :=
  | running | paused | show_extension_dialog | seat_alert_shown_in_rest
  | show_start_setup | pending_start | pending_resume
  | show_pause_dialog | show_stop_dialog | prev_seat_toggle
  | show_seat_settings | seat_autopopup_done
  | block_next_focus_until_seat_extended | need_main_rerun.

Inductive stamp_key : Type :=
  phase_start_dt | phase_end_dt | pause_started_at.

Inductive num_key : Type :=
  seat_extension_min | pending_focus | pending_rest.

Inductive float_key : Type :=
  pause_snapshot_prog | pause_snapshot_rem_sec | extension_seat_left_sec.

Scheme Equality for flag_key.
Scheme Equality for stamp_key.
Scheme Equality for num_key.
Scheme Equality for float_key.

(** [st.session_state["settings"]] *)
Record Settings : Type := mksettings {
  use_seat : bool;
  seat_start_dt : option datetime;
  focus : Z;
  rest : Z
}.

Record session : Type := mksession {
  flag : flag_key -> bool;
  stamp : stamp_key -> option datetime;
  num : num_key -> Z;
  float : float_key -> option Q;
  phase : Phase;
  seat_extension_context : ExtContext;
  settings : Settings
}.

Definition set_flag (k : flag_key) (v : bool) (s : session) : session :=
  mksession (fun k' => if flag_key_beq k k' then v else flag s k')
    (stamp s) (num s) (float s) (phase s) (seat_extension_context s)
    (settings s).

Definition set_stamp (k : stamp_key) (v : option datetime) (s : session)
    : session :=
  mksession (flag s)
    (fun k' => if stamp_key_beq k k' then v else stamp s k')
    (num s) (float s) (phase s) (seat_extension_context s) (settings s).

Definition set_num (k : num_key) (v : Z) (s : session) : session :=
  mksession (flag s) (stamp s)
    (fun k' => if num_key_beq k k' then v else num s k')
    (float s) (phase s) (seat_extension_context s) (settings s).

Definition set_float (k : float_key) (v : option Q) (s : session)
    : session :=
  mksession (flag s) (stamp s) (num s)
    (fun k' => if float_key_beq k k' then v else float s k')
    (phase s) (seat_extension_context s) (settings s).

Definition set_phase (v : Phase) (s : session) : session :=
  mksession (flag s) (stamp s) (num s) (float s) v
    (seat_extension_context s) (settings s).

Definition set_context (v : ExtContext) (s : session) : session :=
  mksession (flag s) (stamp s) (num s) (float s) (phase s) v (settings s).

Definition set_focus (v : Z) (s : session) : session :=
  mksession (flag s) (stamp s) (num s) (float s) (phase s)
    (seat_extension_context s)
    (mksettings (use_seat (settings s)) (seat_start_dt (settings s)) v
       (rest (settings s))).

Definition set_rest (v : Z) (s : session) : session :=
  mksession (flag s) (stamp s) (num s) (float s) (phase s)
    (seat_extension_context s)
    (mksettings (use_seat (settings s)) (seat_start_dt (settings s))
       (focus (settings s)) v).

(** The seat toggle and the seat dialog store these two settings. *)
Definition set_use_seat (v : bool) (s : session) : session :=
  mksession (flag s) (stamp s) (num s) (float s) (phase s)
    (seat_extension_context s)
    (mksettings v (seat_start_dt (settings s)) (focus (settings s))
       (rest (settings s))).

Definition set_seat_start_dt (v : option datetime) (s : session) : session :=
  mksession (flag s) (stamp s) (num s) (float s) (phase s)
    (seat_extension_context s)
    (mksettings (use_seat (settings s)) v (focus (settings s))
       (rest (settings s))).

(** The [defaults] dictionary and the initial [settings], given the
    clock reading at the first run. *)
Definition defaults (clock : datetime) : session :=
  mksession
    (fun _ => false)
    (fun _ => None)
    (fun k => match k with
              | seat_extension_min => 0
              | pending_focus => 25
              | pending_rest => 5
              end)
    (fun _ => None)
    IDLE ctx_break
    (mksettings false
       (Some (mkdt (dt_ordinal clock) (dt_hour clock) (dt_minute clock) 0 0))
       25 5).

(** What [get_filled_pie_html] is called with. *)
Record pie_view : Type := mkpie {
  pie_percentage : Q;
  pie_color : string;
  pie_time_text : string;
  pie_status_text : string
}.

(** The session state, the two tables the timer writes, and the pie the
    timer fragment rendered last. *)
Record world : Type := mkworld {
  ss : session;
  study_sessions : list session_row;
  interruptions : list interruption_row;
  pie : option pie_view
}.

(* ================================================================== *)
(** ** Script runs *)
(* ================================================================== *)

(** A run either goes on with a value or is ended by [st.rerun()]. *)
Inductive outcome (A : Type) : Type :=
  | Ret (a : A)
  | Rerun.
Arguments Ret {A} a.
Arguments Rerun {A}.

Definition App (A : Type) : Type := world -> outcome A * world.

Definition ret {A} (a : A) : App A := fun w => (Ret a, w).

Definition bind {A B} (m : App A) (f : A -> App B) : App B :=
  fun w =>
    match m w with
    | (Ret a, w') => f a w'
    | (Rerun, w') => (Rerun, w')
    end.

Declare Scope app_scope.
Delimit Scope app_scope with app.
Notation "x <- m ;; k" := (bind m (fun x => k))
  (at level 61, m at next level, right associativity) : app_scope.
Notation "m ;; k" := (bind m (fun _ => k))
  (at level 61, right associativity) : app_scope.
Local Open Scope app_scope.

Definition st_rerun {A} : App A := fun w => (Rerun, w).

Definition read {A} (f : session -> A) : App A :=
  fun w => (Ret (f (ss w)), w).

(** The four ways a run changes the world. *)
Definition with_session (f : session -> session) (w : world) : world :=
  mkworld (f (ss w)) (study_sessions w) (interruptions w) (pie w).

Definition with_pie (p : pie_view) (w : world) : world :=
  mkworld (ss w) (study_sessions w) (interruptions w) (Some p).

Definition with_study_session (r : session_row) (w : world) : world :=
  mkworld (ss w) (study_sessions w ++ [r]) (interruptions w) (pie w).

Definition with_interruption (r : interruption_row) (w : world) : world :=
  mkworld (ss w) (study_sessions w) (interruptions w ++ [r]) (pie w).

Definition assign (f : session -> session) : App unit :=
  fun w => (Ret tt, with_session f w).

Definition when (b : bool) (m : App unit) : App unit :=
  if b then m else ret tt.

(** [st.markdown(get_filled_pie_html(...))] *)
Definition render (p : pie_view) : App unit :=
  fun w => (Ret tt, with_pie p w).

Definition insert_study_session (r : session_row) : App unit :=
  fun w => (Ret tt, with_study_session r w).

Definition insert_interruption (r : interruption_row) : App unit :=
  fun w => (Ret tt, with_interruption r w).

(** The state a run leaves behind. *)
Definition exec {A} (m : App A) (w : world) : world := snd (m w).

Definition log_focus_segment_if_any (seg_start : option datetime)
    (seg_end : datetime) : App Z :=
  match seg_start with
  | None => ret 0
  | Some t0 =>
      let mins := _minutes_between t0 seg_end in
      if mins <=? 0 then ret 0
      else
        insert_study_session (mkrow (strftime t0) (strftime seg_end) mins) ;;
        ret mins
  end.

(* ================================================================== *)
(** ** Timer handlers *)
(* ================================================================== *)

Definition _clear_dialog_flags : App unit :=
  assign (set_flag show_start_setup false) ;;
  assign (set_flag show_extension_dialog false) ;;
  assign (set_flag show_pause_dialog false) ;;
  assign (set_flag show_stop_dialog false) ;;
  assign (set_flag show_seat_settings false).

Definition _open_dialog (name : flag_key) : App unit :=
  _clear_dialog_flags ;;
  assign (set_flag name true) ;;
  st_rerun.

Definition _request_extension_popup (context : ExtContext)
    (seat_left_sec : Q) : App unit :=
  assign (set_context context) ;;
  assign (set_float extension_seat_left_sec
            (Some (float_max 0 seat_left_sec))) ;;
  _clear_dialog_flags ;;
  assign (set_flag show_extension_dialog true) ;;
  assign (set_flag need_main_rerun true).

Definition _start_timer_session (now : datetime) (focus_min rest_min : Z)
    : App unit :=
  assign (set_focus focus_min) ;;
  assign (set_rest rest_min) ;;

  assign (set_flag running true) ;;
  assign (set_flag paused false) ;;
  assign (set_stamp pause_started_at None) ;;
  assign (set_float pause_snapshot_prog None) ;;
  assign (set_float pause_snapshot_rem_sec None) ;;

  assign (set_phase FOCUS) ;;
  assign (set_stamp phase_start_dt (Some now)) ;;
  assign (set_stamp phase_end_dt (Some (dt_add now (td_minutes focus_min)))) ;;

  assign (set_flag seat_alert_shown_in_rest false) ;;
  assign (set_context ctx_break) ;;
  ext <- read (fun s => num s seat_extension_min) ;;
  assign (set_num seat_extension_min ext) ;;

  assign (set_flag block_next_focus_until_seat_extended false).

(** The seat check shared by the handlers: seat tracking is on, [now] is
    outside the reset window, and the seat has at most 59 minutes left.
    It yields the seconds left when the check fires. *)
Definition seat_short (now : datetime) (s : session) : option Q :=
  if use_seat (settings s) && negb (is_seat_reset_window now) then
    match compute_seat_left_seconds now (seat_start_dt (settings s))
            (num s seat_extension_min) with
    | Some left_sec =>
        if within_alert_window left_sec then Some left_sec else None
    | None => None
    end
  else None.

Definition _switch_phase (now : datetime) (to_phase : Phase) : App unit :=
  focus_min <- read (fun s => focus (settings s)) ;;
  rest_min <- read (fun s => rest (settings s)) ;;

  assign (set_phase to_phase) ;;
  assign (set_stamp phase_start_dt (Some now)) ;;

  match to_phase with
  | FOCUS =>
      assign (set_stamp phase_end_dt
                (Some (dt_add now (td_minutes focus_min)))) ;;
      assign (set_stamp phase_start_dt (Some now))
  | REST =>
      assign (set_stamp phase_end_dt
                (Some (dt_add now (td_minutes rest_min)))) ;;
      assign (set_stamp phase_start_dt (Some now)) ;;

      assign (set_flag seat_alert_shown_in_rest false) ;;

      short <- read (seat_short now) ;;
      match short with
      | Some seat_left_sec =>
          assign (set_flag seat_alert_shown_in_rest true) ;;
          _request_extension_popup ctx_break_start seat_left_sec
      | None => ret tt
      end
  | IDLE =>
      assign (set_stamp phase_end_dt None)
  end.

Definition _resume_timer (now : datetime) : App unit :=
  started <- read (fun s => stamp s pause_started_at) ;;
  match started with
  | Some pause_started =>
      let paused_delta := dt_sub now pause_started in
      ps <- read (fun s => stamp s phase_start_dt) ;;
      pe <- read (fun s => stamp s phase_end_dt) ;;
      match ps with
      | Some ps =>
          assign (set_stamp phase_start_dt (Some (dt_add ps paused_delta)))
      | None => ret tt
      end ;;
      match pe with
      | Some pe =>
          assign (set_stamp phase_end_dt (Some (dt_add pe paused_delta)))
      | None => ret tt
      end
  | None => ret tt
  end ;;

  assign (set_flag paused false) ;;
  assign (set_stamp pause_started_at None) ;;
  assign (set_float pause_snapshot_prog None) ;;
  assign (set_float pause_snapshot_rem_sec None).

(* ------------------------------------------------------------------ *)
(** *** Dialogs *)

(** The button of a dialog, if any, whose click caused the run. *)
Inductive dialog_click : Type := click_none | click_confirm | click_close.

(** The radio of the seat dialog: the time entered is the start of the
    reservation or its expiry. *)
Inductive time_ref : Type := ref_start | ref_expiry.

(** [new_time] is what the time widget or the parsing of the text field
    gives, [None] when the text does not parse ([if new_time:] holds for
    every time object). *)
Definition seat_settings_dialog (ref : time_ref) (new_time : option dtime)
    (click : dialog_click) (clock : datetime) : App unit :=
  let now :=
    mkdt (dt_ordinal clock) (dt_hour clock) (dt_minute clock) 0 0 in
  match click with
  | click_confirm =>
      match new_time with
      | Some new_time =>
          match ref with
          | ref_start =>
              let candidate := dt_combine now new_time in
              let candidate :=
                if dt_lt (dt_add now (td_minutes 5)) candidate
                then dt_add candidate (- td_days 1)
                else candidate in
              assign (set_seat_start_dt (Some candidate))
          | ref_expiry =>
              let expiry_time :=
                if time_gt new_time (mktime SEAT_CLOSE_HOUR 0 0 0)
                then mktime SEAT_CLOSE_HOUR 0 0 0
                else new_time in
              let expiry_candidate := dt_combine now expiry_time in
              let expiry_candidate :=
                if dt_lt expiry_candidate (dt_add now (- td_minutes 5))
                then dt_add expiry_candidate (td_days 1)
                else expiry_candidate in
              let seat_start :=
                dt_add expiry_candidate (- td_minutes SEAT_BASE_MIN) in
              assign (set_seat_start_dt (Some seat_start))
          end ;;
          assign (set_num seat_extension_min 0) ;;
          assign (set_flag seat_alert_shown_in_rest false) ;;
          assign (set_float extension_seat_left_sec None) ;;
          assign (set_flag block_next_focus_until_seat_extended false)
      | None => ret tt
      end ;;
      _clear_dialog_flags ;;
      st_rerun
  | click_close =>
      _clear_dialog_flags ;;
      st_rerun
  | click_none => ret tt
  end.

(** The radio options of the start dialog. *)
Inductive start_mode : Type := mode_25_5 | mode_50_10 | mode_test.

(** The button, if any, whose click caused the run. *)
Inductive start_click : Type := start_none | start_go | start_close.

Definition start_setup_dialog (mode : start_mode) (click : start_click)
    (clock : datetime) : App unit :=
  match click with
  | start_go =>
      let '(f, r) :=
        match mode with
        | mode_test => (2, 1)
        | mode_25_5 => (25, 5)
        | mode_50_10 => (50, 10)
        end in
      let now := now_of clock in
      short <- read (seat_short now) ;;
      match short with
      | Some left_sec =>
          assign (set_flag pending_start true) ;;
          assign (set_num pending_focus f) ;;
          assign (set_num pending_rest r) ;;
          _request_extension_popup ctx_prestart left_sec ;;
          st_rerun
      | None => ret tt
      end ;;
      _clear_dialog_flags ;;
      _start_timer_session now f r ;;
      st_rerun
  | start_close =>
      _clear_dialog_flags ;;
      st_rerun
  | start_none => ret tt
  end.

Inductive ext_click : Type :=
  ext_none | ext_1h | ext_2h | ext_3h | ext_close.

(** [seat_left_sec = st.session_state.get("extension_seat_left_sec") or 0],
    then [is_expired = (seat_left_sec <= 0)]. *)
Definition is_expired (s : session) : bool :=
  match float s extension_seat_left_sec with
  | Some seat_left_sec => Qle_bool seat_left_sec 0
  | None => true
  end.

Definition add_extension (m : Z) : App unit :=
  ext <- read (fun s => num s seat_extension_min) ;;
  assign (set_num seat_extension_min (ext + m)).

Definition extension_dialog (click : ext_click) (clock : datetime)
    : App unit :=
  expired <- read is_expired ;;

  (* the three extension buttons, drawn unless expired *)
  changed <-
    (if negb expired then
       match click with
       | ext_1h => add_extension 60 ;; ret true
       | ext_2h => add_extension 120 ;; ret true
       | ext_3h => add_extension 180 ;; ret true
       | _ => ret false
       end
     else ret false) ;;

  when changed (
    _clear_dialog_flags ;;
    assign (set_float extension_seat_left_sec None) ;;

    let now := now_of clock in
    blocked <- read (fun s => flag s block_next_focus_until_seat_extended) ;;
    when blocked (
      assign (set_flag block_next_focus_until_seat_extended false) ;;
      _switch_phase now FOCUS ;;
      st_rerun) ;;

    p_start <- read (fun s => flag s pending_start) ;;
    when p_start (
      assign (set_flag pending_start false) ;;
      pf <- read (fun s => num s pending_focus) ;;
      pr <- read (fun s => num s pending_rest) ;;
      _start_timer_session now pf pr ;;
      st_rerun) ;;

    p_resume <- read (fun s => flag s pending_resume) ;;
    when p_resume (
      assign (set_flag pending_resume false) ;;
      _resume_timer now ;;
      st_rerun) ;;
    st_rerun) ;;

  (* the close button *)
  match click with
  | ext_close =>
      _clear_dialog_flags ;;
      blocked <- read (fun s => flag s block_next_focus_until_seat_extended) ;;
      (if blocked || expired then
         assign (set_flag block_next_focus_until_seat_extended false) ;;
         assign (set_flag running false) ;;
         assign (set_phase IDLE)
       else
         assign (set_flag pending_start false) ;;
         assign (set_flag pending_resume false)) ;;
      st_rerun
  | _ => ret tt
  end.

(** The progress and the remaining seconds of the running phase, as the
    pause dialog and the timer fragment compute them. *)
Definition progress (phase_start phase_end now : datetime) : Q * Q :=
  let total_sec :=
    float_max 1 (total_seconds (dt_sub phase_end phase_start)) in
  let rem_sec := float_max 0 (total_seconds (dt_sub phase_end now)) in
  let elapsed := float_max 0 (total_seconds (dt_sub now phase_start)) in
  let prog := float_min 100 ((elapsed / total_sec) * 100)%Q in
  (prog, rem_sec).

Definition pause_dialog (reason : string) (click : dialog_click)
    (clock : datetime) : App unit :=
  match click with
  | click_confirm =>
      let now := now_of clock in
      cur_phase <- read phase ;;
      ps <- read (fun s => stamp s phase_start_dt) ;;

      match cur_phase, ps with
      | FOCUS, Some _ => _ <- log_focus_segment_if_any ps now ;; ret tt
      | _, _ => ret tt
      end ;;

      insert_interruption
        (mkinterruption (strftime now) ("[중단] " ++ reason) 0 cur_phase) ;;

      phase_start <- read (fun s => stamp s phase_start_dt) ;;
      phase_end <- read (fun s => stamp s phase_end_dt) ;;
      match cur_phase, phase_start, phase_end with
      | (FOCUS | REST), Some phase_start, Some phase_end =>
          let '(prog, rem_sec) := progress phase_start phase_end now in
          assign (set_float pause_snapshot_prog (Some prog)) ;;
          assign (set_float pause_snapshot_rem_sec (Some rem_sec))
      | _, _, _ =>
          assign (set_float pause_snapshot_prog (Some 0%Q)) ;;
          assign (set_float pause_snapshot_rem_sec (Some 0%Q))
      end ;;

      assign (set_flag paused true) ;;
      assign (set_stamp pause_started_at (Some now)) ;;

      _clear_dialog_flags ;;
      st_rerun
  | click_close =>
      _clear_dialog_flags ;;
      st_rerun
  | click_none => ret tt
  end.

Definition stop_dialog (reason : string) (click : dialog_click)
    (clock : datetime) : App unit :=
  match click with
  | click_confirm =>
      let now := now_of clock in
      cur_phase <- read phase ;;
      ps <- read (fun s => stamp s phase_start_dt) ;;

      match cur_phase, ps with
      | FOCUS, Some _ => _ <- log_focus_segment_if_any ps now ;; ret tt
      | _, _ => ret tt
      end ;;

      insert_interruption
        (mkinterruption (strftime now) ("[종료] " ++ reason) 0 cur_phase) ;;

      assign (set_flag running false) ;;
      assign (set_flag paused false) ;;
      assign (set_stamp pause_started_at None) ;;
      assign (set_float pause_snapshot_prog None) ;;
      assign (set_float pause_snapshot_rem_sec None) ;;
      assign (set_phase IDLE) ;;
      assign (set_stamp phase_start_dt None) ;;
      assign (set_stamp phase_end_dt None) ;;
      assign (set_flag seat_alert_shown_in_rest false) ;;
      assign (set_flag block_next_focus_until_seat_extended false) ;;

      _clear_dialog_flags ;;
      st_rerun
  | click_close =>
      _clear_dialog_flags ;;
      st_rerun
  | click_none => ret tt
  end.

(* ------------------------------------------------------------------ *)
(** *** The main page *)

Inductive page_click : Type :=
  page_none | page_start | page_resume | page_pause | page_stop.

(** The seat toggle and its settings button, at the top of the page.
    [seat_toggle] is the value of the toggle in this run and [edit] tells
    whether the settings button was clicked. *)
Definition seat_toggle_row (seat_toggle edit : bool) (clock : datetime)
    : App unit :=
  is_running <- read (fun s => flag s running) ;;
  is_paused <- read (fun s => flag s paused) ;;
  let lock_settings := is_running && negb is_paused in
  let want_open_seat_dialog :=
    seat_toggle && edit && negb lock_settings in

  prev <- read (fun s => flag s prev_seat_toggle) ;;
  assign (set_use_seat seat_toggle) ;;
  assign (set_flag prev_seat_toggle seat_toggle) ;;

  when (prev && negb seat_toggle) (
    assign (set_flag seat_autopopup_done false)) ;;

  want_open_seat_dialog <-
    (if negb prev && seat_toggle then
       saved_dt <- read (fun s => seat_start_dt (settings s)) ;;
       match saved_dt with
       | Some saved_dt =>
           when (dt_ordinal saved_dt <? dt_ordinal clock) (
             assign (set_seat_start_dt
                       (Some (mkdt (dt_ordinal clock) (dt_hour clock)
                                (dt_minute clock) 0 0))))
       | None => ret tt
       end ;;
       done <- read (fun s => flag s seat_autopopup_done) ;;
       if negb lock_settings && negb done then
         assign (set_flag seat_autopopup_done true) ;;
         ret true
       else ret want_open_seat_dialog
     else ret want_open_seat_dialog) ;;

  when want_open_seat_dialog (_open_dialog show_seat_settings).

(** The start / resume button above the timer. *)
Definition top_button (click : page_click) (clock : datetime) : App unit :=
  is_running <- read (fun s => flag s running) ;;
  if negb is_running then
    match click with
    | page_start => _open_dialog show_start_setup
    | _ => ret tt
    end
  else
    is_paused <- read (fun s => flag s paused) ;;
    if is_paused then
      match click with
      | page_resume =>
          let now := now_of clock in
          short <- read (seat_short now) ;;
          match short with
          | Some left_sec =>
              assign (set_flag pending_resume true) ;;
              assign (set_context ctx_resume) ;;
              assign (set_float extension_seat_left_sec (Some left_sec)) ;;
              _open_dialog show_extension_dialog
          | None =>
              _resume_timer now ;;
              st_rerun
          end
      | _ => ret tt
      end
    else ret tt.

(** The pause / stop buttons below the timer. *)
Definition bottom_buttons (click : page_click) : App unit :=
  is_running <- read (fun s => flag s running) ;;
  when is_running (
    is_paused <- read (fun s => flag s paused) ;;
    match click with
    | page_pause =>
        if is_paused then ret tt else _open_dialog show_pause_dialog
    | page_stop => _open_dialog show_stop_dialog
    | _ => ret tt
    end).

(** [f"{n:02d}"] *)
Definition fmt02d (n : Z) : string :=
  let digits := DecimalString.NilZero.string_of_int (Z.to_int n) in
  if (String.length digits <? 2)%nat then ("0" ++ digits)%string
  else digits.

(** [f"{int(rem_sec//60):02d}:{int(rem_sec%60):02d}"] *)
Definition mmss (rem_sec : Q) : string :=
  let whole_min := Qfloor (rem_sec / 60) in
  let rest_sec := (rem_sec - inject_Z (60 * whole_min))%Q in
  (fmt02d whole_min ++ ":" ++ fmt02d (float_int rest_sec))%string.

Definition run_timer_fragment (clock : datetime) : App unit :=
  is_running <- read (fun s => flag s running) ;;
  if negb is_running then
    render (mkpie 0 "#ccc" "00:00" "대기 중")
  else
  let now := now_of clock in
  (* 1. blocked: the rest is over and the seat has to be extended *)
  blocked <- read (fun s => flag s block_next_focus_until_seat_extended) ;;
  if blocked then
    assign (set_phase REST) ;;
    assign (set_stamp phase_end_dt (Some now)) ;;
    shown <- read (fun s => flag s show_extension_dialog) ;;
    when (negb shown) (
      assign (set_context ctx_break) ;;
      use <- read (fun s => use_seat (settings s)) ;;
      when use (
        seat_left_sec <-
          read (fun s =>
                  compute_seat_left_seconds now (seat_start_dt (settings s))
                    (num s seat_extension_min)) ;;
        match seat_left_sec with
        | Some seat_left_sec =>
            assign (set_float extension_seat_left_sec
                      (Some (float_max 0 seat_left_sec)))
        | None => ret tt
        end) ;;
      assign (set_flag show_extension_dialog true) ;;
      st_rerun) ;;
    render (mkpie 100 "#4CAF50" "00:00" "휴식(대기) ⛔")
  else
  (* 2. paused *)
  is_paused <- read (fun s => flag s paused) ;;
  if is_paused then
    cur <- read phase ;;
    let '(color, status) :=
      match cur with
      | FOCUS => ("#FF4B4B", "집중(일시정지) ⏸️")%string
      | _ => ("#4CAF50", "휴식(일시정지) ⏸️")%string
      end in
    snap_prog <- read (fun s => float s pause_snapshot_prog) ;;
    snap_rem <- read (fun s => float s pause_snapshot_rem_sec) ;;
    match snap_prog, snap_rem with
    | Some snap_prog, Some snap_rem =>
        let rem_sec := float_max 0 snap_rem in
        render (mkpie snap_prog color (mmss rem_sec) status)
    | _, _ => render (mkpie 0 "#999" "PAUSE" "일시정지 ⏸️")
    end
  else
  (* 3. running *)
  cur <- read phase ;;
  phase_start <- read (fun s => stamp s phase_start_dt) ;;
  phase_end <- read (fun s => stamp s phase_end_dt) ;;
  match cur, phase_start, phase_end with
  | (FOCUS | REST), Some phase_start, Some phase_end =>
      let '(prog, rem_sec) := progress phase_start phase_end now in
      let '(color, status) :=
        match cur with
        | FOCUS => ("#FF4B4B", "집중 🔥")%string
        | _ => ("#4CAF50", "휴식 ☕")%string
        end in
      render (mkpie prog color (mmss rem_sec) status) ;;

      (* 4. the phase is over; [cur] is FOCUS or REST here *)
      if dt_ge now phase_end then
        match cur with
        | FOCUS =>
            ps <- read (fun s => stamp s phase_start_dt) ;;
            match ps with
            | Some _ => _ <- log_focus_segment_if_any ps now ;; ret tt
            | None => ret tt
            end ;;
            _switch_phase now REST ;;
            assign (set_flag block_next_focus_until_seat_extended false) ;;
            shown <- read (fun s => flag s show_extension_dialog) ;;
            when shown st_rerun
        | _ =>
            short <- read (seat_short now) ;;
            match short with
            | Some seat_left_sec =>
                assign (set_flag block_next_focus_until_seat_extended true) ;;
                assign (set_context ctx_break) ;;
                assign (set_float extension_seat_left_sec
                          (Some seat_left_sec)) ;;
                assign (set_flag show_extension_dialog true) ;;
                assign (set_stamp phase_end_dt (Some now)) ;;
                st_rerun
            | None =>
                assign (set_flag block_next_focus_until_seat_extended false) ;;
                _switch_phase now FOCUS
            end
        end
      else
      (* 5. the one-off seat alert during a rest *)
      match cur with
      | FOCUS => ret tt
      | _ =>
          short <- read (seat_short now) ;;
          alerted <- read (fun s => flag s seat_alert_shown_in_rest) ;;
          match short with
          | Some seat_left_sec =>
              when (negb alerted) (
                assign (set_flag seat_alert_shown_in_rest true) ;;
                assign (set_context ctx_break) ;;
                assign (set_float extension_seat_left_sec
                          (Some seat_left_sec)) ;;
                assign (set_flag show_extension_dialog true) ;;
                st_rerun)
          | None => ret tt
          end
      end
  | _, _, _ => render (mkpie 0 "#ccc" "00:00" "대기 중")
  end.

(** [reset_db] *)
Definition reset_db : App unit :=
  fun w => (Ret tt, mkworld (ss w) [] [] (pie w)).

(** What can trigger a run of one of the handlers. *)
Inductive event : Type :=
  | ev_tick (clock : datetime)
  | ev_seat_toggle (seat_toggle edit : bool) (clock : datetime)
  | ev_seat_dialog (ref : time_ref) (new_time : option dtime)
      (click : dialog_click) (clock : datetime)
  | ev_top (click : page_click) (clock : datetime)
  | ev_bottom (click : page_click)
  | ev_start_dialog (mode : start_mode) (click : start_click)
      (clock : datetime)
  | ev_extension_dialog (click : ext_click) (clock : datetime)
  | ev_pause_dialog (reason : string) (click : dialog_click)
      (clock : datetime)
  | ev_stop_dialog (reason : string) (click : dialog_click)
      (clock : datetime).

Definition handler (e : event) : App unit :=
  match e with
  | ev_tick clock => run_timer_fragment clock
  | ev_seat_toggle seat_toggle edit clock =>
      seat_toggle_row seat_toggle edit clock
  | ev_seat_dialog ref new_time click clock =>
      seat_settings_dialog ref new_time click clock
  | ev_top click clock => top_button click clock
  | ev_bottom click => bottom_buttons click
  | ev_start_dialog mode click clock => start_setup_dialog mode click clock
  | ev_extension_dialog click clock => extension_dialog click clock
  | ev_pause_dialog reason click clock => pause_dialog reason click clock
  | ev_stop_dialog reason click clock => stop_dialog reason click clock
  end.

Definition step (w : world) (e : event) : world := exec (handler e) w.

Definition run (es : list event) (w : world) : world :=
  fold_left step es w.

(* ================================================================== *)
(** ** Scenarios and statements *)
(* ================================================================== *)

(** A clock reading of the day of the examples. *)
Definition day0 (h m s : Z) : datetime := mkdt 738000 h m s 250000.

(** The session of a first run at 09:00:12, seat tracking off, and empty
    tables. *)
Definition fresh : world :=
  mkworld (defaults (day0 9 0 12)) [] [] None.

(** Seat tracking switched on at 19:02 and the seat entered as taken at
    19:00: it expires at 22:00. *)
Definition seated : world :=
  run [ev_seat_toggle true false (day0 19 2 0);
       ev_seat_dialog ref_start (Some (mktime 19 0 0 0)) click_confirm
         (day0 19 2 30)] fresh.

(** A timer started at 10:00:00 for 25 minutes and paused at 10:10:00. *)
Definition paused_at_10_10 : world :=
  run [ev_start_dialog mode_25_5 start_go (day0 10 0 0);
       ev_pause_dialog "물/커피" click_confirm (day0 10 10 0)] fresh.

(** Focus from 20:50:00, the rest begun at 21:15:00 with its seat alert
    closed: at 21:20:00 the rest is over and the seat has 40 minutes
    left. *)
Definition rest_over_at_21_20 : world :=
  run [ev_start_dialog mode_25_5 start_go (day0 20 50 0);
       ev_tick (day0 21 15 0);
       ev_extension_dialog ext_close (day0 21 15 3)] seated.

(** The time the pie shows. *)
Definition shown_time (w : world) : option string :=
  option_map pie_time_text (pie w).

(** The timer held at the end of a rest until the seat is extended. *)
Definition frozen (w : world) : Prop :=
  flag (ss w) running = true
  /\ flag (ss w) block_next_focus_until_seat_extended = true
  /\ flag (ss w) show_extension_dialog = true
  /\ context_str (seat_extension_context (ss w)) = "break"%string
  /\ phase (ss w) = REST
  /\ shown_time w = Some "00:00"%string.

(** Successive runs of the timer fragment. *)
Definition ticks (clocks : list datetime) (w : world) : world :=
  run (map ev_tick clocks) w.

(** What [log_focus_segment_if_any] leaves in [study_sessions]. *)
Definition logged (rows : list session_row) (t0 t1 : datetime)
    : list session_row :=
  if 0 <? _minutes_between t0 t1
  then rows ++ [mkrow (strftime t0) (strftime t1) (_minutes_between t0 t1)]
  else rows.

(** The minutes recorded in [study_sessions]. *)
Definition total_focus_minutes (rows : list session_row) : Z :=
  fold_right (fun r acc => focus_minutes r + acc) 0 rows.

(** The minutes an extension button grants. *)
Definition granted_minutes (click : ext_click) : option Z :=
  match click with
  | ext_1h => Some 60
  | ext_2h => Some 120
  | ext_3h => Some 180
  | _ => None
  end.

(** The timer of [rest_over_at_21_20], held by the tick of 21:20:00. *)
Definition held_at_21_20 : world :=
  step rest_over_at_21_20 (ev_tick (day0 21 20 0)).

(** Focus from 20:50:00, paused at 21:00:00; the seat expires at 22:00
    and the resume button is clicked at 22:10:00. *)
Definition resume_asked_at_22_10 : world :=
  run [ev_start_dialog mode_25_5 start_go (day0 20 50 0);
       ev_pause_dialog "연락/전화" click_confirm (day0 21 0 0);
       ev_top page_resume (day0 22 10 0)] seated.

(** The five dialog flags are down. *)
Definition no_dialog_flag (s : session) : Prop :=
  flag s show_start_setup = false
  /\ flag s show_extension_dialog = false
  /\ flag s show_pause_dialog = false
  /\ flag s show_stop_dialog = false
  /\ flag s show_seat_settings = false.

(** The timer of the two sessions is the same. *)
Definition same_timer (s s' : session) : Prop :=
  flag s' running = flag s running
  /\ flag s' paused = flag s paused
  /\ phase s' = phase s
  /\ (forall k, stamp s' k = stamp s k)
  /\ (forall k, float s' k = float s k)
  /\ (forall k, num s' k = num s k)
  /\ flag s' block_next_focus_until_seat_extended
     = flag s block_next_focus_until_seat_extended
  /\ flag s' seat_alert_shown_in_rest = flag s seat_alert_shown_in_rest
  /\ seat_extension_context s' = seat_extension_context s
  /\ settings s' = settings s.

(** The clock reading an event carries. *)
Definition event_clock (e : event) : option datetime :=
  match e with
  | ev_tick c | ev_seat_toggle _ _ c | ev_seat_dialog _ _ _ c
  | ev_top _ c | ev_start_dialog _ _ c
  | ev_extension_dialog _ c | ev_pause_dialog _ _ c
  | ev_stop_dialog _ _ c => Some c
  | ev_bottom _ => None
  end.

(** What a run started in [w] may have done to [study_sessions]:
    nothing, or one more row, for a focus that was on in [w] and has
    lasted a whole minute at least by the time of the run. *)
Definition rows_ok (clock : option datetime) (w : world) {A}
    (r : outcome A * world) : Prop :=
  study_sessions (snd r) = study_sessions w
  \/ exists c ps,
       clock = Some c
       /\ phase (ss w) = FOCUS
       /\ stamp (ss w) phase_start_dt = Some ps
       /\ 0 < _minutes_between ps (now_of c)
       /\ study_sessions (snd r)
          = study_sessions w
            ++ [mkrow (strftime ps) (strftime (now_of c))
                  (_minutes_between ps (now_of c))].

(** A focus started at 10:00:00, paused at 10:01:00 and resumed ten
    minutes later. *)
Definition long_pause : world :=
  run [ev_start_dialog mode_25_5 start_go (day0 10 0 0);
       ev_pause_dialog "연락/전화" click_confirm (day0 10 1 0);
       ev_top page_resume (day0 10 11 0)] fresh.

(** What a run started in [w] may have done to the block flag: it is set
    only by the tick that ends the rest of a timer that is not paused. *)
Definition block_ok (e : event) (w : world) {A} (r : outcome A * world)
    : Prop :=
  flag (ss (snd r)) block_next_focus_until_seat_extended = true ->
  flag (ss w) block_next_focus_until_seat_extended = true
  \/ ((exists clock, e = ev_tick clock)
      /\ flag (ss w) running = true
      /\ flag (ss w) paused = false
      /\ phase (ss w) = REST).

(** The dialog that a run of the page opens, after the timer fragment:
    the first whose flag is up, in this order. *)
Definition dialog_chain (s : session) : option flag_key :=
  if flag s show_seat_settings then Some show_seat_settings
  else if flag s show_start_setup then Some show_start_setup
  else if flag s show_extension_dialog then Some show_extension_dialog
  else if flag s show_stop_dialog then Some show_stop_dialog
  else if flag s show_pause_dialog then Some show_pause_dialog
  else None.

(* ================================================================== *)
(** ** The page *)
(* ================================================================== *)

(** The script of the timer column, from the seat toggle to the pause and
    stop buttons.  It runs the timer fragment, then opens the dialog the
    chain chooses (a dialog opened by the script draws its widgets and
    changes nothing), and yields that choice. *)
Definition page_script (seat_toggle edit : bool) (click : page_click)
    (c1 c2 c3 : datetime) : App (option flag_key) :=
  seat_toggle_row seat_toggle edit c1 ;;
  top_button click c2 ;;
  run_timer_fragment c3 ;;
  opened <- read dialog_chain ;;
  need <- read (fun s => flag s need_main_rerun) ;;
  when need (
    assign (set_flag need_main_rerun false) ;;
    st_rerun) ;;
  bottom_buttons click ;;
  ret opened.

(** The page between two runs: the world, the dialog on the screen, and
    whether a rerun of the script is due. *)
Record page : Type := mkpage {
  page_world : world;
  opened : option flag_key;
  rerunning : bool
}.

(** The dialog an event belongs to. *)
Definition dialog_of (e : event) : option flag_key :=
  match e with
  | ev_seat_dialog _ _ _ _ => Some show_seat_settings
  | ev_start_dialog _ _ _ => Some show_start_setup
  | ev_extension_dialog _ _ => Some show_extension_dialog
  | ev_pause_dialog _ _ _ => Some show_pause_dialog
  | ev_stop_dialog _ _ _ => Some show_stop_dialog
  | _ => None
  end.

(** The page after a run that was not a run of the whole script. *)
Definition after_part (u : page) (r : outcome unit * world) : page :=
  match r with
  | (Ret _, w') => mkpage w' (opened u) (rerunning u)
  | (Rerun, w') => mkpage w' (opened u) true
  end.

(** The page after a run of the script. *)
Definition after_script (u : page) (r : outcome (option flag_key) * world)
    : page :=
  match r with
  | (Ret d, w') => mkpage w' d false
  | (Rerun, w') => mkpage w' (opened u) true
  end.

(** What happens on the page.  A click on the page, and every
    [st.rerun()], runs the script; the timer fragment runs on its own
    every second; a click on a button of the dialog on the screen runs
    that dialog on its own; the dialog can be dismissed, which runs
    nothing.  Clicks on the page and ticks are allowed at any time. *)
Inductive page_step (u : page) : page -> Prop :=
  | step_script seat_toggle edit click c1 c2 c3 :
      page_step u
        (after_script u
           (page_script seat_toggle edit click c1 c2 c3 (page_world u)))
  | step_tick clock :
      page_step u (after_part u (run_timer_fragment clock (page_world u)))
  | step_dialog e d :
      dialog_of e = Some d ->
      opened u = Some d ->
      rerunning u = false ->
      page_step u (after_part u (handler e (page_world u)))
  | step_dismiss :
      rerunning u = false ->
      page_step u (mkpage (page_world u) None false).

(** The first run of the script is due when the session is created. *)
Definition first_page (clock : datetime) : page :=
  mkpage (mkworld (defaults clock) [] [] None) None true.

Inductive reachable : page -> Prop :=
  | reach_start clock : reachable (first_page clock)
  | reach_step u u' : reachable u -> page_step u u' -> reachable u'.

(** A run raises the pause flag only from the pause dialog, and leaves
    [running] alone when it leaves the block flag up. *)
Definition flags_ok (e : event) (w : world) {A} (r : outcome A * world)
    : Prop :=
  (flag (ss (snd r)) paused = true ->
   flag (ss w) paused = true
   \/ exists reason clock, e = ev_pause_dialog reason click_confirm clock)
  /\ (flag (ss (snd r)) block_next_focus_until_seat_extended = true ->
      flag (ss (snd r)) running = flag (ss w) running).

(** A tick leaves the flag of the extension dialog up whenever it leaves
    the block flag up, and ends in a rerun when it raises the block
    flag. *)
Definition tick_ok (w : world) {A} (r : outcome A * world) : Prop :=
  (flag (ss w) block_next_focus_until_seat_extended = true ->
   flag (ss w) running = true) ->
  flag (ss (snd r)) block_next_focus_until_seat_extended = true ->
  flag (ss (snd r)) show_extension_dialog = true
  /\ (flag (ss w) block_next_focus_until_seat_extended = false ->
      fst r = Rerun).

(** A paused timer is not held, and a held timer is running. *)
Definition paused_apart (w : world) : Prop :=
  (flag (ss w) paused = true ->
   flag (ss w) block_next_focus_until_seat_extended = false)
  /\ (flag (ss w) block_next_focus_until_seat_extended = true ->
      flag (ss w) running = true).

(** What holds of every page: the above, and the pause dialog is not on
    the screen of a held timer. *)
Definition page_inv (u : page) : Prop :=
  paused_apart (page_world u)
  /\ (rerunning u = false ->
      opened u = Some show_pause_dialog ->
      flag (ss (page_world u)) block_next_focus_until_seat_extended
      = false).

(** A page that the application reaches with a paused timer: the first
    run of the script, the start button and the start dialog at
    10:00:00, then the pause button and the pause dialog at 10:10. *)
Definition script_run (click : page_click) (clock : datetime) (u : page)
    : page :=
  after_script u
    (page_script false false click clock clock clock (page_world u)).

Definition dialog_run (e : event) (u : page) : page :=
  after_part u (handler e (page_world u)).

Definition start_asked_page : page :=
  script_run page_none (day0 9 0 14)
    (script_run page_start (day0 9 0 13)
       (script_run page_none (day0 9 0 12) (first_page (day0 9 0 12)))).

Definition focus_page : page :=
  script_run page_none (day0 10 0 1)
    (dialog_run (ev_start_dialog mode_25_5 start_go (day0 10 0 0))
       start_asked_page).

Definition pause_asked_page : page :=
  script_run page_none (day0 10 10 1)
    (script_run page_pause (day0 10 10 0) focus_page).

Definition paused_page : page :=
  script_run page_none (day0 10 10 6)
    (dialog_run (ev_pause_dialog "화장실" click_confirm (day0 10 10 5))
       pause_asked_page).

(* ================================================================== *)
(** ** Texts and the seat box *)
(* ================================================================== *)

(** The invariant of Python's [time] type. *)
Definition wf_time (t : dtime) : Prop :=
  0 <= t_hour t < 24 /\ 0 <= t_minute t < 60 /\
  0 <= t_second t < 60 /\ 0 <= t_microsecond t < 1000000.

(** [f"{n}"] *)
Definition fmtd (n : Z) : string :=
  DecimalString.NilZero.string_of_int (Z.to_int n).

Definition format_hms (sec : Q) : string :=
  let s := float_int (float_max 0 sec) in
  let h := s / 3600 in
  let m := (s mod 3600) / 60 in
  let s60 := s mod 60 in
  (fmtd h ++ ":" ++ fmt02d m ++ ":" ++ fmt02d s60)%string.

Definition _time_band (h : Z) : string :=
  if h <? 6 then "새벽(00-06)"
  else if h <? 12 then "오전(06-12)"
  else if h <? 18 then "오후(12-18)"
  else "저녁(18-24)".

(** [d.strftime('%H:%M')] *)
Definition hhmm (d : datetime) : string :=
  (fmt02d (dt_hour d) ++ ":" ++ fmt02d (dt_minute d))%string.

(** What the seat box under the buttons shows. *)
Inductive seat_box : Type :=
  | box_hidden
  | box_reset (next_open : string)
  | box_unset
  | box_before (start : string)
  | box_left (txt expiry : string)
  | box_expired.

Definition seat_always_box (clock : datetime) (s : session) : seat_box :=
  if negb (use_seat (settings s)) then box_hidden
  else
  let now := now_of clock in
  if is_seat_reset_window now then
    let nxt := next_seat_open_dt now in
    box_reset (hhmm nxt)
  else
  match seat_start_dt (settings s) with
  | None => box_unset
  | Some seat_start_dt =>
      let left_sec :=
        compute_seat_left_seconds now (Some seat_start_dt)
          (num s seat_extension_min) in
      let expiry :=
        get_seat_expiry_dt seat_start_dt (num s seat_extension_min) in
      if dt_lt now seat_start_dt then box_before (hhmm seat_start_dt)
      else
        match left_sec with
        | Some left_sec =>
            if Qlt_bool 0 left_sec
            then box_left (format_hms left_sec) (hhmm expiry)
            else box_expired
        | None => box_expired
        end
  end.

(** The integer a decimal text stands for. *)
Definition read_int (s : string) : option Z :=
  option_map Z.of_int (DecimalString.NilZero.int_of_string s).

(* ================================================================== *)
(** ** The tables *)
(* ================================================================== *)

(** The world with older rows before those of its two tables. *)
Definition with_earlier (rows : list session_row)
    (ints : list interruption_row) (w : world) : world :=
  mkworld (ss w) (rows ++ study_sessions w) (ints ++ interruptions w)
    (pie w).

(** A run that only appends to the tables: rows that were there before
    stay in front and change nothing of what the run does. *)
Definition appends_only {A} (m : App A) : Prop :=
  forall rows ints w,
    m (with_earlier rows ints w)
    = (fst (m w), with_earlier rows ints (snd (m w))).

(** The row of [interruptions] that an event writes. *)
Definition interruption_of (e : event) (s : session)
    : list interruption_row :=
  match e with
  | ev_pause_dialog reason click_confirm clock =>
      [mkinterruption (strftime (now_of clock)) ("[중단] " ++ reason) 0
         (phase s)]
  | ev_stop_dialog reason click_confirm clock =>
      [mkinterruption (strftime (now_of clock)) ("[종료] " ++ reason) 0
         (phase s)]
  | _ => []
  end.

(** The button of a dialog that the event clicks is there to click: the
    extension buttons are drawn only while the seat is not reported as
    expired. *)
Definition clicked (e : event) (s : session) : bool :=
  match e with
  | ev_seat_dialog _ _ click _ | ev_pause_dialog _ click _
  | ev_stop_dialog _ click _ =>
      match click with click_none => false | _ => true end
  | ev_start_dialog _ click _ =>
      match click with start_none => false | _ => true end
  | ev_extension_dialog click _ =>
      match click with
      | ext_none => false
      | ext_close => true
      | _ => negb (is_expired s)
      end
  | _ => false
  end.

(** A property of what a run gives. *)
Definition after_run {A} (P : outcome A * world -> Prop)
    (r : outcome A * world) : Prop := P r.

(** The timer of [w'] is running and held, and the tables are those of
    [w]. *)
Definition still_held (w w' : world) : Prop :=
  flag (ss w') running = true
  /\ flag (ss w') block_next_focus_until_seat_extended = true
  /\ study_sessions w' = study_sessions w
  /\ interruptions w' = interruptions w.

(* ================================================================== *)
(** ** The to-do list *)
(* ================================================================== *)

(** A row of [todos].  The [id] is the INTEGER PRIMARY KEY that SQLite
    assigns; [date] is the day, kept as its ordinal. *)
Record todo_row : Type := mktodo {
  todo_id : Z;
  task : string;
  status : string;
  date : Z;
  is_subtask : Z;
  task_order : Z
}.

(** [WHERE status != 'deleted'] *)
Definition not_deleted (r : todo_row) : bool :=
  negb (String.eqb (status r) "deleted"%string).

(** [max] of a column, [None] (NULL) for no row. *)
Definition column_max (l : list Z) : option Z :=
  fold_right
    (fun x acc =>
       Some match acc with Some m => Z.max x m | None => x end)
    None l.

(** The id of an inserted row: one more than the largest id in the
    table, 1 in an empty table. *)
Definition next_id (rows : list todo_row) : Z :=
  match column_max (map todo_id rows) with
  | Some m => m + 1
  | None => 1
  end.

(** The form at the top of the list; [today] is the day of the run. *)
Definition add_todo (new_task : string) (today : Z)
    (rows : list todo_row) : list todo_row :=
  if negb (String.eqb new_task ""%string) then
    let max_order :=
      match column_max (map task_order (filter not_deleted rows)) with
      | Some m => m
      | None => 0
      end in
    rows ++ [mktodo (next_id rows) new_task "pending"%string today 0
               (max_order + 1)]
  else rows.

(** [UPDATE todos SET status=? WHERE id=?] and
    [UPDATE todos SET task=? WHERE id=?] *)
Definition update_status (v : string) (id : Z) (rows : list todo_row)
    : list todo_row :=
  map (fun r =>
         if todo_id r =? id
         then mktodo (todo_id r) (task r) v (date r) (is_subtask r)
                (task_order r)
         else r) rows.

Definition update_task (v : string) (id : Z) (rows : list todo_row)
    : list todo_row :=
  map (fun r =>
         if todo_id r =? id
         then mktodo (todo_id r) v (status r) (date r) (is_subtask r)
                (task_order r)
         else r) rows.

(** The row of the list whose widgets carry the key [id]: the widgets
    are drawn for the rows that are not deleted. *)
Definition shown_row (id : Z) (rows : list todo_row) : option todo_row :=
  find (fun r => not_deleted r && (todo_id r =? id)) rows.

(** The checkbox, the text field and the delete button of a row. *)
Definition toggle_todo (id : Z) (rows : list todo_row) : list todo_row :=
  match shown_row id rows with
  | Some row =>
      let is_done := String.eqb (status row) "done"%string in
      let new_status := (if is_done then "pending" else "done")%string in
      update_status new_status id rows
  | None => rows
  end.

Definition edit_todo (id : Z) (new_val : string) (rows : list todo_row)
    : list todo_row :=
  match shown_row id rows with
  | Some row =>
      let is_done := String.eqb (status row) "done"%string in
      if is_done then rows
      else if negb (String.eqb new_val (task row))
           then update_task new_val id rows
           else rows
  | None => rows
  end.

Definition delete_todo (id : Z) (rows : list todo_row) : list todo_row :=
  match shown_row id rows with
  | Some row => update_status "deleted"%string id rows
  | None => rows
  end.

Inductive todo_event : Type :=
  | todo_add (new_task : string) (today : Z)
  | todo_toggle (id : Z)
  | todo_edit (id : Z) (new_val : string)
  | todo_delete (id : Z).

Definition todo_step (rows : list todo_row) (e : todo_event)
    : list todo_row :=
  match e with
  | todo_add new_task today => add_todo new_task today rows
  | todo_toggle id => toggle_todo id rows
  | todo_edit id new_val => edit_todo id new_val rows
  | todo_delete id => delete_todo id rows
  end.

Definition todo_run (es : list todo_event) (rows : list todo_row)
    : list todo_row :=
  fold_left todo_step es rows.

(** A result of
    [SELECT * FROM todos WHERE status != 'deleted' ORDER BY task_order ASC]:
    the rows that are not deleted, by ascending [task_order]; SQL leaves
    the order of rows with the same [task_order] open. *)
Definition listing (rows l : list todo_row) : Prop :=
  Permutation l (filter not_deleted rows)
  /\ StronglySorted (fun a b => task_order a <= task_order b) l.

(* ================================================================== *)
(** ** What holds of every timer *)
(* ================================================================== *)

(** The world of a first run. *)
Definition first_world (clock : datetime) : world :=
  mkworld (defaults clock) [] [] None.

(** The timer is running exactly when it has a phase; a running timer
    has the two times of its phase; a held timer is running. *)
Definition timer_inv (s : session) : Prop :=
  (flag s running = true <-> phase s <> IDLE)
  /\ (flag s running = true ->
      stamp s phase_start_dt <> None /\ stamp s phase_end_dt <> None)
  /\ (flag s block_next_focus_until_seat_extended = true ->
      flag s running = true).

(** The progress kept at a pause is a percentage. *)
Definition snapshot_ok (s : session) : Prop :=
  forall q, float s pause_snapshot_prog = Some q ->
            (0 <= q)%Q /\ (q <= 100)%Q.

(** The pie on the screen shows a percentage, and so will the pie of a
    paused timer. *)
Definition percent_ok (w : world) : Prop :=
  snapshot_ok (ss w)
  /\ forall p, pie w = Some p ->
               (0 <= pie_percentage p)%Q /\ (pie_percentage p <= 100)%Q.

(** The minutes of the modes of the start dialog. *)
Definition mode_minutes (mode : start_mode) : Z * Z :=
  match mode with
  | mode_test => (2, 1)
  | mode_25_5 => (25, 5)
  | mode_50_10 => (50, 10)
  end.

(* ================================================================== *)
(** ** Facts about the time model *)
(* ================================================================== *)

Lemma wf_dtb_spec d : wf_dtb d = true <-> wf_dt d.
Proof.
  unfold wf_dtb, wf_dt.
  rewrite !andb_true_iff, !Z.leb_le, !Z.ltb_lt. tauto.
Qed.

Lemma div_mod_pack q r b :
  0 <= r < b -> (q * b + r) / b = q /\ (q * b + r) mod b = r.
Proof.
  intros Hr. split.
  - rewrite Z.add_comm, Z.div_add by lia.
    rewrite Z.div_small by lia. lia.
  - rewrite Z.add_comm, Z.mod_add by lia.
    apply Z.mod_small; lia.
Qed.

Lemma of_us_to_us d : wf_dt d -> of_us (to_us d) = d.
Proof.
  intros (Hh & Hm & Hs & Hu). destruct d as [o h m s u]; simpl in *.
  unfold of_us, to_us; simpl.
  destruct (div_mod_pack (((o * 24 + h) * 60 + m) * 60 + s) u 1000000 Hu)
    as [E1 E1'].
  destruct (div_mod_pack ((o * 24 + h) * 60 + m) s 60 Hs) as [E2 E2'].
  destruct (div_mod_pack (o * 24 + h) m 60 Hm) as [E3 E3'].
  destruct (div_mod_pack o h 24 Hh) as [E4 E4'].
  rewrite E1, E1', E2, E2', E3, E3', E4, E4'. reflexivity.
Qed.

Lemma wf_of_us z : wf_dt (of_us z).
Proof.
  unfold wf_dt, of_us; simpl.
  repeat split; try apply Z.mod_pos_bound; lia.
Qed.

Lemma to_us_of_us z : to_us (of_us z) = z.
Proof.
  unfold to_us, of_us; simpl.
  pose proof (Z.div_mod z 1000000 ltac:(lia)).
  pose proof (Z.div_mod (z / 1000000) 60 ltac:(lia)).
  pose proof (Z.div_mod (z / 1000000 / 60) 60 ltac:(lia)).
  pose proof (Z.div_mod (z / 1000000 / 60 / 60) 24 ltac:(lia)).
  lia.
Qed.

Lemma wf_now_of clock : wf_dt clock -> wf_dt (now_of clock).
Proof. unfold wf_dt, now_of; simpl; lia. Qed.

Lemma dt_cmp_to_us a b :
  wf_dt a -> wf_dt b -> dt_cmp a b = (to_us a ?= to_us b).
Proof.
  intros (Hh & Hm & Hs & Hu) (Hh' & Hm' & Hs' & Hu').
  destruct a as [o h m s u], b as [o' h' m' s' u']; simpl in *.
  unfold dt_cmp, to_us, lex; simpl.
  symmetry.
  destruct (Z.compare_spec o o');
  destruct (Z.compare_spec h h');
  destruct (Z.compare_spec m m');
  destruct (Z.compare_spec s s');
  destruct (Z.compare_spec u u');
  first [ apply Z.compare_eq_iff | apply Z.compare_lt_iff
        | apply Z.compare_gt_iff ]; lia.
Qed.

Lemma dt_lt_to_us a b :
  wf_dt a -> wf_dt b -> dt_lt a b = (to_us a <? to_us b).
Proof.
  intros Ha Hb. unfold dt_lt, Z.ltb. now rewrite dt_cmp_to_us.
Qed.

Lemma dt_le_to_us a b :
  wf_dt a -> wf_dt b -> dt_le a b = (to_us a <=? to_us b).
Proof.
  intros Ha Hb. unfold dt_le, Z.leb. now rewrite dt_cmp_to_us.
Qed.

Lemma to_us_dt_add d td : to_us (dt_add d td) = to_us d + td.
Proof. unfold dt_add. apply to_us_of_us. Qed.

Lemma lex_antisym c1 c2 c1' c2' :
  c1' = CompOpp c1 -> c2' = CompOpp c2 -> lex c1' c2' = CompOpp (lex c1 c2).
Proof. intros -> ->. now destruct c1. Qed.

Lemma dt_cmp_antisym a b : dt_cmp b a = CompOpp (dt_cmp a b).
Proof.
  unfold dt_cmp.
  repeat (apply lex_antisym; [apply Z.compare_antisym|]).
  apply Z.compare_antisym.
Qed.

Lemma dt_min_le_r a b : dt_le (dt_min a b) b = true.
Proof.
  unfold dt_min, dt_lt, dt_le.
  rewrite (dt_cmp_antisym a b).
  destruct (dt_cmp a b) eqn:E; simpl; try reflexivity.
  - now rewrite E.
  - now rewrite E.
  - assert (R : dt_cmp b b = Eq).
    { unfold dt_cmp, lex. now rewrite !Z.compare_refl. }
    now rewrite R.
Qed.

Lemma reset_window_hours now :
  wf_dt now ->
  is_seat_reset_window now = true <-> (23 <= dt_hour now \/ dt_hour now < 6).
Proof.
  intros (Hh & Hm & Hs & Hu).
  unfold is_seat_reset_window, time_ge, time_lt, time_cmp, lex, dt_time,
    SEAT_CLOSE_HOUR, SEAT_OPEN_HOUR; simpl.
  rewrite orb_true_iff.
  destruct (Z.compare_spec (dt_hour now) 23);
  destruct (Z.compare_spec (dt_hour now) 6);
  destruct (Z.compare_spec (dt_minute now) 0);
  destruct (Z.compare_spec (dt_second now) 0);
  destruct (Z.compare_spec (dt_microsecond now) 0);
  split; intros; try lia; intuition (try discriminate; try lia).
Qed.

(* ================================================================== *)
(** ** The seat calculator *)
(* ================================================================== *)

Lemma base_expiry_2130 day :
  dt_add (mkdt day 21 30 0 0) (td_minutes (SEAT_BASE_MIN + 0))
  = mkdt (day + 1) 0 30 0 0.
Proof.
  unfold dt_add.
  replace (to_us (mkdt day 21 30 0 0) + td_minutes (SEAT_BASE_MIN + 0))
    with (to_us (mkdt (day + 1) 0 30 0 0))
    by (unfold to_us, td_minutes, SEAT_BASE_MIN; simpl; lia).
  apply of_us_to_us. unfold wf_dt; simpl; lia.
Qed.

Lemma wf_get_seat_expiry_dt s ext : wf_dt (get_seat_expiry_dt s ext).
Proof.
  unfold get_seat_expiry_dt, dt_min.
  destruct (dt_lt _ _).
  - unfold wf_dt, seat_close_dt_for, SEAT_CLOSE_HOUR; simpl. lia.
  - apply wf_of_us.
Qed.

(** C2.  The expiry of a seat never lies after 23:00 of the day the seat
    was started, whatever the extension; a seat started at 21:30 without
    extension expires at 23:00 of that day, not 180 minutes later. *)
Theorem expiry_at_most_closing :
  (forall seat_start ext,
     dt_le (get_seat_expiry_dt seat_start ext) (seat_close_dt_for seat_start)
     = true)
  /\ (forall seat_start ext,
        to_us (get_seat_expiry_dt seat_start ext)
        <= to_us (seat_close_dt_for seat_start))
  /\ (forall seat_start, seat_close_dt_for seat_start
                         = mkdt (dt_ordinal seat_start) 23 0 0 0)
  /\ (forall day,
        let seat_start := mkdt day 21 30 0 0 in
        get_seat_expiry_dt seat_start 0 = mkdt day 23 0 0 0
        /\ dt_sub (get_seat_expiry_dt seat_start 0) seat_start = td_minutes 90
        /\ get_seat_expiry_dt seat_start 0
           <> dt_add seat_start (td_minutes 180)).
Proof.
  assert (Hle : forall seat_start ext,
            dt_le (get_seat_expiry_dt seat_start ext)
              (seat_close_dt_for seat_start) = true)
    by (intros; unfold get_seat_expiry_dt; apply dt_min_le_r).
  split; [exact Hle|]. split; [|split].
  - intros seat_start ext. specialize (Hle seat_start ext).
    rewrite dt_le_to_us in Hle.
    + now apply Z.leb_le.
    + apply wf_get_seat_expiry_dt.
    + unfold wf_dt, seat_close_dt_for, SEAT_CLOSE_HOUR; simpl. lia.
  - reflexivity.
  - intros day seat_start.
    assert (E : get_seat_expiry_dt seat_start 0 = mkdt day 23 0 0 0).
    { unfold get_seat_expiry_dt, seat_start. rewrite base_expiry_2130.
      unfold dt_min, dt_lt, dt_cmp, seat_close_dt_for, SEAT_CLOSE_HOUR; simpl.
      replace (day ?= day + 1) with Lt
        by (symmetry; apply Z.compare_lt_iff; lia).
      reflexivity. }
    rewrite E. split; [reflexivity|split].
    + unfold dt_sub, to_us, td_minutes, seat_start; simpl. lia.
    + unfold seat_start.
      change (td_minutes 180) with (td_minutes (SEAT_BASE_MIN + 0)).
      rewrite base_expiry_2130. intros H. injection H. lia.
Qed.

Lemma total_seconds_neg td : (total_seconds td < 0)%Q <-> td < 0.
Proof. unfold total_seconds, Qlt; simpl. lia. Qed.

(** C4.  [compute_seat_left_seconds] gives [None] exactly when no seat
    start is set, or [now] is in the reset window (from 23:00, or before
    06:00), or [now] is earlier than the seat start.  In every other case
    it gives the seconds from [now] to the expiry, a negative number when
    the seat has already expired. *)
Theorem seat_left_seconds_cases now seat_start ext
    (Hnow : wf_dt now)
    (Hstart : forall s, seat_start = Some s -> wf_dt s) :
  (compute_seat_left_seconds now seat_start ext = None <->
     seat_start = None
     \/ (23 <= dt_hour now \/ dt_hour now < 6)
     \/ exists s, seat_start = Some s /\ to_us now < to_us s)
  /\ (forall s,
        seat_start = Some s ->
        ~ (23 <= dt_hour now \/ dt_hour now < 6) ->
        to_us s <= to_us now ->
        let left := total_seconds (dt_sub (get_seat_expiry_dt s ext) now) in
        compute_seat_left_seconds now seat_start ext = Some left
        /\ ((left < 0)%Q <-> to_us (get_seat_expiry_dt s ext) < to_us now)).
Proof.
  pose proof (reset_window_hours now Hnow) as HR.
  unfold compute_seat_left_seconds.
  destruct seat_start as [s|].
  - specialize (Hstart s eq_refl).
    rewrite (dt_lt_to_us now s Hnow Hstart).
    destruct (is_seat_reset_window now) eqn:EW.
    + assert (W : 23 <= dt_hour now \/ dt_hour now < 6) by now apply HR.
      split; [tauto|]. intros s' _ Hn. contradiction.
    + assert (W : ~ (23 <= dt_hour now \/ dt_hour now < 6)).
      { intros H. apply HR in H. discriminate. }
      destruct (to_us now <? to_us s) eqn:EL.
      * apply Z.ltb_lt in EL. split.
        -- split; [intros _|reflexivity]. right; right. now exists s.
        -- intros s' E _ Hle. injection E as <-. lia.
      * apply Z.ltb_ge in EL. split.
        -- split; [discriminate|].
           intros [H|[H|(s' & E & H)]]; [discriminate|contradiction|].
           injection E as <-. lia.
        -- intros s' E _ _. injection E as <-. split; [reflexivity|].
           rewrite total_seconds_neg. unfold dt_sub. lia.
  - split.
    + split; [now left|reflexivity].
    + intros s E. discriminate.
Qed.

Lemma seat_left_seconds_cases_witness :
  let now := mkdt 738000 22 5 0 0 in
  let s := mkdt 738000 19 0 0 0 in
  compute_seat_left_seconds now (Some s) 0 = Some (-300000000 # 1000000)
  /\ (-300000000 # 1000000 < 0)%Q.
Proof.
  intros now s.
  assert (Hnow : wf_dt now) by (unfold wf_dt; simpl; lia).
  assert (Hs : forall s', Some s = Some s' -> wf_dt s').
  { intros s' E. injection E as <-. unfold wf_dt; simpl; lia. }
  destruct (seat_left_seconds_cases now (Some s) 0 Hnow Hs) as [_ H].
  specialize (H s eq_refl).
  destruct H as [H1 H2].
  - simpl. lia.
  - vm_compute. discriminate.
  - split; [exact H1|]. apply H2. vm_compute. reflexivity.
Defined.

(* ================================================================== *)
(** ** Running the handlers *)
(* ================================================================== *)

Section Run.
Context {A B : Type}.

Lemma bind_ret (a : A) (k : A -> App B) w : bind (ret a) k w = k a w.
Proof. reflexivity. Qed.

Lemma bind_read (f : session -> A) (k : A -> App B) w :
  bind (read f) k w = k (f (ss w)) w.
Proof. reflexivity. Qed.

Lemma bind_rerun (k : A -> App B) w : bind st_rerun k w = (Rerun, w).
Proof. reflexivity. Qed.

Lemma bind_assign f (k : unit -> App B) w :
  bind (assign f) k w = k tt (with_session f w).
Proof. reflexivity. Qed.

Lemma bind_render p (k : unit -> App B) w :
  bind (render p) k w = k tt (with_pie p w).
Proof. reflexivity. Qed.

Lemma bind_insert_study_session r (k : unit -> App B) w :
  bind (insert_study_session r) k w = k tt (with_study_session r w).
Proof. reflexivity. Qed.

Lemma bind_insert_interruption r (k : unit -> App B) w :
  bind (insert_interruption r) k w = k tt (with_interruption r w).
Proof. reflexivity. Qed.

Lemma bind_when b m (k : unit -> App B) w :
  bind (when b m) k w = if b then bind m k w else k tt w.
Proof. now destruct b. Qed.

Lemma bind_bind {C} (m : App A) (f : A -> App B) (g : B -> App C) w :
  bind (bind m f) g w = bind m (fun a => bind (f a) g) w.
Proof. unfold bind. now destruct (m w) as [[a|] w']. Qed.
End Run.

(** Reads the keys of a session that was built by the setters. *)
Ltac session_simpl :=
  cbn [ss study_sessions interruptions pie
       with_session with_pie with_study_session with_interruption
       flag stamp num float phase seat_extension_context settings
       set_flag set_stamp set_num set_float set_phase set_context
       set_focus set_rest set_use_seat set_seat_start_dt
       use_seat seat_start_dt focus rest
       flag_key_beq stamp_key_beq num_key_beq float_key_beq
       negb andb orb fst snd].

(** Uses what is known of the session at hand. *)
Ltac use_facts :=
  repeat match goal with
  | H : flag ?s ?k = _ |- context [flag ?s ?k] => rewrite H
  | H : stamp ?s ?k = _ |- context [stamp ?s ?k] => rewrite H
  | H : float ?s ?k = _ |- context [float ?s ?k] => rewrite H
  | H : phase ?s = _ |- context [phase ?s] => rewrite H
  | H : seat_short ?n ?s = _ |- context [seat_short ?n ?s] => rewrite H
  | H : is_expired ?s = _ |- context [is_expired ?s] => rewrite H
  | H : dt_ge ?a ?b = _ |- context [dt_ge ?a ?b] => rewrite H
  | H : progress ?a ?b ?c = _ |- context [progress ?a ?b ?c] => rewrite H
  | H : (0 <? ?m) = _ |- context [0 <? ?m] => rewrite H
  end.

(** The settings and the extension are all the seat check reads. *)
Lemma seat_short_frame now s s' :
  settings s' = settings s ->
  num s' seat_extension_min = num s seat_extension_min ->
  seat_short now s' = seat_short now s.
Proof. intros E1 E2. unfold seat_short. now rewrite E1, E2. Qed.

Lemma bind_clear_dialog_flags {B} (k : unit -> App B) w :
  bind _clear_dialog_flags k w
  = k tt (with_session
            (fun s =>
               set_flag show_seat_settings false
                 (set_flag show_stop_dialog false
                    (set_flag show_pause_dialog false
                       (set_flag show_extension_dialog false
                          (set_flag show_start_setup false s))))) w).
Proof. reflexivity. Qed.

Lemma seat_short_set_flag now k v s :
  seat_short now (set_flag k v s) = seat_short now s.
Proof. reflexivity. Qed.
Lemma seat_short_set_stamp now k v s :
  seat_short now (set_stamp k v s) = seat_short now s.
Proof. reflexivity. Qed.
Lemma seat_short_set_float now k v s :
  seat_short now (set_float k v s) = seat_short now s.
Proof. reflexivity. Qed.
Lemma seat_short_set_phase now v s :
  seat_short now (set_phase v s) = seat_short now s.
Proof. reflexivity. Qed.
Lemma seat_short_set_context now v s :
  seat_short now (set_context v s) = seat_short now s.
Proof. reflexivity. Qed.
Lemma seat_short_set_focus now v s :
  seat_short now (set_focus v s) = seat_short now s.
Proof. reflexivity. Qed.
Lemma seat_short_set_rest now v s :
  seat_short now (set_rest v s) = seat_short now s.
Proof. reflexivity. Qed.

(** The seat check does not read what the timer writes. *)
Ltac seat_frame :=
  repeat first
    [ rewrite seat_short_set_flag | rewrite seat_short_set_stamp
    | rewrite seat_short_set_float | rewrite seat_short_set_phase
    | rewrite seat_short_set_context | rewrite seat_short_set_focus
    | rewrite seat_short_set_rest ].

Lemma run_ret {A} (a : A) w : ret a w = (Ret a, w).
Proof. reflexivity. Qed.
Lemma run_rerun {A} w : @st_rerun A w = (Rerun, w).
Proof. reflexivity. Qed.
Lemma run_assign f w : assign f w = (Ret tt, with_session f w).
Proof. reflexivity. Qed.
Lemma run_render p w : render p w = (Ret tt, with_pie p w).
Proof. reflexivity. Qed.
Lemma run_when b m w : when b m w = if b then m w else (Ret tt, w).
Proof. now destruct b. Qed.

Lemma minutes_between_nonneg t0 t1 : 0 <= _minutes_between t0 t1.
Proof. unfold _minutes_between. apply Z.div_pos; lia. Qed.

(** No whole minute has passed exactly when less than sixty seconds lie
    between the two times. *)
Lemma minutes_between_zero t0 t1 :
  _minutes_between t0 t1 = 0 <-> to_us t1 - to_us t0 < 60000000.
Proof.
  unfold _minutes_between.
  change (float_int (total_seconds (dt_sub t1 t0)))
    with (Z.quot (dt_sub t1 t0) 1000000).
  unfold dt_sub. set (td := to_us t1 - to_us t0).
  destruct (Z.le_gt_cases 0 td) as [Hn|Hn].
  - rewrite Z.quot_div_nonneg by lia.
    assert (0 <= td / 1000000) by (apply Z.div_pos; lia).
    rewrite Z.max_r by lia.
    pose proof (Z.div_mod td 1000000 ltac:(lia)).
    pose proof (Z.mod_pos_bound td 1000000 ltac:(lia)).
    pose proof (Z.div_mod (td / 1000000) 60 ltac:(lia)).
    pose proof (Z.mod_pos_bound (td / 1000000) 60 ltac:(lia)).
    assert (0 <= td / 1000000 / 60) by (apply Z.div_pos; lia).
    lia.
  - pose proof (Z.mul_quot_ge td 1000000 ltac:(lia) ltac:(lia)).
    rewrite Z.max_l by lia. split; [lia | reflexivity].
Qed.

(** The whole minutes between two times a whole number of seconds
    apart. *)
Lemma minutes_between_shift t0 t1 t0' t1' :
  to_us t1' - to_us t0' = to_us t1 - to_us t0 ->
  _minutes_between t0' t1' = _minutes_between t0 t1.
Proof. intros E. unfold _minutes_between, dt_sub. now rewrite E. Qed.

Lemma bind_log_focus_segment_if_any {B} t0 t1 (k : Z -> App B) w :
  bind (log_focus_segment_if_any (Some t0) t1) k w
  = if 0 <? _minutes_between t0 t1
    then k (_minutes_between t0 t1)
           (with_study_session
              (mkrow (strftime t0) (strftime t1) (_minutes_between t0 t1)) w)
    else k 0 w.
Proof.
  unfold log_focus_segment_if_any. rewrite Z.leb_antisym.
  now destruct (0 <? _minutes_between t0 t1).
Qed.

(** One statement of a run [prog w = _], taken at the head. *)
Ltac by_eq lem := etransitivity; [apply lem|]; cbv beta.

Ltac head_step :=
  lazymatch goal with
  | |- bind (bind _ _) _ _ = _ => by_eq bind_bind
  | |- bind (ret _) _ _ = _ => by_eq bind_ret
  | |- bind (read _) _ _ = _ => by_eq bind_read
  | |- bind (assign _) _ _ = _ => by_eq bind_assign
  | |- bind (render _) _ _ = _ => by_eq bind_render
  | |- bind (insert_study_session _) _ _ = _ =>
      by_eq bind_insert_study_session
  | |- bind (insert_interruption _) _ _ = _ =>
      by_eq bind_insert_interruption
  | |- bind st_rerun _ _ = _ => by_eq bind_rerun
  | |- bind (when _ _) _ _ = _ => by_eq bind_when
  | |- bind _clear_dialog_flags _ _ = _ => by_eq bind_clear_dialog_flags
  | |- bind (log_focus_segment_if_any (Some _) _) _ _ = _ =>
      by_eq bind_log_focus_segment_if_any
  | |- ret _ _ = _ => by_eq run_ret
  | |- st_rerun _ = _ => by_eq run_rerun
  | |- assign _ _ = _ => by_eq run_assign
  | |- render _ _ = _ => by_eq run_render
  | |- when _ _ _ = _ => by_eq run_when
  end.

(** Runs a handler on a world, one statement after the other, as far as
    what is known of the session decides the branches. *)
Ltac app_run :=
  repeat first
    [ head_step
    | progress session_simpl
    | progress use_facts
    | progress seat_frame ].

(* ================================================================== *)
(** ** The phase timer *)
(* ================================================================== *)

(** C3.  Resuming a timer that was paused at [p] moves the start and the
    end of the phase forward by the time spent paused, [now - p]: what
    remains of the phase at the resume is what remained at the pause,
    and so is the progress. *)
Theorem resume_shifts_phase w now p ps pe
    (Hpaused : flag (ss w) paused = true)
    (Hp : stamp (ss w) pause_started_at = Some p)
    (Hps : stamp (ss w) phase_start_dt = Some ps)
    (Hpe : stamp (ss w) phase_end_dt = Some pe) :
  let d := dt_sub now p in
  let w' := exec (_resume_timer now) w in
  stamp (ss w') phase_start_dt = Some (dt_add ps d)
  /\ stamp (ss w') phase_end_dt = Some (dt_add pe d)
  /\ to_us (dt_add ps d) = to_us ps + d
  /\ to_us (dt_add pe d) = to_us pe + d
  /\ dt_sub (dt_add pe d) now = dt_sub pe p
  /\ progress (dt_add ps d) (dt_add pe d) now = progress ps pe p
  /\ flag (ss w') paused = false
  /\ stamp (ss w') pause_started_at = None.
Proof.
  intros d w'.
  assert (Es : to_us (dt_add ps d) = to_us ps + d) by apply to_us_dt_add.
  assert (Ee : to_us (dt_add pe d) = to_us pe + d) by apply to_us_dt_add.
  assert (R : dt_sub (dt_add pe d) now = dt_sub pe p).
  { unfold dt_sub in *. subst d. lia. }
  eassert (E : _resume_timer now w = _).
  { unfold _resume_timer. app_run. reflexivity. }
  subst w'. unfold exec. rewrite E. session_simpl.
  repeat split; try assumption.
  unfold progress. rewrite R.
  replace (dt_sub (dt_add pe d) (dt_add ps d)) with (dt_sub pe ps)
    by (unfold dt_sub; lia).
  replace (dt_sub now (dt_add ps d)) with (dt_sub p ps)
    by (unfold dt_sub in *; subst d; lia).
  reflexivity.
Qed.

Lemma resume_shifts_phase_witness :
  let now := now_of (day0 10 15 0) in
  let w' := exec (_resume_timer now) paused_at_10_10 in
  flag (ss paused_at_10_10) paused = true
  /\ stamp (ss paused_at_10_10) phase_end_dt = Some (mkdt 738000 10 25 0 0)
  /\ stamp (ss w') phase_start_dt = Some (mkdt 738000 10 5 0 0)
  /\ stamp (ss w') phase_end_dt = Some (mkdt 738000 10 30 0 0).
Proof.
  intros now w'.
  destruct (resume_shifts_phase paused_at_10_10 now
              (mkdt 738000 10 10 0 0) (mkdt 738000 10 0 0 0)
              (mkdt 738000 10 25 0 0)
              eq_refl eq_refl eq_refl eq_refl)
    as (H1 & H2 & _).
  split; [reflexivity|]. split; [reflexivity|].
  split; [exact H1 | exact H2].
Defined.

Lemma float_max_0_nonpos td :
  td <= 0 -> float_max 0 (total_seconds td) = 0%Q.
Proof.
  intros H. unfold float_max, Qlt_bool, Qle_bool, total_seconds; simpl.
  replace (td * 1 <=? 0) with true; [reflexivity|].
  symmetry. apply Z.leb_le. lia.
Qed.

Lemma seat_short_spec now s left :
  seat_short now s = Some left <->
  use_seat (settings s) = true
  /\ is_seat_reset_window now = false
  /\ compute_seat_left_seconds now (seat_start_dt (settings s))
       (num s seat_extension_min) = Some left
  /\ (left <= inject_Z (59 * 60))%Q.
Proof.
  unfold seat_short, within_alert_window, SEAT_ALERT_WINDOW_SEC.
  destruct (use_seat (settings s)); simpl;
    [|split; [discriminate | intros (H & _); discriminate]].
  destruct (is_seat_reset_window now); simpl;
    [split; [discriminate | intros (_ & H & _); discriminate]|].
  destruct (compute_seat_left_seconds _ _ _) as [q|];
    [|split; [discriminate | intros (_ & _ & H & _); discriminate]].
  change (59 * 60) with 3540.
  destruct (Qle_bool q (inject_Z 3540)) eqn:E.
  - apply Qle_bool_iff in E. split.
    + intros H. injection H as H. subst q. auto.
    + intros (_ & _ & H & _). exact H.
  - split; [discriminate|].
    intros (_ & _ & H & Hle). injection H as H. subst q.
    apply Qle_bool_iff in Hle. congruence.
Qed.

(** A tick of a held timer keeps it held and pins the end of the rest to
    the time of the tick. *)
Lemma frozen_tick w clock :
  frozen w ->
  frozen (step w (ev_tick clock))
  /\ stamp (ss (step w (ev_tick clock))) phase_end_dt = Some (now_of clock)
  /\ stamp (ss (step w (ev_tick clock))) phase_start_dt
     = stamp (ss w) phase_start_dt
  /\ study_sessions (step w (ev_tick clock)) = study_sessions w.
Proof.
  intros (Hrun & Hb & Hshown & Hctx & Hph & Hpie).
  eassert (E : run_timer_fragment clock w = _).
  { unfold run_timer_fragment. app_run. reflexivity. }
  unfold frozen, shown_time, step, handler, exec. rewrite E.
  session_simpl. use_facts. auto 10.
Qed.

Lemma frozen_ticks clocks : forall w,
  frozen w ->
  frozen (ticks clocks w)
  /\ (clocks <> [] ->
      stamp (ss (ticks clocks w)) phase_end_dt
      = Some (now_of (last clocks (mkdt 0 0 0 0 0)))).
Proof.
  unfold ticks, run.
  induction clocks as [|c cs IH]; intros w Hw.
  - split; [exact Hw | congruence].
  - cbn [map fold_left].
    destruct (frozen_tick w c Hw) as (Hf & He & _).
    destruct (IH _ Hf) as [IH1 IH2].
    split; [exact IH1|]. intros _.
    destruct cs as [|c' cs']; [exact He|].
    rewrite IH2 by discriminate. reflexivity.
Qed.

(** C1.  A running timer at the end of a rest, with seat tracking on,
    outside the reset window and with at most 59 minutes of seat left,
    does not go on to the next focus: the tick sets the block flag,
    leaves the phase at REST, pins the end of the phase to the time of
    the tick, shows 00:00 and raises the extension request with context
    "break"; later ticks keep all of this. *)
Theorem rest_expiry_blocks_focus w clock ps pe left later
    (Hrun : flag (ss w) running = true)
    (Hnp : flag (ss w) paused = false)
    (Hnb : flag (ss w) block_next_focus_until_seat_extended = false)
    (Hphase : phase (ss w) = REST)
    (Hps : stamp (ss w) phase_start_dt = Some ps)
    (Hpe : stamp (ss w) phase_end_dt = Some pe)
    (Hwc : wf_dt clock) (Hwe : wf_dt pe)
    (Hover : dt_ge (now_of clock) pe = true)
    (Hseat : use_seat (settings (ss w)) = true)
    (Hwin : is_seat_reset_window (now_of clock) = false)
    (Hleft : compute_seat_left_seconds (now_of clock)
               (seat_start_dt (settings (ss w)))
               (num (ss w) seat_extension_min) = Some left)
    (Hshort : (left <= inject_Z (59 * 60))%Q) :
  let now := now_of clock in
  let w' := step w (ev_tick clock) in
  fst (run_timer_fragment clock w) = Rerun
  /\ flag (ss w') block_next_focus_until_seat_extended = true
  /\ phase (ss w') = REST
  /\ stamp (ss w') phase_start_dt = Some ps
  /\ stamp (ss w') phase_end_dt = Some now
  /\ shown_time w' = Some "00:00"%string
  /\ flag (ss w') show_extension_dialog = true
  /\ context_str (seat_extension_context (ss w')) = "break"%string
  /\ float (ss w') extension_seat_left_sec = Some left
  /\ study_sessions w' = study_sessions w
  /\ frozen (ticks later w')
  /\ (later <> [] ->
      stamp (ss (ticks later w')) phase_end_dt
      = Some (now_of (last later (mkdt 0 0 0 0 0)))).
Proof.
  intros now w'. subst now. set (now := now_of clock) in *.
  assert (Hs : seat_short now (ss w) = Some left)
    by (apply seat_short_spec; auto).
  assert (Hrem : snd (progress ps pe now) = 0%Q).
  { unfold progress; cbn [snd]. apply float_max_0_nonpos.
    unfold dt_ge in Hover.
    rewrite (dt_le_to_us pe now Hwe (wf_now_of clock Hwc)) in Hover.
    apply Z.leb_le in Hover. unfold dt_sub. lia. }
  destruct (progress ps pe now) as [prog rem] eqn:EP.
  cbn [snd] in Hrem. subst rem.
  eassert (E : run_timer_fragment clock w = _).
  { unfold run_timer_fragment. fold now. app_run. reflexivity. }
  assert (Hf : frozen w').
  { unfold frozen, shown_time, w', step, handler, exec. rewrite E.
    session_simpl. use_facts. auto 10. }
  destruct (frozen_ticks later _ Hf) as [F1 F2].
  unfold w', step, handler, exec in *. rewrite E in *.
  cbn [fst snd] in *. unfold shown_time. session_simpl. use_facts.
  auto 15.
Qed.

Lemma rest_expiry_blocks_focus_witness :
  let w := rest_over_at_21_20 in
  let w' := step w (ev_tick (day0 21 20 0)) in
  phase (ss w) = REST
  /\ flag (ss w') block_next_focus_until_seat_extended = true
  /\ phase (ss w') = REST
  /\ stamp (ss w') phase_end_dt = Some (mkdt 738000 21 20 0 0)
  /\ float (ss w') extension_seat_left_sec = Some (2400000000 # 1000000)
  /\ stamp (ss (ticks [day0 21 20 1; day0 21 20 2] w')) phase_end_dt
     = Some (mkdt 738000 21 20 2 0).
Proof.
  intros w w'.
  assert (Hwc : wf_dt (day0 21 20 0)) by (unfold wf_dt; simpl; lia).
  assert (Hwe : wf_dt (mkdt 738000 21 20 0 0)) by (unfold wf_dt; simpl; lia).
  assert (Hshort : (2400000000 # 1000000 <= inject_Z (59 * 60))%Q)
    by (unfold Qle; simpl; lia).
  destruct (rest_expiry_blocks_focus w (day0 21 20 0)
              (mkdt 738000 21 15 0 0) (mkdt 738000 21 20 0 0)
              (2400000000 # 1000000) [day0 21 20 1; day0 21 20 2]
              eq_refl eq_refl eq_refl eq_refl eq_refl eq_refl
              Hwc Hwe eq_refl eq_refl eq_refl eq_refl Hshort)
    as (_ & H1 & H2 & _ & H3 & _ & _ & _ & H4 & _ & _ & H5).
  split; [reflexivity|].
  split; [exact H1|]. split; [exact H2|]. split; [exact H3|].
  split; [exact H4|]. apply H5. discriminate.
Defined.

Lemma total_focus_minutes_app rows rows' :
  total_focus_minutes (rows ++ rows')
  = total_focus_minutes rows + total_focus_minutes rows'.
Proof.
  unfold total_focus_minutes.
  induction rows as [|r rows IH]; cbn [app fold_right]; lia.
Qed.

Lemma total_focus_minutes_logged rows t0 t1 :
  total_focus_minutes (logged rows t0 t1)
  = total_focus_minutes rows + _minutes_between t0 t1.
Proof.
  unfold logged. pose proof (minutes_between_nonneg t0 t1).
  destruct (0 <? _minutes_between t0 t1) eqn:E.
  - rewrite total_focus_minutes_app. cbn. lia.
  - apply Z.ltb_ge in E. lia.
Qed.

(** C7.  A running timer at the end of a focus logs the segment from the
    start of the phase to the tick (a row is written whenever the focus
    was set for a minute or more) and then starts the rest, from the tick
    and for the rest minutes of the settings.  With seat tracking on,
    outside the reset window and at most 59 minutes of seat left, the
    extension request with context "break_start" is raised as well, and
    the rest has started all the same, with no block. *)
Theorem focus_expiry_starts_rest w clock ps pe
    (Hrun : flag (ss w) running = true)
    (Hnp : flag (ss w) paused = false)
    (Hnb : flag (ss w) block_next_focus_until_seat_extended = false)
    (Hphase : phase (ss w) = FOCUS)
    (Hps : stamp (ss w) phase_start_dt = Some ps)
    (Hpe : stamp (ss w) phase_end_dt = Some pe)
    (Hover : dt_ge (now_of clock) pe = true) :
  let now := now_of clock in
  let w' := step w (ev_tick clock) in
  study_sessions w' = logged (study_sessions w) ps now
  /\ (0 < _minutes_between ps now ->
      study_sessions w'
      = study_sessions w
        ++ [mkrow (strftime ps) (strftime now) (_minutes_between ps now)])
  /\ (wf_dt ps -> wf_dt pe -> wf_dt clock ->
      60000000 <= to_us pe - to_us ps ->
      0 < _minutes_between ps now)
  /\ phase (ss w') = REST
  /\ stamp (ss w') phase_start_dt = Some now
  /\ stamp (ss w') phase_end_dt
     = Some (dt_add now (td_minutes (rest (settings (ss w)))))
  /\ flag (ss w') block_next_focus_until_seat_extended = false
  /\ (forall left,
        use_seat (settings (ss w)) = true ->
        is_seat_reset_window now = false ->
        compute_seat_left_seconds now (seat_start_dt (settings (ss w)))
          (num (ss w) seat_extension_min) = Some left ->
        (left <= inject_Z (59 * 60))%Q ->
        flag (ss w') show_extension_dialog = true
        /\ context_str (seat_extension_context (ss w')) = "break_start"%string
        /\ float (ss w') extension_seat_left_sec = Some (float_max 0 left)
        /\ flag (ss w') need_main_rerun = true
        /\ fst (run_timer_fragment clock w) = Rerun)
  /\ (seat_short now (ss w) = None ->
      flag (ss w') show_extension_dialog = flag (ss w) show_extension_dialog
      /\ seat_extension_context (ss w') = seat_extension_context (ss w)
      /\ float (ss w') extension_seat_left_sec
         = float (ss w) extension_seat_left_sec).
Proof.
  intros now w'. subst now. set (now := now_of clock) in *.
  assert (Hspec : forall left,
            use_seat (settings (ss w)) = true ->
            is_seat_reset_window now = false ->
            compute_seat_left_seconds now (seat_start_dt (settings (ss w)))
              (num (ss w) seat_extension_min) = Some left ->
            (left <= inject_Z (59 * 60))%Q ->
            seat_short now (ss w) = Some left)
    by (intros; apply seat_short_spec; auto).
  assert (Hmin : wf_dt ps -> wf_dt pe -> wf_dt clock ->
                 60000000 <= to_us pe - to_us ps ->
                 0 < _minutes_between ps now).
  { intros Hs He Hc Hlen. unfold dt_ge in Hover.
    rewrite (dt_le_to_us pe now He (wf_now_of clock Hc)) in Hover.
    apply Z.leb_le in Hover.
    pose proof (minutes_between_nonneg ps now).
    pose proof (minutes_between_zero ps now). lia. }
  destruct (progress ps pe now) as [prog rem] eqn:EP.
  unfold w', step, handler, exec, logged in *. clear w'.
  destruct (0 <? _minutes_between ps now) eqn:Hm;
    destruct (seat_short now (ss w)) as [left0|] eqn:Hs;
    try destruct (flag (ss w) show_extension_dialog) eqn:Hd.
  all: eassert (E : run_timer_fragment clock w = _);
    [ unfold run_timer_fragment, _switch_phase, _request_extension_popup;
      fold now; app_run; reflexivity
    | rewrite E; clear E; session_simpl; use_facts ].
  all: repeat split; try reflexivity; try discriminate.
  all: try (apply Hmin; assumption).
  all: try match goal with
           | H1 : use_seat _ = true, H2 : is_seat_reset_window _ = false,
             H3 : compute_seat_left_seconds _ _ _ = Some ?l,
             H4 : (?l <= _)%Q |- _ =>
               specialize (Hspec l H1 H2 H3 H4); congruence
           end.
  all: intros Hlt; apply Z.ltb_ge in Hm; lia.
Qed.

Lemma focus_expiry_starts_rest_witness :
  let w := run [ev_start_dialog mode_25_5 start_go (day0 20 50 0)] seated in
  let w' := step w (ev_tick (day0 21 15 0)) in
  phase (ss w) = FOCUS
  /\ study_sessions w'
     = [mkrow (mkdt 738000 20 50 0 0) (mkdt 738000 21 15 0 0) 25]
  /\ phase (ss w') = REST
  /\ stamp (ss w') phase_end_dt = Some (mkdt 738000 21 20 0 0)
  /\ flag (ss w') block_next_focus_until_seat_extended = false
  /\ flag (ss w') show_extension_dialog = true
  /\ context_str (seat_extension_context (ss w')) = "break_start"%string.
Proof.
  intros w w'.
  destruct (focus_expiry_starts_rest w (day0 21 15 0)
              (mkdt 738000 20 50 0 0) (mkdt 738000 21 15 0 0)
              eq_refl eq_refl eq_refl eq_refl eq_refl eq_refl eq_refl)
    as (_ & H1 & _ & H2 & _ & H3 & H4 & H5 & _).
  assert (Hshort : (2700000000 # 1000000 <= inject_Z (59 * 60))%Q)
    by (unfold Qle; simpl; lia).
  destruct (H5 (2700000000 # 1000000) eq_refl eq_refl eq_refl Hshort)
    as (H6 & H7 & _).
  split; [reflexivity|]. split; [apply H1; reflexivity|].
  split; [exact H2|]. split; [exact H3|]. split; [exact H4|].
  split; [exact H6 | exact H7].
Defined.

(** A tick of a paused timer that is not held changes nothing but the
    pie. *)
Lemma paused_tick w clock :
  flag (ss w) paused = true ->
  flag (ss w) block_next_focus_until_seat_extended = false ->
  let w' := step w (ev_tick clock) in
  ss w' = ss w
  /\ study_sessions w' = study_sessions w
  /\ interruptions w' = interruptions w.
Proof.
  intros Hp Hnb w'. subst w'. unfold step, handler, exec.
  destruct (flag (ss w) running) eqn:Hr;
    destruct (phase (ss w)) eqn:Hph;
    destruct (float (ss w) pause_snapshot_prog) eqn:H1;
    destruct (float (ss w) pause_snapshot_rem_sec) eqn:H2.
  all: eassert (E : run_timer_fragment clock w = _);
    [ unfold run_timer_fragment; app_run; reflexivity
    | rewrite E; session_simpl; auto ].
Qed.

(** The pie of a paused timer is made from the phase and the snapshot. *)
Lemma paused_pie w v clock clock' :
  flag (ss w) paused = true ->
  flag (ss w) block_next_focus_until_seat_extended = false ->
  flag (ss v) paused = true ->
  flag (ss v) block_next_focus_until_seat_extended = false ->
  flag (ss v) running = flag (ss w) running ->
  phase (ss v) = phase (ss w) ->
  float (ss v) pause_snapshot_prog = float (ss w) pause_snapshot_prog ->
  float (ss v) pause_snapshot_rem_sec = float (ss w) pause_snapshot_rem_sec ->
  pie (step v (ev_tick clock')) = pie (step w (ev_tick clock)).
Proof.
  intros Hp Hnb Hp' Hnb' Er Eph E1 E2. unfold step, handler, exec.
  destruct (flag (ss w) running) eqn:Hr;
    destruct (phase (ss w)) eqn:Hph;
    destruct (float (ss w) pause_snapshot_prog) eqn:H1;
    destruct (float (ss w) pause_snapshot_rem_sec) eqn:H2.
  all: eassert (E : run_timer_fragment clock w = _);
    [ unfold run_timer_fragment; app_run; reflexivity | rewrite E; clear E ];
    eassert (E : run_timer_fragment clock' v = _);
    [ unfold run_timer_fragment; app_run; reflexivity | rewrite E; clear E ];
    reflexivity.
Qed.

Lemma paused_ticks clocks : forall w,
  flag (ss w) paused = true ->
  flag (ss w) block_next_focus_until_seat_extended = false ->
  ss (ticks clocks w) = ss w
  /\ study_sessions (ticks clocks w) = study_sessions w
  /\ interruptions (ticks clocks w) = interruptions w.
Proof.
  unfold ticks, run.
  induction clocks as [|c cs IH]; intros w Hp Hnb; [auto|].
  cbn [map fold_left].
  destruct (paused_tick w c Hp Hnb) as (E1 & E2 & E3).
  destruct (IH (step w (ev_tick c))) as (F1 & F2 & F3);
    [now rewrite E1 | now rewrite E1 |].
  rewrite F1, F2, F3. auto.
Qed.

(** C5.  When the extension dialog offers its buttons, granting [m]
    minutes adds [m] to [seat_extension_min], leaves the block flag down
    and completes what was waiting, in this order of precedence: the held
    timer starts a fresh focus; or the pending start runs; or the pending
    resume runs. *)
Theorem extension_grant_completes_pending w click clock m
    (Hoffered : is_expired (ss w) = false)
    (Hgrant : granted_minutes click = Some m) :
  let now := now_of clock in
  let w' := step w (ev_extension_dialog click clock) in
  fst (extension_dialog click clock w) = Rerun
  /\ num (ss w') seat_extension_min = num (ss w) seat_extension_min + m
  /\ flag (ss w') block_next_focus_until_seat_extended = false
  /\ no_dialog_flag (ss w')
  /\ (flag (ss w) block_next_focus_until_seat_extended = true ->
      phase (ss w') = FOCUS
      /\ stamp (ss w') phase_start_dt = Some now
      /\ stamp (ss w') phase_end_dt
         = Some (dt_add now (td_minutes (focus (settings (ss w)))))
      /\ flag (ss w') running = flag (ss w) running)
  /\ (flag (ss w) block_next_focus_until_seat_extended = false ->
      flag (ss w) pending_start = true ->
      flag (ss w') pending_start = false
      /\ flag (ss w') running = true
      /\ flag (ss w') paused = false
      /\ phase (ss w') = FOCUS
      /\ stamp (ss w') phase_start_dt = Some now
      /\ stamp (ss w') phase_end_dt
         = Some (dt_add now (td_minutes (num (ss w) pending_focus))))
  /\ (flag (ss w) block_next_focus_until_seat_extended = false ->
      flag (ss w) pending_start = false ->
      flag (ss w) pending_resume = true ->
      flag (ss w') pending_resume = false
      /\ flag (ss w') paused = false
      /\ stamp (ss w') pause_started_at = None
      /\ phase (ss w') = phase (ss w)
      /\ forall p ps pe,
           stamp (ss w) pause_started_at = Some p ->
           stamp (ss w) phase_start_dt = Some ps ->
           stamp (ss w) phase_end_dt = Some pe ->
           stamp (ss w') phase_start_dt = Some (dt_add ps (dt_sub now p))
           /\ stamp (ss w') phase_end_dt = Some (dt_add pe (dt_sub now p))).
Proof.
  intros now w'. subst now w'.
  assert (Hclick : click = ext_1h \/ click = ext_2h \/ click = ext_3h)
    by (destruct click; try discriminate; auto).
  destruct (flag (ss w) block_next_focus_until_seat_extended) eqn:Hb;
    [|destruct (flag (ss w) pending_start) eqn:Hs;
      [|destruct (flag (ss w) pending_resume) eqn:Hr;
        [destruct (stamp (ss w) pause_started_at) eqn:Hp;
         destruct (stamp (ss w) phase_start_dt) eqn:Hps;
         destruct (stamp (ss w) phase_end_dt) eqn:Hpe|]]].
  all: destruct Hclick as [->|[->| ->]]; injection Hgrant as <-.
  all: match goal with
       | |- context [extension_dialog ?c ?k ?w0] =>
           eassert (E : extension_dialog c k w0 = _)
       end;
    [ unfold extension_dialog, add_extension, _switch_phase,
        _start_timer_session, _resume_timer;
      app_run; reflexivity
    | unfold step, handler, exec, no_dialog_flag; rewrite E; clear E;
      session_simpl; use_facts ].
  all: repeat split; try reflexivity; try discriminate; congruence.
Qed.

Lemma extension_grant_completes_pending_witness :
  let w := held_at_21_20 in
  let w' := step w (ev_extension_dialog ext_1h (day0 21 20 30)) in
  flag (ss w) block_next_focus_until_seat_extended = true
  /\ num (ss w') seat_extension_min = 60
  /\ flag (ss w') block_next_focus_until_seat_extended = false
  /\ phase (ss w') = FOCUS
  /\ stamp (ss w') phase_start_dt = Some (mkdt 738000 21 20 30 0)
  /\ stamp (ss w') phase_end_dt = Some (mkdt 738000 21 45 30 0).
Proof.
  intros w w'.
  destruct (extension_grant_completes_pending w ext_1h (day0 21 20 30) 60
              eq_refl eq_refl)
    as (_ & H1 & H2 & _ & H3 & _).
  destruct (H3 eq_refl) as (H4 & H5 & H6 & _).
  split; [reflexivity|]. split; [exact H1|]. split; [exact H2|].
  split; [exact H4|]. split; [exact H5 | exact H6].
Defined.

(** C6, as the code has it.  Closing the extension dialog without a grant
    has two outcomes.  If the timer is held or the dialog reports the
    seat as expired (no seconds left), the timer is stopped: [running]
    is false, the phase is IDLE and the block flag is down.  Otherwise
    both pending flags are cleared and the timer is left as it is. *)
Theorem extension_close_outcomes w clock :
  let w' := step w (ev_extension_dialog ext_close clock) in
  fst (extension_dialog ext_close clock w) = Rerun
  /\ no_dialog_flag (ss w')
  /\ study_sessions w' = study_sessions w
  /\ interruptions w' = interruptions w
  /\ (flag (ss w) block_next_focus_until_seat_extended = true
      \/ is_expired (ss w) = true ->
      flag (ss w') running = false
      /\ phase (ss w') = IDLE
      /\ flag (ss w') block_next_focus_until_seat_extended = false)
  /\ (flag (ss w) block_next_focus_until_seat_extended = false ->
      is_expired (ss w) = false ->
      flag (ss w') pending_start = false
      /\ flag (ss w') pending_resume = false
      /\ same_timer (ss w) (ss w')).
Proof.
  intros w'. subst w'.
  destruct (flag (ss w) block_next_focus_until_seat_extended) eqn:Hb;
    destruct (is_expired (ss w)) eqn:He.
  all: eassert (E : extension_dialog ext_close clock w = _);
    [ unfold extension_dialog; app_run; reflexivity
    | unfold step, handler, exec, no_dialog_flag, same_timer;
      rewrite E; clear E; session_simpl; use_facts ].
  all: repeat split; try reflexivity; try discriminate.
  all: match goal with H : _ \/ _ |- _ => destruct H; discriminate end.
Qed.

Lemma extension_close_outcomes_witness :
  let w := held_at_21_20 in
  let w' := step w (ev_extension_dialog ext_close (day0 21 20 30)) in
  flag (ss w) running = true
  /\ phase (ss w) = REST
  /\ flag (ss w') running = false
  /\ phase (ss w') = IDLE.
Proof.
  intros w w'.
  destruct (extension_close_outcomes w (day0 21 20 30))
    as (_ & _ & _ & _ & H & _).
  destruct (H (or_introl eq_refl)) as (H1 & H2 & _).
  split; [reflexivity|]. split; [reflexivity|].
  split; [exact H1 | exact H2].
Defined.

(** C6, as the specification has it, fails: a resume that waits for an
    extension of a seat already expired is not cancelled by closing the
    dialog.  The pending flag stays up, the timer is stopped and its
    phase becomes IDLE. *)
Lemma extension_close_stops_expired_resume :
  let w := resume_asked_at_22_10 in
  let w' := step w (ev_extension_dialog ext_close (day0 22 10 5)) in
  flag (ss w) pending_resume = true
  /\ context_str (seat_extension_context (ss w)) = "resume"%string
  /\ flag (ss w) block_next_focus_until_seat_extended = false
  /\ flag (ss w) running = true
  /\ phase (ss w) = FOCUS
  /\ ~ (flag (ss w') pending_resume = false
        /\ flag (ss w') running = flag (ss w) running
        /\ phase (ss w') = phase (ss w))
  /\ flag (ss w') pending_resume = true
  /\ flag (ss w') running = false
  /\ phase (ss w') = IDLE.
Proof.
  vm_compute. repeat split; try reflexivity.
  intros (H & _). discriminate H.
Qed.

(* ------------------------------------------------------------------ *)
(** *** What the handlers write to [study_sessions] *)

(** Runs a handler under a predicate of its result, splitting on what the
    session does not decide. *)
Ltac prog_head :=
  lazymatch goal with
  | |- _ (bind (bind _ _) _ _) => rewrite bind_bind
  | |- _ (bind (ret _) _ _) => rewrite bind_ret
  | |- _ (bind (read _) _ _) => rewrite bind_read
  | |- _ (bind (assign _) _ _) => rewrite bind_assign
  | |- _ (bind (render _) _ _) => rewrite bind_render
  | |- _ (bind (insert_interruption _) _ _) =>
      rewrite bind_insert_interruption
  | |- _ (bind st_rerun _ _) => rewrite bind_rerun
  | |- _ (bind (when _ _) _ _) => rewrite bind_when
  | |- _ (bind _clear_dialog_flags _ _) => rewrite bind_clear_dialog_flags
  | |- _ (bind (log_focus_segment_if_any (Some _) _) _ _) =>
      rewrite bind_log_focus_segment_if_any
  | |- _ (ret _ _) => rewrite run_ret
  | |- _ (st_rerun _) => rewrite run_rerun
  | |- _ (assign _ _) => rewrite run_assign
  | |- _ (render _ _) => rewrite run_render
  | |- _ (when _ _ _) => rewrite run_when
  end; cbv beta.

Ltac prog_split :=
  lazymatch goal with
  | |- _ (if negb ?b then _ else _) => destruct b eqn:?
  | |- _ ((if negb ?b then _ else _) _) => destruct b eqn:?
  | |- _ (if ?b then _ else _) => destruct b eqn:?
  | |- _ ((if ?b then _ else _) _) => destruct b eqn:?
  | |- _ (bind (if ?b then _ else _) _ _) => destruct b eqn:?
  | |- _ (match ?x with _ => _ end) => destruct x eqn:?
  | |- _ ((match ?x with _ => _ end) _) => destruct x eqn:?
  | |- _ (bind (match ?x with _ => _ end) _ _) => destruct x eqn:?
  end.

Ltac prog_run :=
  repeat first
    [ prog_head
    | progress session_simpl
    | progress use_facts
    | progress seat_frame
    | prog_split ].

Ltac rows_done :=
  unfold rows_ok; session_simpl;
  first
    [ left; reflexivity
    | right; do 2 eexists;
      repeat split; try eassumption; try reflexivity;
      apply Z.ltb_lt; assumption ].

Lemma run_timer_fragment_rows clock w :
  rows_ok (Some clock) w (run_timer_fragment clock w).
Proof.
  unfold run_timer_fragment, _switch_phase, _request_extension_popup.
  prog_run; rows_done.
Qed.

Lemma handler_rows e w : rows_ok (event_clock e) w (handler e w).
Proof.
  destruct e as [clock|toggle edit clock|ref new_time click clock
                |click clock|click|mode click clock|click clock
                |reason click clock|reason click clock];
    cbn [handler event_clock].
  - apply run_timer_fragment_rows.
  - unfold seat_toggle_row, _open_dialog. prog_run; rows_done.
  - unfold seat_settings_dialog.
    destruct click, new_time, ref; prog_run; rows_done.
  - unfold top_button, _open_dialog, _resume_timer.
    destruct click; prog_run; rows_done.
  - unfold bottom_buttons, _open_dialog.
    destruct click; prog_run; rows_done.
  - unfold start_setup_dialog, _start_timer_session,
      _request_extension_popup.
    destruct click, mode; prog_run; rows_done.
  - unfold extension_dialog, add_extension, _switch_phase,
      _start_timer_session, _resume_timer.
    destruct click; prog_run; rows_done.
  - unfold pause_dialog. destruct click; prog_run; rows_done.
  - unfold stop_dialog. destruct click; prog_run; rows_done.
Qed.

Ltac block_done :=
  unfold block_ok; session_simpl; use_facts; intros Hset;
  first
    [ discriminate Hset
    | left; first [reflexivity | assumption]
    | right; repeat split; first [eexists; reflexivity | assumption] ].

(** Only the tick that ends a rest raises the block flag, and only for a
    timer that is not paused. *)
Lemma handler_block e w : block_ok e w (handler e w).
Proof.
  destruct e as [clock|toggle edit clock|ref new_time click clock
                |click clock|click|mode click clock|click clock
                |reason click clock|reason click clock];
    cbn [handler].
  - unfold run_timer_fragment, _switch_phase, _request_extension_popup.
    prog_run; block_done.
  - unfold seat_toggle_row, _open_dialog. prog_run; block_done.
  - unfold seat_settings_dialog.
    destruct click, new_time, ref; prog_run; block_done.
  - unfold top_button, _open_dialog, _resume_timer.
    destruct click; prog_run; block_done.
  - unfold bottom_buttons, _open_dialog.
    destruct click; prog_run; block_done.
  - unfold start_setup_dialog, _start_timer_session,
      _request_extension_popup.
    destruct click, mode; prog_run; block_done.
  - unfold extension_dialog, add_extension, _switch_phase,
      _start_timer_session, _resume_timer.
    destruct click; prog_run; block_done.
  - unfold pause_dialog. destruct click; prog_run; block_done.
  - unfold stop_dialog. destruct click; prog_run; block_done.
Qed.

Lemma rows_ok_positive clock w {A} (r : outcome A * world) :
  rows_ok clock w r ->
  exists new,
    study_sessions (snd r) = study_sessions w ++ new
    /\ Forall (fun row => 0 < focus_minutes row) new.
Proof.
  intros [E|(c & ps & _ & _ & _ & Hm & E)].
  - exists []. rewrite app_nil_r. auto.
  - eexists. split; [exact E|]. repeat constructor. exact Hm.
Qed.

Lemma run_rows es : forall w,
  exists new,
    study_sessions (run es w) = study_sessions w ++ new
    /\ Forall (fun row => 0 < focus_minutes row) new.
Proof.
  unfold run.
  induction es as [|e es IH]; intros w; cbn [fold_left].
  - exists []. rewrite app_nil_r. auto.
  - destruct (rows_ok_positive _ _ _ (handler_rows e w)) as (n1 & E1 & F1).
    destruct (IH (step w e)) as (n2 & E2 & F2).
    exists (n1 ++ n2). split.
    + rewrite E2. unfold step, exec. rewrite E1. now rewrite app_assoc.
    + apply Forall_app. auto.
Qed.

(** C8.  Whatever the event, a run adds at most one row to
    [study_sessions], and only for a focus that has lasted a whole minute
    at least: a focus that ends (at its expiry, by a pause or by a stop)
    before its first whole minute leaves no row, and one that ends later
    leaves its row at a pause and at a stop.  The rows already written
    stay as they are, in their place, through any sequence of events,
    and every new row counts at least one minute. *)
Theorem focus_rows_need_a_minute :
  (forall w e, rows_ok (event_clock e) w (handler e w))
  /\ (forall w e clock ps,
        event_clock e = Some clock ->
        stamp (ss w) phase_start_dt = Some ps ->
        _minutes_between ps (now_of clock) = 0 ->
        study_sessions (step w e) = study_sessions w)
  /\ (forall w reason clock ps e,
        e = ev_pause_dialog reason click_confirm clock
        \/ e = ev_stop_dialog reason click_confirm clock ->
        phase (ss w) = FOCUS ->
        stamp (ss w) phase_start_dt = Some ps ->
        study_sessions (step w e)
        = logged (study_sessions w) ps (now_of clock))
  /\ (forall es w,
        exists new,
          study_sessions (run es w) = study_sessions w ++ new
          /\ Forall (fun row => 0 < focus_minutes row) new).
Proof.
  split; [intros w e; apply handler_rows|].
  split; [|split; [|exact run_rows]].
  - intros w e clock ps Hc Hps Hm.
    destruct (handler_rows e w) as [E|(c & ps' & Hc' & _ & Hps' & Hpos & _)].
    + exact E.
    + rewrite Hc in Hc'. injection Hc' as <-.
      rewrite Hps in Hps'. injection Hps' as <-. lia.
  - intros w reason clock ps e [-> | ->] Hph Hps;
      unfold step, handler, exec, logged;
      destruct (0 <? _minutes_between ps (now_of clock)) eqn:Hm;
      (destruct (stamp (ss w) phase_end_dt) as [pe|] eqn:Hpe;
       [destruct (progress ps pe (now_of clock)) as [prog rem] eqn:EP|]).
    all: match goal with
         | |- context [pause_dialog ?r ?c ?k ?w0] =>
             eassert (E : pause_dialog r c k w0 = _);
             [unfold pause_dialog; app_run; reflexivity|]
         | |- context [stop_dialog ?r ?c ?k ?w0] =>
             eassert (E : stop_dialog r c k w0 = _);
             [unfold stop_dialog; app_run; reflexivity|]
         end.
    all: rewrite E; clear E; session_simpl; reflexivity.
Qed.

Lemma focus_rows_need_a_minute_witness :
  let w := run [ev_start_dialog mode_25_5 start_go (day0 10 0 0)] fresh in
  study_sessions (step w (ev_pause_dialog "화장실" click_confirm
                            (day0 10 0 59)))
  = []
  /\ study_sessions (step w (ev_stop_dialog "기타" click_confirm
                               (day0 10 7 30)))
     = [mkrow (mkdt 738000 10 0 0 0) (mkdt 738000 10 7 30 0) 7].
Proof.
  intros w.
  destruct focus_rows_need_a_minute as (_ & H2 & H3 & _).
  split.
  - apply (H2 w _ (day0 10 0 59) (mkdt 738000 10 0 0 0)); reflexivity.
  - apply (H3 w "기타"%string (day0 10 7 30) (mkdt 738000 10 0 0 0) _
             (or_intror eq_refl)); reflexivity.
Defined.

(** The page runs the timer fragment before it opens a dialog: for a
    held timer the fragment leaves the flag of the extension dialog up,
    and the pause dialog, which comes after it in the chain, is not the
    one that opens. *)
Lemma held_timer_opens_no_pause_dialog w clock :
  flag (ss w) running = true ->
  flag (ss w) block_next_focus_until_seat_extended = true ->
  let w' := step w (ev_tick clock) in
  flag (ss w') show_extension_dialog = true
  /\ dialog_chain (ss w') <> Some show_pause_dialog.
Proof.
  intros Hrun Hb w'.
  assert (H : flag (ss w') show_extension_dialog = true).
  { subst w'. unfold step, handler, exec.
    destruct (flag (ss w) show_extension_dialog) eqn:Hshown;
      destruct (use_seat (settings (ss w))) eqn:Hseat;
      destruct (compute_seat_left_seconds (now_of clock)
                  (seat_start_dt (settings (ss w)))
                  (num (ss w) seat_extension_min)) eqn:Hleft.
    all: eassert (E : run_timer_fragment clock w = _);
      [ unfold run_timer_fragment; app_run;
        rewrite ?Hseat; app_run; rewrite ?Hleft; app_run; reflexivity
      | rewrite E; session_simpl; use_facts; reflexivity ]. }
  split; [exact H|].
  unfold dialog_chain. rewrite H.
  destruct (flag (ss w') show_seat_settings);
    destruct (flag (ss w') show_start_setup); discriminate.
Qed.

(* ------------------------------------------------------------------ *)
(** *** Paused and held timers on the page *)

Ltac flags_done :=
  unfold flags_ok; session_simpl; use_facts;
  split; intros Hset;
  first
    [ discriminate Hset
    | reflexivity
    | left; first [reflexivity | assumption]
    | right; do 2 eexists; reflexivity
    | congruence ].

Lemma handler_flags e w : flags_ok e w (handler e w).
Proof.
  destruct e as [clock|toggle edit clock|ref new_time click clock
                |click clock|click|mode click clock|click clock
                |reason click clock|reason click clock];
    cbn [handler].
  - unfold run_timer_fragment, _switch_phase, _request_extension_popup.
    prog_run; flags_done.
  - unfold seat_toggle_row, _open_dialog. prog_run; flags_done.
  - unfold seat_settings_dialog.
    destruct click, new_time, ref; prog_run; flags_done.
  - unfold top_button, _open_dialog, _resume_timer.
    destruct click; prog_run; flags_done.
  - unfold bottom_buttons, _open_dialog.
    destruct click; prog_run; flags_done.
  - unfold start_setup_dialog, _start_timer_session,
      _request_extension_popup.
    destruct click, mode; prog_run; flags_done.
  - unfold extension_dialog, add_extension, _switch_phase,
      _start_timer_session, _resume_timer.
    destruct click; prog_run; flags_done.
  - unfold pause_dialog. destruct click; prog_run; flags_done.
  - unfold stop_dialog. destruct click; prog_run; flags_done.
Qed.

Lemma run_timer_fragment_shows clock w :
  tick_ok w (run_timer_fragment clock w).
Proof.
  unfold run_timer_fragment, _switch_phase, _request_extension_popup.
  prog_run; unfold tick_ok; session_simpl; use_facts;
    intros Hinv Hset; split;
    first [ discriminate Hset | reflexivity | intros; reflexivity
          | intros; discriminate
          | specialize (Hinv eq_refl); discriminate Hinv
          | specialize (Hinv Hset); discriminate Hinv
          | intros; congruence ].
Qed.

(** Every event keeps paused and held timers apart, the confirmation of
    a pause provided it comes to a timer that is not held. *)
Lemma step_keeps_paused_apart e w :
  paused_apart w ->
  ((exists reason clock, e = ev_pause_dialog reason click_confirm clock) ->
   flag (ss w) block_next_focus_until_seat_extended = false) ->
  paused_apart (step w e).
Proof.
  intros [I1 I3] Hguard. unfold paused_apart.
  destruct (handler_flags e w) as [Hp Hr].
  pose proof (handler_block e w) as Hb. unfold block_ok in Hb.
  unfold step, exec. split.
  - intros Hp'.
    destruct (flag (ss (snd (handler e w)))
                block_next_focus_until_seat_extended) eqn:Hset;
      [exfalso|reflexivity].
    destruct (Hb eq_refl) as [Hold|((c & ->) & _ & Hnp & _)].
    + destruct (Hp Hp') as [Hwas|Hdlg].
      * rewrite (I1 Hwas) in Hold. discriminate.
      * rewrite (Hguard Hdlg) in Hold. discriminate.
    + destruct (Hp Hp') as [Hwas|(reason & clock & Hdlg)];
        [congruence | discriminate].
  - intros Hset. rewrite (Hr Hset).
    destruct (Hb Hset) as [Hold|(_ & Hrun & _)]; auto.
Qed.

Lemma bind_ret_inv {A B} (m : App A) (k : A -> App B) w b w' :
  bind m k w = (Ret b, w') ->
  exists a w1, m w = (Ret a, w1) /\ k a w1 = (Ret b, w').
Proof.
  unfold bind. destruct (m w) as [[a|] w1]; [eauto | discriminate].
Qed.

Lemma bind_world {A B} (m : App A) (k : A -> App B) w :
  snd (bind m k w) = snd (m w)
  \/ exists a, fst (m w) = Ret a /\ snd (bind m k w) = snd (k a (snd (m w))).
Proof.
  unfold bind. destruct (m w) as [[a|] w1]; cbn [fst snd]; eauto.
Qed.

Lemma bottom_buttons_ret click w a w' :
  bottom_buttons click w = (Ret a, w') -> w' = w.
Proof.
  unfold bottom_buttons, _open_dialog.
  destruct (flag (ss w) running) eqn:Hrun;
    destruct (flag (ss w) paused) eqn:Hp; destruct click.
  all: match goal with
       | |- ?lhs = _ -> _ =>
           eassert (E : lhs = _); [app_run; reflexivity|];
           rewrite E; clear E
       end;
    intros H; inversion H; reflexivity.
Qed.

Lemma keeps_bind {A B} (P : world -> Prop) (m : App A) (k : A -> App B) :
  (forall w, P w -> P (snd (m w))) ->
  (forall a w, P w -> P (snd (k a w))) ->
  forall w, P w -> P (snd (bind m k w)).
Proof.
  intros Hm Hk w Hw. unfold bind.
  specialize (Hm w Hw). destruct (m w) as [[a|] w1]; cbn [snd] in *; auto.
Qed.

Lemma page_handler_keeps e w :
  dialog_of e = None -> paused_apart w -> paused_apart (snd (handler e w)).
Proof.
  intros Hd Hw. apply (step_keeps_paused_apart e w Hw).
  intros (reason & clock & ->). discriminate Hd.
Qed.

Lemma page_script_keeps seat_toggle edit click c1 c2 c3 w :
  paused_apart w ->
  paused_apart (snd (page_script seat_toggle edit click c1 c2 c3 w)).
Proof.
  revert w. unfold page_script.
  apply keeps_bind;
    [intros w;
     apply (page_handler_keeps (ev_seat_toggle seat_toggle edit c1));
     reflexivity
    | intros _].
  apply keeps_bind;
    [intros w; apply (page_handler_keeps (ev_top click c2)); reflexivity
    | intros _].
  apply keeps_bind;
    [intros w; apply (page_handler_keeps (ev_tick c3)); reflexivity
    | intros _].
  apply keeps_bind; [intros w Hw; exact Hw | intros d].
  apply keeps_bind; [intros w Hw; exact Hw | intros need].
  apply keeps_bind.
  - intros w Hw. destruct need; [|exact Hw].
    unfold when. rewrite bind_assign, run_rerun. exact Hw.
  - intros _.
    apply keeps_bind;
      [intros w; apply (page_handler_keeps (ev_bottom click)); reflexivity
      | intros _ w Hw; exact Hw].
Qed.

Lemma page_script_opens seat_toggle edit click c1 c2 c3 w d w' :
  paused_apart w ->
  page_script seat_toggle edit click c1 c2 c3 w = (Ret d, w') ->
  d = Some show_pause_dialog ->
  flag (ss w') block_next_focus_until_seat_extended = false.
Proof.
  intros Hw E Hd. unfold page_script in E.
  apply bind_ret_inv in E. destruct E as (a1 & w1 & E1 & E).
  apply bind_ret_inv in E. destruct E as (a2 & w2 & E2 & E).
  apply bind_ret_inv in E. destruct E as (a3 & w3 & E3 & E).
  rewrite !bind_read, bind_when in E.
  destruct (flag (ss w3) need_main_rerun).
  { rewrite bind_bind, bind_assign, bind_rerun in E. discriminate E. }
  apply bind_ret_inv in E. destruct E as (a4 & w4 & E4 & E).
  apply bottom_buttons_ret in E4. subst w4.
  rewrite run_ret in E. injection E as <- <-.
  assert (H2 : paused_apart w2).
  { replace w2 with (snd (handler (ev_top click c2) w1))
      by (cbn [handler]; now rewrite E2).
    apply page_handler_keeps; [reflexivity|].
    replace w1 with (snd (handler (ev_seat_toggle seat_toggle edit c1) w))
      by (cbn [handler]; now rewrite E1).
    now apply page_handler_keeps. }
  destruct (flag (ss w3) block_next_focus_until_seat_extended) eqn:Hb;
    [exfalso|reflexivity].
  pose proof (run_timer_fragment_shows c3 w2) as Ht.
  rewrite E3 in Ht. destruct (Ht (proj2 H2) Hb) as [Hshown _].
  cbn [snd] in Hshown. unfold dialog_chain in Hd. rewrite Hshown in Hd.
  destruct (flag (ss w3) show_seat_settings);
    destruct (flag (ss w3) show_start_setup); discriminate Hd.
Qed.

Lemma page_step_inv u u' : page_inv u -> page_step u u' -> page_inv u'.
Proof.
  intros [Hw Ho] Hstep.
  destruct Hstep as [seat_toggle edit click c1 c2 c3|clock|e d Hd Hopen Hrun
                    |Hrun].
  - pose proof (page_script_keeps seat_toggle edit click c1 c2 c3 _ Hw)
      as Hk.
    pose proof (page_script_opens seat_toggle edit click c1 c2 c3
                  (page_world u)) as Hop.
    destruct (page_script seat_toggle edit click c1 c2 c3 (page_world u))
      as [[d|] w'] eqn:E; cbn [after_script snd] in *.
    + split; [exact Hk|]. cbn [page_world opened rerunning].
      intros _ Hd. exact (Hop d w' Hw eq_refl Hd).
    + split; [exact Hk|]. cbn [rerunning]. discriminate.
  - pose proof (page_handler_keeps (ev_tick clock) _ eq_refl Hw) as Hk.
    pose proof (run_timer_fragment_shows clock (page_world u)) as Ht.
    cbn [handler] in Hk.
    destruct (run_timer_fragment clock (page_world u)) as [[[]|] w'] eqn:E;
      cbn [after_part snd fst] in *.
    + split; [exact Hk|]. cbn [page_world opened rerunning].
      intros Hr Hd.
      destruct (flag (ss w') block_next_focus_until_seat_extended) eqn:Hb;
        [exfalso|reflexivity].
      destruct (Ht (proj2 Hw) Hb) as [_ Hre].
      specialize (Hre (Ho Hr Hd)). discriminate Hre.
    + split; [exact Hk|]. cbn [rerunning]. discriminate.
  - assert (Hk : paused_apart (snd (handler e (page_world u)))).
    { apply (step_keeps_paused_apart e _ Hw).
      intros (reason & clock & ->). cbn [dialog_of] in Hd.
      injection Hd as <-. exact (Ho Hrun Hopen). }
    pose proof (handler_block e (page_world u)) as Hb.
    destruct (handler e (page_world u)) as [[[]|] w'] eqn:E;
      cbn [after_part snd] in *.
    + split; [exact Hk|]. cbn [page_world opened rerunning].
      intros Hr Hp.
      destruct (flag (ss w') block_next_focus_until_seat_extended) eqn:Hset;
        [exfalso|reflexivity].
      destruct (Hb Hset) as [Hold|((c & ->) & _)].
      * rewrite (Ho Hr Hp) in Hold. discriminate.
      * discriminate Hd.
    + split; [exact Hk|]. cbn [rerunning]. discriminate.
  - split; [exact Hw|]. cbn [opened]. discriminate.
Qed.

(** On every page the application reaches, a paused timer is not held. *)
Lemma reachable_inv u : reachable u -> page_inv u.
Proof.
  induction 1 as [clock|u u' _ IH Hstep].
  - unfold page_inv, paused_apart, first_page.
    cbn [page_world rerunning opened ss defaults flag].
    repeat split; try reflexivity; discriminate.
  - exact (page_step_inv u u' IH Hstep).
Qed.

Lemma script_run_reachable click clock u :
  reachable u -> reachable (script_run click clock u).
Proof. intros H. apply (reach_step u _ H). apply step_script. Qed.

Lemma dialog_run_reachable e d u :
  dialog_of e = Some d ->
  opened u = Some d ->
  rerunning u = false ->
  reachable u -> reachable (dialog_run e u).
Proof.
  intros Hd Ho Hr H. apply (reach_step u _ H).
  now apply (step_dialog u e d).
Qed.

Lemma paused_page_reachable :
  reachable paused_page
  /\ flag (ss (page_world paused_page)) paused = true
  /\ flag (ss (page_world paused_page)) running = true
  /\ phase (ss (page_world paused_page)) = FOCUS.
Proof.
  split; [|vm_compute; auto].
  unfold paused_page. apply script_run_reachable.
  apply (dialog_run_reachable _ show_pause_dialog);
    [reflexivity | vm_compute; reflexivity | vm_compute; reflexivity|].
  unfold pause_asked_page. do 2 apply script_run_reachable.
  unfold focus_page. apply script_run_reachable.
  apply (dialog_run_reachable _ show_start_setup);
    [reflexivity | vm_compute; reflexivity | vm_compute; reflexivity|].
  unfold start_asked_page. do 3 apply script_run_reachable.
  apply reach_start.
Qed.

(** C9.  Any number of ticks of a paused timer leaves the start and the
    end of the phase as they were, and the whole session with them; the
    pie the ticks draw is made from the phase and the snapshot of the
    pause alone, and is the same at every tick.  The timer is paused in
    the sense of the pause screen, that is, it is not held for a seat
    extension, whose screen comes first in the fragment: no event
    raises the block flag of a paused timer, and on no page that the
    application reaches is a paused timer held, so that there the ticks
    of every paused timer leave the session as it is. *)
Theorem paused_ticks_keep_phase_times w clocks
    (Hp : flag (ss w) paused = true)
    (Hnb : flag (ss w) block_next_focus_until_seat_extended = false) :
  let w' := ticks clocks w in
  stamp (ss w') phase_start_dt = stamp (ss w) phase_start_dt
  /\ stamp (ss w') phase_end_dt = stamp (ss w) phase_end_dt
  /\ float (ss w') pause_snapshot_prog = float (ss w) pause_snapshot_prog
  /\ float (ss w') pause_snapshot_rem_sec
     = float (ss w) pause_snapshot_rem_sec
  /\ ss w' = ss w
  /\ study_sessions w' = study_sessions w
  /\ (forall c c', pie (step w' (ev_tick c')) = pie (step w (ev_tick c)))
  /\ (forall v c c',
        flag (ss v) paused = true ->
        flag (ss v) block_next_focus_until_seat_extended = false ->
        flag (ss v) running = flag (ss w) running ->
        phase (ss v) = phase (ss w) ->
        float (ss v) pause_snapshot_prog = float (ss w) pause_snapshot_prog ->
        float (ss v) pause_snapshot_rem_sec
        = float (ss w) pause_snapshot_rem_sec ->
        pie (step v (ev_tick c')) = pie (step w (ev_tick c)))
  /\ (forall e,
        flag (ss (step w e)) block_next_focus_until_seat_extended = false)
  /\ (forall u cs,
        reachable u ->
        flag (ss (page_world u)) paused = true ->
        flag (ss (page_world u)) block_next_focus_until_seat_extended
        = false
        /\ ss (ticks cs (page_world u)) = ss (page_world u)).
Proof.
  intros w'. subst w'.
  destruct (paused_ticks clocks w Hp Hnb) as (E & Er & _).
  rewrite E. do 5 (split; [reflexivity|]). split; [exact Er|].
  split; [|split; [|split]].
  - intros c c'. apply paused_pie; rewrite ?E; auto.
  - intros v c c'. now apply paused_pie.
  - intros e.
    destruct (flag (ss (step w e)) block_next_focus_until_seat_extended)
      eqn:Hset; [exfalso|reflexivity].
    destruct (handler_block e w Hset) as [H|(_ & _ & H & _)]; congruence.
  - intros u cs Hu Hpu. destruct (reachable_inv u Hu) as [[I1 _] _].
    split; [exact (I1 Hpu)|].
    exact (proj1 (paused_ticks cs (page_world u) Hpu (I1 Hpu))).
Qed.

Lemma paused_ticks_keep_phase_times_witness :
  let w := paused_at_10_10 in
  let w' := ticks [day0 10 10 1; day0 10 40 0; day0 11 0 0] w in
  stamp (ss w') phase_start_dt = Some (mkdt 738000 10 0 0 0)
  /\ stamp (ss w') phase_end_dt = Some (mkdt 738000 10 25 0 0)
  /\ shown_time w' = Some "15:00"%string
  /\ ss (ticks [day0 10 10 7; day0 10 40 0] (page_world paused_page))
     = ss (page_world paused_page).
Proof.
  intros w w'.
  destruct (paused_ticks_keep_phase_times w
              [day0 10 10 1; day0 10 40 0; day0 11 0 0] eq_refl eq_refl)
    as (H1 & H2 & _ & _ & _ & _ & _ & _ & _ & H3).
  split; [exact H1|]. split; [exact H2|]. split; [reflexivity|].
  destruct paused_page_reachable as (Hr & Hp & _).
  exact (proj2 (H3 paused_page _ Hr Hp)).
Defined.

(* ------------------------------------------------------------------ *)
(** *** A focus with a pause in it *)

(** C10, as the code has it.  A focus from [s] to [e] that is paused at
    [p], resumed at [r] and ended by the tick of [t], at or after its
    shifted end [e + (r - p)], is logged twice: from [s] to [p] at the
    pause, and from the shifted start [s + (r - p)] to [t] at the end.
    The shifted start is at or before [p] only when the pause was no
    longer than the focus before it.  When the tick comes right at the
    shifted end, the second row counts the minutes of the whole focus,
    from [s] to [e], which is also the time spent focused, [p - s] and
    [e + (r - p) - r]; the minutes from [s] to [p] are counted again. *)
Theorem paused_focus_logged_twice w reason cp cr ct s e
    (Hrun : flag (ss w) running = true)
    (Hnb : flag (ss w) block_next_focus_until_seat_extended = false)
    (Hphase : phase (ss w) = FOCUS)
    (Hps : stamp (ss w) phase_start_dt = Some s)
    (Hpe : stamp (ss w) phase_end_dt = Some e)
    (Hseat : seat_short (now_of cr) (ss w) = None)
    (Hover : dt_ge (now_of ct) (dt_add e (dt_sub (now_of cr) (now_of cp)))
             = true) :
  let p := now_of cp in
  let r := now_of cr in
  let t := now_of ct in
  let s' := dt_add s (dt_sub r p) in
  let e' := dt_add e (dt_sub r p) in
  let w' := run [ev_pause_dialog reason click_confirm cp;
                 ev_top page_resume cr;
                 ev_tick ct] w in
  study_sessions w' = logged (logged (study_sessions w) s p) s' t
  /\ total_focus_minutes (study_sessions w')
     = total_focus_minutes (study_sessions w)
       + _minutes_between s p + _minutes_between s' t
  /\ phase (ss w') = REST
  /\ to_us s' = to_us s + (to_us r - to_us p)
  /\ to_us e' = to_us e + (to_us r - to_us p)
  /\ (to_us s' <= to_us p <-> to_us r - to_us p <= to_us p - to_us s)
  /\ dt_sub p s + dt_sub e' r = dt_sub e s
  /\ (t = e' ->
      _minutes_between s' t = _minutes_between s e
      /\ total_focus_minutes (study_sessions w')
         = total_focus_minutes (study_sessions w)
           + _minutes_between s e + _minutes_between s p).
Proof.
  intros p r t s' e' w'.
  assert (Es : to_us s' = to_us s + (to_us r - to_us p))
    by apply to_us_dt_add.
  assert (Ee : to_us e' = to_us e + (to_us r - to_us p))
    by apply to_us_dt_add.
  assert (Erows : study_sessions w'
                  = logged (logged (study_sessions w) s p) s' t
                  /\ phase (ss w') = REST).
  { subst w' p r t s' e'.
    unfold run, step, handler, exec, logged. cbn [fold_left].
    destruct (progress s e (now_of cp)) as [prog rem] eqn:EP.
    destruct (progress (dt_add s (dt_sub (now_of cr) (now_of cp)))
                (dt_add e (dt_sub (now_of cr) (now_of cp))) (now_of ct))
      as [prog' rem'] eqn:EP'.
    destruct (0 <? _minutes_between s (now_of cp)) eqn:Hm;
      destruct (0 <? _minutes_between
                       (dt_add s (dt_sub (now_of cr) (now_of cp)))
                       (now_of ct)) eqn:Hm';
      destruct (seat_short (now_of ct) (ss w)) eqn:Hs.
    all: eassert (E : pause_dialog reason click_confirm cp w = _);
      [ unfold pause_dialog; app_run; reflexivity
      | rewrite E; clear E; cbn [snd] ].
    all: match goal with
         | |- context [top_button ?c ?k ?w0] =>
             eassert (E : top_button c k w0 = _)
         end;
      [ unfold top_button, _resume_timer; app_run; reflexivity
      | rewrite E; clear E; cbn [snd] ].
    all: match goal with
         | |- context [run_timer_fragment ?k ?w0] =>
             eassert (E : run_timer_fragment k w0 = _)
         end;
      [ unfold run_timer_fragment, _switch_phase, _request_extension_popup;
        app_run; reflexivity
      | rewrite E; clear E; session_simpl; split; reflexivity ]. }
  destruct Erows as [Erows Eph].
  split; [exact Erows|]. split; [|split; [exact Eph|]].
  { rewrite Erows, !total_focus_minutes_logged. reflexivity. }
  split; [exact Es|]. split; [exact Ee|].
  split; [lia|]. split; [unfold dt_sub; lia|].
  intros ->.
  assert (Em : _minutes_between s' e' = _minutes_between s e)
    by (apply minutes_between_shift; lia).
  split; [exact Em|].
  rewrite Erows, !total_focus_minutes_logged, Em. lia.
Qed.

Lemma paused_focus_logged_twice_witness :
  let w := run [ev_start_dialog mode_25_5 start_go (day0 10 0 0)] fresh in
  let w' := run [ev_pause_dialog "물/커피" click_confirm (day0 10 10 0);
                 ev_top page_resume (day0 10 15 0);
                 ev_tick (day0 10 30 0)] w in
  study_sessions w'
  = [mkrow (mkdt 738000 10 0 0 0) (mkdt 738000 10 10 0 0) 10;
     mkrow (mkdt 738000 10 5 0 0) (mkdt 738000 10 30 0 0) 25]
  /\ total_focus_minutes (study_sessions w') = 35.
Proof.
  intros w w'.
  destruct (paused_focus_logged_twice w "물/커피"%string
              (day0 10 10 0) (day0 10 15 0) (day0 10 30 0)
              (mkdt 738000 10 0 0 0) (mkdt 738000 10 25 0 0)
              eq_refl eq_refl eq_refl eq_refl eq_refl eq_refl eq_refl)
    as (H1 & H2 & _).
  split; [exact H1 | exact H2].
Defined.

(** C10, as it is stated, fails in one point: after a pause longer than
    the focus before it, the shifted start lies after the pause.  Here
    the focus starts at 10:00:00 and is paused from 10:01:00 to
    10:11:00; the shifted start is 10:10:00.  The tick of 10:35:00 then
    logs 25 minutes on top of the minute logged at the pause. *)
Lemma long_pause_start_after_pause :
  let p := mkdt 738000 10 1 0 0 in
  stamp (ss long_pause) phase_start_dt = Some (mkdt 738000 10 10 0 0)
  /\ stamp (ss long_pause) phase_end_dt = Some (mkdt 738000 10 35 0 0)
  /\ ~ (exists s', stamp (ss long_pause) phase_start_dt = Some s'
                   /\ to_us s' <= to_us p)
  /\ map focus_minutes
       (study_sessions (step long_pause (ev_tick (day0 10 35 0))))
     = [1; 25].
Proof.
  intros p. split; [reflexivity|]. split; [reflexivity|]. split.
  - intros (s' & E & H).
    assert (E' : Some s' = Some (mkdt 738000 10 10 0 0))
      by (rewrite <- E; reflexivity).
    injection E' as ->. vm_compute in H. apply H. reflexivity.
  - reflexivity.
Qed.

(* ================================================================== *)
(** ** The seat hours *)
(* ================================================================== *)

Lemma wf_seat_close_dt_for s : wf_dt (seat_close_dt_for s).
Proof. unfold wf_dt, seat_close_dt_for, SEAT_CLOSE_HOUR; simpl. lia. Qed.

Lemma to_us_dt_min a b :
  wf_dt a -> wf_dt b -> to_us (dt_min a b) = Z.min (to_us a) (to_us b).
Proof.
  intros Ha Hb. unfold dt_min. rewrite (dt_lt_to_us b a Hb Ha).
  destruct (to_us b <? to_us a) eqn:E.
  - apply Z.ltb_lt in E. lia.
  - apply Z.ltb_ge in E. lia.
Qed.

Lemma to_us_get_seat_expiry_dt s ext :
  to_us (get_seat_expiry_dt s ext)
  = Z.min (to_us s + td_minutes (SEAT_BASE_MIN + ext))
          (to_us (seat_close_dt_for s)).
Proof.
  unfold get_seat_expiry_dt.
  rewrite to_us_dt_min by (apply wf_of_us || apply wf_seat_close_dt_for).
  now rewrite to_us_dt_add.
Qed.

Lemma time_lt_open now :
  wf_dt now ->
  time_lt (dt_time now) (mktime SEAT_OPEN_HOUR 0 0 0) = (dt_hour now <? 6).
Proof.
  intros (Hh & Hm & Hs & Hu).
  unfold time_lt, time_cmp, lex, dt_time, SEAT_OPEN_HOUR; simpl.
  destruct (Z.compare_spec (dt_hour now) 6);
  destruct (Z.compare_spec (dt_minute now) 0);
  destruct (Z.compare_spec (dt_second now) 0);
  destruct (Z.compare_spec (dt_microsecond now) 0);
  symmetry; first [apply Z.ltb_lt | apply Z.ltb_ge]; lia.
Qed.

Lemma next_seat_open_dt_eq now :
  wf_dt now ->
  next_seat_open_dt now
  = mkdt (if dt_hour now <? 6 then dt_ordinal now else dt_ordinal now + 1)
      6 0 0 0.
Proof.
  intros Hnow. unfold next_seat_open_dt. rewrite (time_lt_open now Hnow).
  destruct (dt_hour now <? 6); [reflexivity|].
  unfold dt_add, _dt_at, SEAT_OPEN_HOUR.
  replace (to_us (mkdt (dt_ordinal now) 6 0 0 0) + td_days 1)
    with (to_us (mkdt (dt_ordinal now + 1) 6 0 0 0))
    by (unfold to_us, td_days; simpl; lia).
  apply of_us_to_us. unfold wf_dt; simpl; lia.
Qed.

(** X1.  [next_seat_open_dt] is the next 06:00:00 after [now]: it comes
    strictly after [now], at most a day later, no other 06:00:00 lies in
    between, and it is outside the reset window. *)
Theorem next_opening_is_next_six now (Hnow : wf_dt now) :
  let nxt := next_seat_open_dt now in
  dt_time nxt = mktime 6 0 0 0
  /\ dt_lt now nxt = true
  /\ 0 < dt_sub nxt now <= td_days 1
  /\ is_seat_reset_window nxt = false
  /\ (forall d,
        wf_dt d -> dt_time d = mktime 6 0 0 0 -> dt_lt now d = true ->
        dt_le nxt d = true).
Proof.
  intros nxt. subst nxt. rewrite (next_seat_open_dt_eq now Hnow).
  set (o := if dt_hour now <? 6 then dt_ordinal now else dt_ordinal now + 1).
  assert (Hw : wf_dt (mkdt o 6 0 0 0)) by (unfold wf_dt; simpl; lia).
  assert (Hgap : 0 < to_us (mkdt o 6 0 0 0) - to_us now <= td_days 1).
  { destruct Hnow as (Hh & Hm & Hs & Hu). subst o.
    unfold to_us, td_days; simpl.
    destruct (dt_hour now <? 6) eqn:E;
      [apply Z.ltb_lt in E | apply Z.ltb_ge in E]; lia. }
  split; [reflexivity|].
  split; [rewrite (dt_lt_to_us _ _ Hnow Hw); apply Z.ltb_lt; lia|].
  split; [exact Hgap|].
  split; [reflexivity|].
  intros d Hd Ht Hlt.
  rewrite (dt_lt_to_us _ _ Hnow Hd) in Hlt. apply Z.ltb_lt in Hlt.
  rewrite (dt_le_to_us _ _ Hw Hd). apply Z.leb_le.
  destruct d as [o' h m s u]. unfold dt_time in Ht; simpl in Ht.
  injection Ht as -> -> -> ->.
  destruct Hnow as (Hh & Hm & Hs & Hu). subst o.
  unfold to_us in *; simpl in *.
  destruct (dt_hour now <? 6) eqn:E;
    [apply Z.ltb_lt in E | apply Z.ltb_ge in E]; lia.
Qed.

Lemma next_opening_is_next_six_witness :
  next_seat_open_dt (mkdt 738000 23 30 0 0) = mkdt 738001 6 0 0 0
  /\ dt_lt (mkdt 738000 23 30 0 0) (next_seat_open_dt (mkdt 738000 23 30 0 0))
     = true.
Proof.
  assert (Hnow : wf_dt (mkdt 738000 23 30 0 0)) by (unfold wf_dt; simpl; lia).
  destruct (next_opening_is_next_six _ Hnow) as (_ & H & _).
  split; [reflexivity | exact H].
Defined.

(** X2.  Extending a seat never brings its expiry forward and never
    gains more than the minutes added; once the expiry has reached the
    closing time, further extensions gain nothing. *)
Theorem extension_gain_bounded start ext ext'
    (Hstart : wf_dt start) (Hle : ext <= ext') :
  let e := get_seat_expiry_dt start ext in
  let e' := get_seat_expiry_dt start ext' in
  dt_le e e' = true
  /\ 0 <= dt_sub e' e <= td_minutes (ext' - ext)
  /\ (dt_le (seat_close_dt_for start)
        (dt_add start (td_minutes (SEAT_BASE_MIN + ext))) = true ->
      e = seat_close_dt_for start /\ e' = e).
Proof.
  intros e e'. subst e e'.
  pose proof (to_us_get_seat_expiry_dt start ext) as E1.
  pose proof (to_us_get_seat_expiry_dt start ext') as E2.
  assert (Hm : td_minutes (SEAT_BASE_MIN + ext)
               <= td_minutes (SEAT_BASE_MIN + ext'))
    by (unfold td_minutes; lia).
  split; [|split].
  - rewrite dt_le_to_us by apply wf_get_seat_expiry_dt.
    apply Z.leb_le. lia.
  - unfold dt_sub, td_minutes in *. lia.
  - intros Hc.
    rewrite dt_le_to_us in Hc by (apply wf_seat_close_dt_for || apply wf_of_us).
    apply Z.leb_le in Hc. rewrite to_us_dt_add in Hc.
    assert (Hclose : forall x,
              to_us (seat_close_dt_for start)
              <= to_us start + td_minutes (SEAT_BASE_MIN + x) ->
              get_seat_expiry_dt start x = seat_close_dt_for start).
    { intros x Hx.
      rewrite <- (of_us_to_us (get_seat_expiry_dt start x))
        by apply wf_get_seat_expiry_dt.
      rewrite <- (of_us_to_us (seat_close_dt_for start))
        by apply wf_seat_close_dt_for.
      f_equal. rewrite to_us_get_seat_expiry_dt. lia. }
    rewrite (Hclose ext Hc), (Hclose ext') by lia. auto.
Qed.

Lemma extension_gain_bounded_witness :
  let start := mkdt 738000 19 30 0 0 in
  dt_sub (get_seat_expiry_dt start 60) (get_seat_expiry_dt start 0)
  <= td_minutes 60
  /\ get_seat_expiry_dt start 60 = mkdt 738000 23 0 0 0.
Proof.
  intros start.
  assert (Hs : wf_dt start) by (unfold wf_dt; simpl; lia).
  destruct (extension_gain_bounded start 0 60 Hs ltac:(lia)) as (_ & H & _).
  split; [apply H | reflexivity].
Defined.

(** X3.  In the last hour before closing, from 22:01 on, the seat check
    fires whatever extension has been granted: the seat has at most 59
    minutes left, since its expiry is never later than 23:00. *)
Theorem last_hour_check_fires s now start
    (Hnow : wf_dt now) (Hstart : wf_dt start)
    (Huse : use_seat (settings s) = true)
    (Hset : seat_start_dt (settings s) = Some start)
    (Hbegun : dt_le start now = true)
    (Hhour : dt_hour now = 22) (Hminute : 1 <= dt_minute now) :
  forall ext,
    let left := total_seconds (dt_sub (get_seat_expiry_dt start ext) now) in
    compute_seat_left_seconds now (Some start) ext = Some left
    /\ (left <= inject_Z SEAT_ALERT_WINDOW_SEC)%Q
    /\ seat_short now (set_num seat_extension_min ext s) = Some left.
Proof.
  intros ext left.
  assert (Hwin : is_seat_reset_window now = false).
  { destruct (is_seat_reset_window now) eqn:E; [|reflexivity].
    apply (reset_window_hours now Hnow) in E. lia. }
  rewrite (dt_le_to_us _ _ Hstart Hnow) in Hbegun. apply Z.leb_le in Hbegun.
  assert (Hc : compute_seat_left_seconds now (Some start) ext = Some left).
  { unfold compute_seat_left_seconds. rewrite Hwin.
    rewrite (dt_lt_to_us _ _ Hnow Hstart).
    replace (to_us now <? to_us start) with false
      by (symmetry; apply Z.ltb_ge; lia).
    reflexivity. }
  assert (Hl : (left <= inject_Z SEAT_ALERT_WINDOW_SEC)%Q).
  { subst left. unfold total_seconds, Qle, dt_sub, SEAT_ALERT_WINDOW_SEC.
    cbn [Qnum Qden inject_Z].
    pose proof (to_us_get_seat_expiry_dt start ext) as E.
    destruct Hnow as (Hh & Hm & Hs & Hu).
    destruct Hstart as (Hh' & Hm' & Hs' & Hu').
    unfold to_us, seat_close_dt_for, SEAT_CLOSE_HOUR in *; simpl in *.
    lia. }
  split; [exact Hc|]. split; [exact Hl|].
  apply seat_short_spec. cbn [settings set_num num num_key_beq].
  rewrite Hset. auto.
Qed.

Lemma last_hour_check_fires_witness :
  let s := set_use_seat true
             (set_seat_start_dt (Some (mkdt 738000 21 0 0 0))
                (defaults (day0 9 0 0))) in
  seat_short (mkdt 738000 22 30 0 0) (set_num seat_extension_min 180 s)
  = Some (1800000000 # 1000000).
Proof.
  intros s.
  assert (Hnow : wf_dt (mkdt 738000 22 30 0 0)) by (unfold wf_dt; simpl; lia).
  assert (Hst : wf_dt (mkdt 738000 21 0 0 0)) by (unfold wf_dt; simpl; lia).
  destruct (last_hour_check_fires s (mkdt 738000 22 30 0 0)
              (mkdt 738000 21 0 0 0) Hnow Hst eq_refl eq_refl eq_refl
              eq_refl ltac:(simpl; lia) 180)
    as (_ & _ & H).
  exact H.
Defined.

(* ================================================================== *)
(** ** The progress of a phase *)
(* ================================================================== *)

Lemma Qlt_bool_iff x y : Qlt_bool x y = true <-> (x < y)%Q.
Proof.
  unfold Qlt_bool. rewrite negb_true_iff.
  split.
  - intros H. apply Qnot_le_lt. intros Hle.
    apply Qle_bool_iff in Hle. congruence.
  - intros H. destruct (Qle_bool y x) eqn:E; [|reflexivity].
    apply Qle_bool_iff in E. exfalso. now apply (Qlt_not_le x y).
Qed.

Lemma float_max_spec a b :
  (a <= float_max a b)%Q /\ (b <= float_max a b)%Q
  /\ (float_max a b = a \/ float_max a b = b).
Proof.
  unfold float_max. destruct (Qlt_bool a b) eqn:E.
  - apply Qlt_bool_iff in E. repeat split; auto using Qlt_le_weak, Qle_refl.
  - repeat split; auto using Qle_refl.
    destruct (Qlt_le_dec a b) as [H|H]; [|exact H].
    apply Qlt_bool_iff in H. congruence.
Qed.

Lemma float_min_spec a b :
  (float_min a b <= a)%Q /\ (float_min a b <= b)%Q
  /\ (float_min a b = a \/ float_min a b = b).
Proof.
  unfold float_min. destruct (Qlt_bool b a) eqn:E.
  - apply Qlt_bool_iff in E. repeat split; auto using Qlt_le_weak, Qle_refl.
  - repeat split; auto using Qle_refl.
    destruct (Qlt_le_dec b a) as [H|H]; [|exact H].
    apply Qlt_bool_iff in H. congruence.
Qed.

Lemma total_seconds_pos td : (0 < total_seconds td)%Q <-> 0 < td.
Proof. unfold total_seconds, Qlt; simpl. lia. Qed.

Lemma total_seconds_le td td' :
  (total_seconds td <= total_seconds td')%Q <-> td <= td'.
Proof. unfold total_seconds, Qle; simpl. lia. Qed.

(** X4.  The progress of a phase is a percentage between 0 and 100 and
    the remaining seconds are never negative, whatever the three times:
    what is left is the time to the end of the phase, 0 from the end on;
    the progress is 0 until the start and 100 from the end on of a phase
    of a second or more. *)
Theorem progress_bounds ps pe now :
  let prog := fst (progress ps pe now) in
  let rem_sec := snd (progress ps pe now) in
  (0 <= prog)%Q /\ (prog <= 100)%Q /\ (0 <= rem_sec)%Q
  /\ (to_us pe <= to_us now -> rem_sec = 0%Q)
  /\ (to_us now < to_us pe -> rem_sec = total_seconds (dt_sub pe now))
  /\ (to_us now <= to_us ps -> (prog == 0)%Q)
  /\ (1000000 <= to_us pe - to_us ps -> to_us pe <= to_us now ->
      prog = 100%Q).
Proof.
  intros prog rem_sec. subst prog rem_sec. unfold progress; cbn [fst snd].
  set (total := float_max 1 (total_seconds (dt_sub pe ps))).
  set (elapsed := float_max 0 (total_seconds (dt_sub now ps))).
  assert (Ht : (1 <= total)%Q) by apply float_max_spec.
  assert (Htpos : (0 < total)%Q)
    by (apply Qlt_le_trans with 1%Q; [reflexivity | exact Ht]).
  assert (He : (0 <= elapsed)%Q) by apply float_max_spec.
  assert (Hq : (0 <= elapsed / total * 100)%Q).
  { apply Qmult_le_0_compat; [|discriminate].
    apply Qmult_le_0_compat; [exact He|].
    apply Qinv_le_0_compat. now apply Qlt_le_weak. }
  split; [|split; [|split; [|split; [|split; [|split]]]]].
  - destruct (float_min_spec 100 (elapsed / total * 100)) as (_ & _ & [E|E]);
      rewrite E; [discriminate | exact Hq].
  - apply float_min_spec.
  - apply float_max_spec.
  - intros H. apply float_max_0_nonpos. unfold dt_sub. lia.
  - intros H. unfold float_max.
    replace (Qlt_bool 0 (total_seconds (dt_sub pe now))) with true;
      [reflexivity|].
    symmetry. apply Qlt_bool_iff, total_seconds_pos. unfold dt_sub. lia.
  - intros H.
    assert (E0 : elapsed = 0%Q)
      by (apply float_max_0_nonpos; unfold dt_sub; lia).
    rewrite E0. unfold float_min.
    replace (Qlt_bool (0 / total * 100) 100) with true; [reflexivity|].
    symmetry. apply Qlt_bool_iff. reflexivity.
  - intros Hlen Hover. unfold float_min.
    replace (Qlt_bool (elapsed / total * 100) 100) with false; [reflexivity|].
    symmetry. apply not_true_iff_false. intros Hlt.
    apply Qlt_bool_iff in Hlt.
    assert (Hx : (1 <= total_seconds (dt_sub pe ps))%Q)
      by (unfold total_seconds, Qle, dt_sub; simpl; lia).
    assert (Hxe : (total_seconds (dt_sub pe ps) <= elapsed)%Q).
    { apply Qle_trans with (total_seconds (dt_sub now ps));
        [|apply float_max_spec].
      apply total_seconds_le. unfold dt_sub. lia. }
    assert (Hge : (total <= elapsed)%Q).
    { destruct (float_max_spec 1 (total_seconds (dt_sub pe ps)))
        as (_ & _ & [E|E]); fold total in E; rewrite E;
        [now apply Qle_trans with (total_seconds (dt_sub pe ps)) | exact Hxe]. }
    apply (Qlt_not_le _ _ Hlt).
    setoid_replace (100 : Q) with (total / total * 100)%Q at 1
      by (field; intros H0; rewrite H0 in Htpos; discriminate).
    apply Qmult_le_compat_r; [|discriminate].
    apply Qmult_le_compat_r; [exact Hge|].
    apply Qinv_le_0_compat. now apply Qlt_le_weak.
Qed.

Lemma progress_bounds_witness :
  let ps := mkdt 738000 10 0 0 0 in
  let pe := mkdt 738000 10 25 0 0 in
  snd (progress ps pe (mkdt 738000 10 30 0 0)) = 0%Q
  /\ fst (progress ps pe (mkdt 738000 10 30 0 0)) = 100%Q.
Proof.
  intros ps pe.
  destruct (progress_bounds ps pe (mkdt 738000 10 30 0 0))
    as (_ & _ & _ & H1 & _ & _ & H2).
  split; [apply H1 | apply H2]; vm_compute; discriminate.
Defined.

(* ================================================================== *)
(** ** The texts *)
(* ================================================================== *)

Lemma string_length_append (a b : string) :
  String.length (a ++ b) = (String.length a + String.length b)%nat.
Proof. induction a as [|c a IH]; simpl; [reflexivity | now rewrite IH]. Qed.

(** Two texts that end in parts of the same length are equal part by
    part. *)
Lemma string_append_inj (a a' b b' : string) :
  String.length b = String.length b' ->
  (a ++ b)%string = (a' ++ b')%string -> a = a' /\ b = b'.
Proof.
  revert a'. induction a as [|c a IH]; intros [|c' a'] Hlen E; simpl in E.
  - auto.
  - exfalso. apply (f_equal String.length) in E. simpl in E.
    rewrite string_length_append in E. lia.
  - exfalso. apply (f_equal String.length) in E. simpl in E.
    rewrite string_length_append in E. lia.
  - injection E as -> E. destruct (IH a' Hlen E) as [-> ->]. auto.
Qed.

Lemma read_int_fmtd n : read_int (fmtd n) = Some n.
Proof.
  unfold read_int, fmtd.
  assert (N1 : Z.to_int n <> Decimal.Pos Decimal.Nil).
  { intros E. pose proof (DecimalZ.of_to n) as H. rewrite E in H.
    simpl in H. subst n. discriminate E. }
  assert (N2 : Z.to_int n <> Decimal.Neg Decimal.Nil).
  { intros E. pose proof (DecimalZ.of_to n) as H. rewrite E in H.
    simpl in H. subst n. discriminate E. }
  rewrite (DecimalString.NilZero.isi _ N1 N2). simpl.
  now rewrite DecimalZ.of_to.
Qed.

(** Below 100, [fmt02d] writes two digits that read back as the
    number. *)
Lemma fmt02d_two_digits n :
  0 <= n < 100 ->
  String.length (fmt02d n) = 2%nat /\ read_int (fmt02d n) = Some n.
Proof.
  intros Hn.
  assert (H : forallb
                (fun k =>
                   (String.length (fmt02d (Z.of_nat k)) =? 2)%nat
                   && match read_int (fmt02d (Z.of_nat k)) with
                      | Some z => z =? Z.of_nat k
                      | None => false
                      end)
                (seq 0 100) = true) by (vm_compute; reflexivity).
  rewrite forallb_forall in H.
  specialize (H (Z.to_nat n) ltac:(apply in_seq; lia)). cbv beta in H.
  rewrite Z2Nat.id in H by lia.
  apply andb_true_iff in H. destruct H as [H1 H2].
  split; [now apply Nat.eqb_eq|].
  destruct (read_int (fmt02d n)) as [z|]; [|discriminate].
  apply Z.eqb_eq in H2. now subst z.
Qed.

Lemma float_int_nonneg x : (0 <= x)%Q -> 0 <= float_int x.
Proof.
  unfold float_int, Qle; simpl. intros H.
  apply Z.quot_pos; lia.
Qed.

(** [int(td.total_seconds())] for a span that is not negative. *)
Lemma float_int_total_seconds td :
  0 <= td -> float_int (total_seconds td) = td / 1000000.
Proof.
  intros H. unfold float_int, total_seconds; simpl.
  apply Z.quot_div_nonneg; lia.
Qed.

Lemma hms_parts s :
  0 <= s ->
  0 <= s / 3600 /\ 0 <= s mod 3600 / 60 < 60 /\ 0 <= s mod 60 < 60
  /\ s = s / 3600 * 3600 + s mod 3600 / 60 * 60 + s mod 60.
Proof.
  intros Hs.
  pose proof (Z.div_mod s 3600 ltac:(lia)).
  pose proof (Z.mod_pos_bound s 3600 ltac:(lia)).
  pose proof (Z.div_mod (s mod 3600) 60 ltac:(lia)).
  pose proof (Z.mod_pos_bound (s mod 3600) 60 ltac:(lia)).
  pose proof (Z.mod_pos_bound s 60 ltac:(lia)).
  pose proof (Z.div_mod s 60 ltac:(lia)).
  pose proof (Z.mod_pos_bound ((s mod 3600)) 60 ltac:(lia)).
  assert (E : (s mod 3600) mod 60 = s mod 60) by lia.
  assert (0 <= s / 3600) by (apply Z.div_pos; lia).
  assert (0 <= s mod 3600 / 60) by (apply Z.div_pos; lia).
  assert (s mod 3600 / 60 < 60) by (apply Z.div_lt_upper_bound; lia).
  lia.
Qed.

(** X5.  [format_hms] writes the whole seconds of a duration as
    H:MM:SS, a negative duration as zero; the text determines the whole
    seconds, and below ten hours it has seven characters. *)
Theorem format_hms_reads_back :
  (forall sec, (sec <= 0)%Q -> format_hms sec = "0:00:00"%string)
  /\ (forall a b,
        format_hms a = format_hms b ->
        float_int (float_max 0 a) = float_int (float_max 0 b))
  /\ (forall td,
        0 < td ->
        let n := td / 1000000 in
        format_hms (total_seconds td)
        = (fmtd (n / 3600) ++ ":" ++ fmt02d (n mod 3600 / 60) ++ ":"
             ++ fmt02d (n mod 60))%string
        /\ (n < 36000 ->
            String.length (format_hms (total_seconds td)) = 7%nat)).
Proof.
  split; [|split].
  - intros sec H. unfold format_hms, float_max.
    replace (Qlt_bool 0 sec) with false; [reflexivity|].
    symmetry. apply not_true_iff_false. intros Hlt.
    apply Qlt_bool_iff in Hlt. now apply (Qlt_not_le 0 sec).
  - intros a b E. unfold format_hms in E.
    set (sa := float_int (float_max 0 a)) in *.
    set (sb := float_int (float_max 0 b)) in *.
    assert (Ha : 0 <= sa) by (apply float_int_nonneg, float_max_spec).
    assert (Hb : 0 <= sb) by (apply float_int_nonneg, float_max_spec).
    destruct (hms_parts sa Ha) as (_ & Hma & Hsa & Esa).
    destruct (hms_parts sb Hb) as (_ & Hmb & Hsb & Esb).
    destruct (fmt02d_two_digits (sa mod 3600 / 60)) as [L1 R1]; [lia|].
    destruct (fmt02d_two_digits (sb mod 3600 / 60)) as [L2 R2]; [lia|].
    destruct (fmt02d_two_digits (sa mod 60)) as [L3 R3]; [lia|].
    destruct (fmt02d_two_digits (sb mod 60)) as [L4 R4]; [lia|].
    apply string_append_inj in E;
      [|simpl; rewrite !string_length_append; simpl; lia].
    destruct E as [Eh E]. simpl in E. injection E as E.
    apply string_append_inj in E; [|simpl; lia].
    destruct E as [Em E]. simpl in E. injection E as Es.
    assert (Eh' : sa / 3600 = sb / 3600).
    { pose proof (read_int_fmtd (sa / 3600)) as H.
      rewrite Eh, read_int_fmtd in H. now injection H. }
    rewrite Em, R2 in R1. rewrite Es, R4 in R3.
    injection R1 as R1. injection R3 as R3. lia.
  - intros td Htd n.
    assert (E : float_int (float_max 0 (total_seconds td)) = n).
    { unfold float_max.
      replace (Qlt_bool 0 (total_seconds td)) with true
        by (symmetry; apply Qlt_bool_iff, total_seconds_pos; lia).
      apply float_int_total_seconds. lia. }
    unfold format_hms. rewrite E. split; [reflexivity|].
    intros Hn.
    assert (Hn0 : 0 <= n) by (apply Z.div_pos; lia).
    destruct (hms_parts n Hn0) as (Hh & Hm & Hs & _).
    destruct (fmt02d_two_digits (n mod 3600 / 60)) as [L1 _]; [lia|].
    destruct (fmt02d_two_digits (n mod 60)) as [L2 _]; [lia|].
    rewrite !string_length_append, L1, L2. simpl.
    assert (Hh9 : 0 <= n / 3600 < 10)
      by (split; [lia | apply Z.div_lt_upper_bound; lia]).
    assert (L0 : forallb
                   (fun k => (String.length (fmtd (Z.of_nat k)) =? 1)%nat)
                   (seq 0 10) = true) by (vm_compute; reflexivity).
    rewrite forallb_forall in L0.
    specialize (L0 (Z.to_nat (n / 3600)) ltac:(apply in_seq; lia)).
    cbv beta in L0. rewrite Z2Nat.id in L0 by lia.
    apply Nat.eqb_eq in L0. rewrite L0. reflexivity.
Qed.

Lemma format_hms_reads_back_witness :
  format_hms (-5) = "0:00:00"%string
  /\ format_hms (total_seconds 5025000000) = "1:23:45"%string.
Proof.
  destruct format_hms_reads_back as (H1 & _ & H3).
  split.
  - apply H1. discriminate.
  - destruct (H3 5025000000 ltac:(lia)) as [H _]. exact H.
Defined.

(** X6.  [_time_band] cuts the day in four bands of six hours: two
    hours of the day have the same band exactly when they lie in the
    same quarter of the day; everything before 06 counts as the first
    band and everything from 18 on as the last. *)
Theorem time_band_quarters h h' (Hh : 0 <= h < 24) (Hh' : 0 <= h' < 24) :
  (_time_band h = _time_band h' <-> h / 6 = h' / 6)
  /\ (forall k, k < 6 -> _time_band k = _time_band 0)
  /\ (forall k, 18 <= k -> _time_band k = _time_band 23).
Proof.
  assert (Q : forall k, 0 <= k < 24 ->
            (k <? 6) = (k / 6 <? 1) /\ (k <? 12) = (k / 6 <? 2)
            /\ (k <? 18) = (k / 6 <? 3)).
  { intros k Hk. pose proof (Z.div_mod k 6 ltac:(lia)).
    pose proof (Z.mod_pos_bound k 6 ltac:(lia)).
    repeat split;
      match goal with
      | |- (?a <? ?b) = _ => destruct (Z.ltb_spec a b)
      end; symmetry; first [apply Z.ltb_lt | apply Z.ltb_ge]; lia. }
  split; [|split].
  - destruct (Q h Hh) as (E1 & E2 & E3), (Q h' Hh') as (F1 & F2 & F3).
    unfold _time_band. rewrite E1, E2, E3, F1, F2, F3.
    assert (0 <= h / 6 < 4)
      by (split; [apply Z.div_pos | apply Z.div_lt_upper_bound]; lia).
    assert (0 <= h' / 6 < 4)
      by (split; [apply Z.div_pos | apply Z.div_lt_upper_bound]; lia).
    destruct (Z.ltb_spec (h / 6) 1); destruct (Z.ltb_spec (h / 6) 2);
      destruct (Z.ltb_spec (h / 6) 3);
      destruct (Z.ltb_spec (h' / 6) 1); destruct (Z.ltb_spec (h' / 6) 2);
      destruct (Z.ltb_spec (h' / 6) 3);
      split; intros E; try reflexivity; try discriminate E; lia.
  - intros k Hk. unfold _time_band.
    replace (k <? 6) with true by (symmetry; apply Z.ltb_lt; lia).
    reflexivity.
  - intros k Hk. unfold _time_band.
    replace (k <? 6) with false by (symmetry; apply Z.ltb_ge; lia).
    replace (k <? 12) with false by (symmetry; apply Z.ltb_ge; lia).
    replace (k <? 18) with false by (symmetry; apply Z.ltb_ge; lia).
    reflexivity.
Qed.

Lemma time_band_quarters_witness :
  _time_band 7 = _time_band 11 /\ _time_band 11 <> _time_band 12.
Proof.
  destruct (time_band_quarters 7 11 ltac:(lia) ltac:(lia)) as ([_ H1] & _).
  destruct (time_band_quarters 11 12 ltac:(lia) ltac:(lia)) as ([H2 _] & _).
  split; [apply H1; reflexivity|].
  intros E. apply H2 in E. discriminate E.
Defined.

(** The minutes and seconds that [mmss] writes are those of the whole
    seconds of its argument. *)
Lemma mmss_whole_seconds q :
  (0 <= q)%Q ->
  mmss q = (fmt02d (Qfloor q / 60) ++ ":" ++ fmt02d (Qfloor q mod 60))%string.
Proof.
  destruct q as [a b]. unfold Qle; cbn [Qnum Qden]. intros Ha.
  assert (Ha' : 0 <= a) by lia.
  assert (E1 : Qfloor ((a # b) / 60) = a / Z.pos b / 60).
  { unfold Qfloor, Qdiv, Qmult, Qinv; cbn [Qnum Qden].
    rewrite Pos2Z.inj_mul, Z.mul_1_r. now rewrite Z.div_div by lia. }
  unfold mmss. rewrite E1. cbn [Qfloor].
  set (n := a / Z.pos b).
  assert (E2 : float_int ((a # b) - inject_Z (60 * (n / 60))) = n mod 60).
  { unfold float_int, Qminus, Qplus, Qopp, inject_Z; cbn [Qnum Qden].
    rewrite Pos.mul_1_r, Z.mul_1_r.
    pose proof (Z.div_mod n 60 ltac:(lia)) as Hn.
    pose proof (Z.mod_pos_bound n 60 ltac:(lia)) as Hr.
    pose proof (Z.div_mod a (Z.pos b) ltac:(lia)) as Hd.
    pose proof (Z.mod_pos_bound a (Z.pos b) ltac:(lia)) as Hb.
    fold n in Hd.
    replace (a + - (60 * (n / 60)) * Z.pos b)
      with (a mod Z.pos b + (n mod 60) * Z.pos b) by nia.
    rewrite Z.quot_div_nonneg by nia.
    rewrite Z.div_add by lia. rewrite Z.div_small by lia. lia. }
  now rewrite E2.
Qed.

Lemma fmt02d_zero x : fmt02d x = "00"%string -> x = 0.
Proof.
  unfold fmt02d. fold (fmtd x). intros E.
  pose proof (read_int_fmtd x) as R.
  destruct (String.length (fmtd x) <? 2)%nat.
  - simpl in E. injection E as E. rewrite E in R.
    vm_compute in R. now injection R.
  - rewrite E in R. vm_compute in R. now injection R.
Qed.

(** X7.  The countdown of the timer shows the whole seconds left of the
    phase as MM:SS: it reads 00:00 exactly when less than a second is
    left, and it has five characters for a phase of less than a hundred
    minutes. *)
Theorem countdown_text ps pe now :
  let shown := mmss (snd (progress ps pe now)) in
  let n := Z.max 0 (dt_sub pe now) / 1000000 in
  shown = (fmt02d (n / 60) ++ ":" ++ fmt02d (n mod 60))%string
  /\ (shown = "00:00"%string <-> dt_sub pe now < 1000000)
  /\ (dt_sub pe now < 6000000000 -> String.length shown = 5%nat).
Proof.
  intros shown n.
  assert (Hn : 0 <= n) by (apply Z.div_pos; lia).
  assert (E : shown = (fmt02d (n / 60) ++ ":" ++ fmt02d (n mod 60))%string).
  { subst shown. unfold progress; cbn [snd].
    rewrite mmss_whole_seconds by apply float_max_spec.
    assert (F : Qfloor (float_max 0 (total_seconds (dt_sub pe now))) = n).
    { unfold float_max.
      destruct (Qlt_bool 0 (total_seconds (dt_sub pe now))) eqn:L.
      - apply Qlt_bool_iff in L. apply (proj1 (total_seconds_pos _)) in L.
        unfold total_seconds, Qfloor. subst n. now rewrite Z.max_r by lia.
      - assert (dt_sub pe now <= 0).
        { destruct (Z.le_gt_cases (dt_sub pe now) 0) as [H|H]; [exact H|].
          apply (proj2 (total_seconds_pos _)) in H.
          apply (proj2 (Qlt_bool_iff _ _)) in H. congruence. }
        subst n. now rewrite Z.max_l by lia. }
    now rewrite F. }
  pose proof (Z.div_mod n 60 ltac:(lia)) as Hd.
  pose proof (Z.mod_pos_bound n 60 ltac:(lia)) as Hr.
  split; [exact E|]. split.
  - rewrite E. split.
    + intros H.
      change "00:00"%string with ("00" ++ ":" ++ "00")%string in H.
      apply string_append_inj in H;
        [|simpl; rewrite (proj1 (fmt02d_two_digits (n mod 60) ltac:(lia)));
          reflexivity].
      destruct H as [H1 H2]. simpl in H2. injection H2 as H2.
      apply fmt02d_zero in H1, H2.
      assert (n = 0) by lia.
      destruct (Z.lt_ge_cases (dt_sub pe now) 1000000) as [L|L]; [exact L|].
      exfalso. subst n. rewrite Z.max_r in * by lia.
      assert (1 <= dt_sub pe now / 1000000)
        by (apply Z.div_le_lower_bound; lia).
      lia.
    + intros H.
      assert (N : n = 0).
      { subst n. apply Z.div_small. lia. }
      rewrite N. reflexivity.
  - intros H. rewrite E.
    assert (n / 60 < 100).
    { apply Z.div_lt_upper_bound; [lia|].
      subst n. apply Z.div_lt_upper_bound; lia. }
    assert (0 <= n / 60) by (apply Z.div_pos; lia).
    rewrite !string_length_append.
    rewrite (proj1 (fmt02d_two_digits (n / 60) ltac:(lia))).
    simpl. rewrite (proj1 (fmt02d_two_digits (n mod 60) ltac:(lia))).
    reflexivity.
Qed.

Lemma countdown_text_witness :
  mmss (snd (progress (mkdt 738000 10 0 0 0) (mkdt 738000 10 25 0 0)
               (mkdt 738000 10 25 0 0)))
  = "00:00"%string.
Proof.
  destruct (countdown_text (mkdt 738000 10 0 0 0) (mkdt 738000 10 25 0 0)
              (mkdt 738000 10 25 0 0)) as (_ & H & _).
  apply H. vm_compute. reflexivity.
Defined.

(* ================================================================== *)
(** ** The seat box *)
(* ================================================================== *)

(** X8.  The seat box is hidden exactly when seat tracking is off.  In
    the reset window it announces the next opening, which is always
    06:00.  It reads "expired" exactly when, outside the reset window, a
    seat start is set that is not in the future and the expiry is not
    after now; a remaining time it shows is what is left to the expiry,
    and is positive. *)
Theorem seat_box_cases clock s
    (Hclock : wf_dt clock)
    (Hstart : forall st, seat_start_dt (settings s) = Some st -> wf_dt st) :
  let now := now_of clock in
  let ext := num s seat_extension_min in
  (seat_always_box clock s = box_hidden <-> use_seat (settings s) = false)
  /\ (use_seat (settings s) = true ->
      is_seat_reset_window now = true ->
      seat_always_box clock s = box_reset "06:00")
  /\ (seat_always_box clock s = box_expired <->
      use_seat (settings s) = true
      /\ is_seat_reset_window now = false
      /\ exists st,
           seat_start_dt (settings s) = Some st
           /\ dt_le st now = true
           /\ dt_le (get_seat_expiry_dt st ext) now = true)
  /\ (forall txt e,
        seat_always_box clock s = box_left txt e ->
        exists st,
          seat_start_dt (settings s) = Some st
          /\ dt_lt now (get_seat_expiry_dt st ext) = true
          /\ txt = format_hms
                     (total_seconds (dt_sub (get_seat_expiry_dt st ext) now))
          /\ e = hhmm (get_seat_expiry_dt st ext)).
Proof.
  intros now ext.
  assert (Hnow : wf_dt now) by (apply wf_now_of; exact Hclock).
  unfold seat_always_box. fold now ext.
  destruct (use_seat (settings s)); cbn [negb].
  2:{ split; [split; reflexivity|].
      split; [intros H; discriminate H|].
      split; [|intros txt e H; discriminate H].
      split; [intros H; discriminate H | intros (H & _); discriminate H]. }
  destruct (is_seat_reset_window now) eqn:Hwin.
  { rewrite (next_seat_open_dt_eq now Hnow).
    split; [split; intros H; discriminate H|].
    split; [reflexivity|]. split; [|intros txt e H; discriminate H].
    split; [intros H; discriminate H | intros (_ & H & _); discriminate H]. }
  destruct (seat_start_dt (settings s)) as [st|] eqn:Hst.
  2:{ split; [split; intros H; discriminate H|].
      split; [intros _ H; discriminate H|].
      split; [|intros txt e H; discriminate H].
      split; [intros H; discriminate H
             | intros (_ & _ & st & H & _); discriminate H]. }
  specialize (Hstart st eq_refl).
  pose proof (wf_get_seat_expiry_dt st ext) as Hexp.
  unfold compute_seat_left_seconds. rewrite Hwin.
  rewrite (dt_lt_to_us _ _ Hnow Hstart).
  destruct (to_us now <? to_us st) eqn:Hbefore.
  { apply Z.ltb_lt in Hbefore.
    split; [split; intros H; discriminate H|].
    split; [intros _ H; discriminate H|].
    split; [|intros txt e H; discriminate H].
    split; [intros H; discriminate H|].
    intros (_ & _ & st' & E & Hle & _). injection E as <-.
    rewrite (dt_le_to_us _ _ Hstart Hnow) in Hle. apply Z.leb_le in Hle.
    lia. }
  apply Z.ltb_ge in Hbefore.
  destruct (Qlt_bool 0 (total_seconds (dt_sub (get_seat_expiry_dt st ext) now)))
    eqn:Hleft.
  - apply Qlt_bool_iff in Hleft.
    apply (proj1 (total_seconds_pos _)) in Hleft. unfold dt_sub in Hleft.
    split; [split; intros H; discriminate H|].
    split; [intros _ H; discriminate H|].
    split.
    + split; [intros H; discriminate H|].
      intros (_ & _ & st' & E & _ & Hle). injection E as <-.
      rewrite (dt_le_to_us _ _ Hexp Hnow) in Hle. apply Z.leb_le in Hle.
      lia.
    + intros txt e E. injection E as <- <-. exists st.
      split; [reflexivity|]. split; [|split; reflexivity].
      rewrite (dt_lt_to_us _ _ Hnow Hexp). apply Z.ltb_lt. lia.
  - assert (Hle : to_us (get_seat_expiry_dt st ext) <= to_us now).
    { destruct (Z.le_gt_cases (to_us (get_seat_expiry_dt st ext)) (to_us now))
        as [H|H]; [exact H|].
      assert (P : 0 < dt_sub (get_seat_expiry_dt st ext) now)
        by (unfold dt_sub; lia).
      apply (proj2 (total_seconds_pos _)) in P.
      apply (proj2 (Qlt_bool_iff _ _)) in P. congruence. }
    split; [split; intros H; discriminate H|].
    split; [intros _ H; discriminate H|].
    split; [|intros txt e H; discriminate H].
    split; [intros _|reflexivity].
    split; [reflexivity|]. split; [reflexivity|].
    exists st. split; [reflexivity|]. split.
    + rewrite (dt_le_to_us _ _ Hstart Hnow). apply Z.leb_le. lia.
    + rewrite (dt_le_to_us _ _ Hexp Hnow). apply Z.leb_le. lia.
Qed.

Lemma seat_box_cases_witness :
  let s := set_use_seat true
             (set_seat_start_dt (Some (mkdt 738000 19 0 0 0))
                (defaults (day0 9 0 0))) in
  seat_always_box (day0 22 0 0) s = box_expired
  /\ seat_always_box (day0 23 30 0) s = box_reset "06:00"
  /\ seat_always_box (day0 21 15 30) s = box_left "0:44:30" "22:00".
Proof.
  intros s.
  assert (Hs : forall st, seat_start_dt (settings s) = Some st -> wf_dt st).
  { intros st E. injection E as <-. unfold wf_dt; simpl; lia. }
  assert (H1 : wf_dt (day0 22 0 0)) by (unfold wf_dt; simpl; lia).
  assert (H2 : wf_dt (day0 23 30 0)) by (unfold wf_dt; simpl; lia).
  destruct (seat_box_cases (day0 22 0 0) s H1 Hs) as (_ & _ & [_ A] & _).
  destruct (seat_box_cases (day0 23 30 0) s H2 Hs) as (_ & B & _).
  split; [|split; [apply B; reflexivity | reflexivity]].
  apply A. split; [reflexivity|]. split; [reflexivity|].
  exists (mkdt 738000 19 0 0 0). repeat split.
Defined.

(* ================================================================== *)
(** ** The seat dialog *)
(* ================================================================== *)

Lemma wf_dt_combine d t : wf_time t -> wf_dt (dt_combine d t).
Proof. unfold wf_time, wf_dt, dt_combine; simpl. tauto. Qed.

Lemma time_cmp_combine d a b :
  time_cmp a b = dt_cmp (dt_combine d a) (dt_combine d b).
Proof.
  unfold time_cmp, dt_cmp, dt_combine; simpl. now rewrite Z.compare_refl.
Qed.

Lemma dt_time_fields o t :
  dt_time (mkdt o (t_hour t) (t_minute t) (t_second t) (t_microsecond t)) = t.
Proof. now destruct t. Qed.

(** Moving a time by whole days keeps its time of day. *)
Lemma dt_add_days d k :
  wf_dt d ->
  dt_add d (td_days k)
  = mkdt (dt_ordinal d + k) (dt_hour d) (dt_minute d) (dt_second d)
      (dt_microsecond d).
Proof.
  intros Hd. unfold dt_add.
  replace (to_us d + td_days k)
    with (to_us (mkdt (dt_ordinal d + k) (dt_hour d) (dt_minute d)
                   (dt_second d) (dt_microsecond d)))
    by (unfold to_us, td_days; simpl; lia).
  apply of_us_to_us. exact Hd.
Qed.

(** X9.  Saving a start time in the seat dialog stores that time of
    today, or of yesterday when today's would lie more than five minutes
    ahead: the stored start has the time of day entered, is at most five
    minutes ahead of now and less than a day behind.  The extension is
    set back to 0, the timer is not held any more, and the timer's phase
    is left alone. *)
Theorem seat_start_entry w clock t (Hclock : wf_dt clock) (Ht : wf_time t) :
  let now :=
    mkdt (dt_ordinal clock) (dt_hour clock) (dt_minute clock) 0 0 in
  let w' := step w (ev_seat_dialog ref_start (Some t) click_confirm clock) in
  exists st,
    seat_start_dt (settings (ss w')) = Some st
    /\ dt_time st = t
    /\ - td_days 1 < dt_sub st now <= td_minutes 5
    /\ (dt_ordinal st = dt_ordinal now
        <-> dt_sub (dt_combine now t) now <= td_minutes 5)
    /\ (dt_ordinal st = dt_ordinal now \/ dt_ordinal st = dt_ordinal now - 1)
    /\ num (ss w') seat_extension_min = 0
    /\ float (ss w') extension_seat_left_sec = None
    /\ flag (ss w') block_next_focus_until_seat_extended = false
    /\ no_dialog_flag (ss w')
    /\ fst (seat_settings_dialog ref_start (Some t) click_confirm clock w)
       = Rerun
    /\ flag (ss w') running = flag (ss w) running
    /\ flag (ss w') paused = flag (ss w) paused
    /\ phase (ss w') = phase (ss w)
    /\ (forall k, stamp (ss w') k = stamp (ss w) k).
Proof.
  intros now w'.
  assert (Hnow : wf_dt now).
  { destruct Hclock as (Hh & Hm & _). unfold wf_dt, now; simpl. lia. }
  pose proof (wf_dt_combine now t Ht) as Hc.
  set (cand := dt_combine now t) in *.
  assert (Hday : 0 <= to_us cand - to_us (mkdt (dt_ordinal now) 0 0 0 0)
                 < td_days 1).
  { destruct Ht as (H1 & H2 & H3 & H4).
    unfold to_us, td_days, cand, dt_combine; simpl. lia. }
  assert (Hday' : 0 <= to_us now - to_us (mkdt (dt_ordinal now) 0 0 0 0)
                  < td_days 1).
  { destruct Hnow as (H1 & H2 & H3 & H4).
    unfold to_us, td_days; simpl in *. lia. }
  eassert (E : seat_settings_dialog ref_start (Some t) click_confirm clock w
               = _).
  { unfold seat_settings_dialog. fold now. fold cand. app_run. reflexivity. }
  subst w'. unfold step, handler, exec, no_dialog_flag. rewrite E. clear E.
  session_simpl.
  rewrite (dt_lt_to_us (dt_add now (td_minutes 5)) cand (wf_of_us _) Hc),
    to_us_dt_add.
  destruct (to_us now + td_minutes 5 <? to_us cand) eqn:L.
  - apply Z.ltb_lt in L.
    change (- td_days 1) with (td_days (-1)) at 1.
    rewrite (dt_add_days cand (-1) Hc).
    eexists. split; [reflexivity|].
    unfold dt_sub, td_minutes, td_days in *.
    unfold to_us in *; simpl in *.
    repeat split; try reflexivity; try lia; try apply dt_time_fields.
  - apply Z.ltb_ge in L.
    exists cand. split; [reflexivity|].
    unfold dt_sub, td_minutes, td_days in *.
    repeat split; try reflexivity; try lia; try apply dt_time_fields.
    left. reflexivity.
Qed.

Lemma seat_start_entry_witness :
  let w' := step fresh
              (ev_seat_dialog ref_start (Some (mktime 19 0 0 0))
                 click_confirm (day0 9 30 10)) in
  exists st,
    seat_start_dt (settings (ss w')) = Some st
    /\ dt_time st = mktime 19 0 0 0
    /\ dt_ordinal st = 737999.
Proof.
  intros w'.
  assert (Hc : wf_dt (day0 9 30 10)) by (unfold wf_dt; simpl; lia).
  assert (Ht : wf_time (mktime 19 0 0 0)) by (unfold wf_time; simpl; lia).
  destruct (seat_start_entry fresh (day0 9 30 10) (mktime 19 0 0 0) Hc Ht)
    as (st & E & Htime & _ & Hday & [Ho|Ho] & _).
  - exfalso. apply Hday in Ho. vm_compute in Ho. now apply Ho.
  - exists st. split; [exact E|]. split; [exact Htime | exact Ho].
Defined.

(** A seat that is to expire at [ec], not before 03:00 and not after
    23:00, and was taken three hours earlier, does expire at [ec]. *)
Lemma expiry_of_start_back ec :
  wf_dt ec -> 3 <= dt_hour ec ->
  to_us ec <= to_us (seat_close_dt_for ec) ->
  get_seat_expiry_dt (dt_add ec (- td_minutes SEAT_BASE_MIN)) 0 = ec.
Proof.
  intros Hw H3 Hcap.
  set (st := dt_add ec (- td_minutes SEAT_BASE_MIN)).
  assert (Hst : st = mkdt (dt_ordinal ec) (dt_hour ec - 3) (dt_minute ec)
                       (dt_second ec) (dt_microsecond ec)).
  { subst st. unfold dt_add.
    replace (to_us ec + - td_minutes SEAT_BASE_MIN)
      with (to_us (mkdt (dt_ordinal ec) (dt_hour ec - 3) (dt_minute ec)
                     (dt_second ec) (dt_microsecond ec)))
      by (unfold to_us, td_minutes, SEAT_BASE_MIN; simpl; lia).
    apply of_us_to_us.
    destruct Hw as (H1 & H2 & H4 & H5). unfold wf_dt; simpl. lia. }
  assert (Hus : to_us st = to_us ec - td_minutes SEAT_BASE_MIN)
    by (unfold st; rewrite to_us_dt_add; lia).
  assert (Hcl : seat_close_dt_for st = seat_close_dt_for ec)
    by (rewrite Hst; reflexivity).
  rewrite <- (of_us_to_us (get_seat_expiry_dt st 0))
    by apply wf_get_seat_expiry_dt.
  transitivity (of_us (to_us ec)); [|apply of_us_to_us; exact Hw].
  f_equal. rewrite to_us_get_seat_expiry_dt, Hcl, Hus.
  unfold td_minutes. lia.
Qed.

(** X10.  An expiry time entered in the seat dialog, from 03:00 on,
    reads back: the expiry computed from the stored start is a full three
    hours after it and has the time of day entered, cut at 23:00; it is
    at most five minutes behind now and less than a day ahead. *)
Theorem seat_expiry_entry_reads_back w clock t
    (Hclock : wf_dt clock) (Ht : wf_time t) (Hthree : 3 <= t_hour t) :
  let now :=
    mkdt (dt_ordinal clock) (dt_hour clock) (dt_minute clock) 0 0 in
  let w' := step w (ev_seat_dialog ref_expiry (Some t) click_confirm clock) in
  exists st,
    seat_start_dt (settings (ss w')) = Some st
    /\ let expiry :=
         get_seat_expiry_dt st (num (ss w') seat_extension_min) in
       dt_time expiry
       = (if time_gt t (mktime SEAT_CLOSE_HOUR 0 0 0)
          then mktime SEAT_CLOSE_HOUR 0 0 0 else t)
       /\ dt_sub expiry st = td_minutes SEAT_BASE_MIN
       /\ - td_minutes 5 <= dt_sub expiry now < td_days 1.
Proof.
  intros now w'.
  assert (Hnow : wf_dt now).
  { destruct Hclock as (Hh & Hm & _). unfold wf_dt, now; simpl. lia. }
  set (et := if time_gt t (mktime SEAT_CLOSE_HOUR 0 0 0)
             then mktime SEAT_CLOSE_HOUR 0 0 0 else t).
  assert (Het : wf_time et /\ 3 <= t_hour et
                /\ to_us (dt_combine now et)
                   <= to_us (seat_close_dt_for now)).
  { assert (H23 : wf_time (mktime SEAT_CLOSE_HOUR 0 0 0))
      by (unfold wf_time, SEAT_CLOSE_HOUR; simpl; lia).
    subst et. unfold time_gt, time_lt.
    rewrite (time_cmp_combine now).
    destruct (dt_cmp (dt_combine now (mktime SEAT_CLOSE_HOUR 0 0 0))
                (dt_combine now t)) eqn:C.
    1,3: split; [exact Ht|]; split; [exact Hthree|];
      rewrite dt_cmp_to_us in C
        by (apply wf_dt_combine; assumption);
      change (dt_combine now (mktime SEAT_CLOSE_HOUR 0 0 0))
        with (seat_close_dt_for now) in C.
    - apply Z.compare_eq_iff in C. lia.
    - apply Z.compare_gt_iff in C. lia.
    - split; [exact H23|].
      split; [unfold SEAT_CLOSE_HOUR; simpl; lia|].
      unfold seat_close_dt_for, dt_combine; simpl. lia. }
  destruct Het as (Het & Hthree' & Hcap).
  pose proof (wf_dt_combine now et Het) as Hc.
  set (ec0 := dt_combine now et) in *.
  set (ec := if dt_lt ec0 (dt_add now (- td_minutes 5))
             then dt_add ec0 (td_days 1) else ec0).
  assert (Hec : wf_dt ec /\ dt_time ec = et
                /\ - td_minutes 5 <= dt_sub ec now < td_days 1).
  { subst ec.
    rewrite (dt_lt_to_us ec0 (dt_add now (- td_minutes 5)) Hc (wf_of_us _)),
      to_us_dt_add.
    assert (Hday : 0 <= to_us ec0 - to_us (mkdt (dt_ordinal now) 0 0 0 0)
                   < td_days 1).
    { destruct Het as (H1 & H2 & H3 & H4).
      unfold to_us, td_days, ec0, dt_combine; simpl. lia. }
    assert (Hday' : 0 <= to_us now - to_us (mkdt (dt_ordinal now) 0 0 0 0)
                    < td_days 1).
    { destruct Hnow as (H1 & H2 & H3 & H4).
      unfold to_us, td_days; simpl in *. lia. }
    destruct (to_us ec0 <? to_us now + - td_minutes 5) eqn:L.
    - apply Z.ltb_lt in L. rewrite (dt_add_days ec0 1 Hc).
      split; [exact Hc|]. split; [apply dt_time_fields|].
      unfold dt_sub, td_minutes, td_days in *.
      unfold to_us in *; simpl in *. lia.
    - apply Z.ltb_ge in L.
      split; [exact Hc|]. split; [apply dt_time_fields|].
      unfold dt_sub, td_minutes, td_days in *. lia. }
  destruct Hec as (Hwec & Htime & Hrange).
  set (st := dt_add ec (- td_minutes SEAT_BASE_MIN)).
  assert (Hh : dt_hour ec = t_hour et) by now rewrite <- Htime.
  assert (Hcl : to_us ec <= to_us (seat_close_dt_for ec)).
  { assert (F : forall d d', dt_time d = dt_time d' ->
                to_us d - to_us (seat_close_dt_for d)
                = to_us d' - to_us (seat_close_dt_for d')).
    { intros [o h m s0 u] [o' h' m' s1 u'] F. injection F as -> -> -> ->.
      unfold to_us, seat_close_dt_for; simpl. lia. }
    specialize (F ec ec0). rewrite Htime in F.
    unfold ec0 in F at 1. unfold dt_combine in F at 1.
    rewrite dt_time_fields in F. specialize (F eq_refl).
    change (seat_close_dt_for ec0) with (seat_close_dt_for now) in F. lia. }
  assert (Hexp : get_seat_expiry_dt st 0 = ec)
    by (apply expiry_of_start_back; [exact Hwec | lia | exact Hcl]).
  eassert (E : seat_settings_dialog ref_expiry (Some t) click_confirm clock w
               = _).
  { unfold seat_settings_dialog. fold now. fold et. fold ec0. fold ec.
    fold st. app_run. reflexivity. }
  subst w'. unfold step, handler, exec. rewrite E. clear E.
  session_simpl. exists st. split; [reflexivity|].
  cbv zeta. rewrite Hexp. split; [exact Htime|]. split; [|exact Hrange].
  unfold dt_sub, st. rewrite to_us_dt_add. lia.
Qed.

Lemma seat_expiry_entry_reads_back_witness :
  let w' := step fresh
              (ev_seat_dialog ref_expiry (Some (mktime 21 30 0 0))
                 click_confirm (day0 19 45 10)) in
  exists st,
    seat_start_dt (settings (ss w')) = Some st
    /\ dt_time (get_seat_expiry_dt st (num (ss w') seat_extension_min))
       = mktime 21 30 0 0
    /\ dt_sub (get_seat_expiry_dt st (num (ss w') seat_extension_min)) st
       = td_minutes 180.
Proof.
  intros w'.
  assert (Hc : wf_dt (day0 19 45 10)) by (unfold wf_dt; simpl; lia).
  assert (Ht : wf_time (mktime 21 30 0 0)) by (unfold wf_time; simpl; lia).
  destruct (seat_expiry_entry_reads_back fresh (day0 19 45 10)
              (mktime 21 30 0 0) Hc Ht ltac:(simpl; lia))
    as (st & E & H1 & H2 & _).
  exists st. split; [exact E|]. split; [exact H1 | exact H2].
Defined.

(* ================================================================== *)
(** ** The tables and the timer *)
(* ================================================================== *)

Section Appends.
Context {A B : Type}.

Lemma appends_ret (a : A) : appends_only (ret a).
Proof. intros rows ints w. reflexivity. Qed.

Lemma appends_rerun : appends_only (@st_rerun A).
Proof. intros rows ints w. reflexivity. Qed.

Lemma appends_read (f : session -> A) : appends_only (read f).
Proof. intros rows ints w. reflexivity. Qed.

Lemma appends_bind (m : App A) (k : A -> App B) :
  appends_only m -> (forall a, appends_only (k a)) ->
  appends_only (bind m k).
Proof.
  intros Hm Hk rows ints w. unfold bind. rewrite Hm.
  destruct (m w) as [[a|] w1]; cbn [fst snd]; [apply Hk | reflexivity].
Qed.
End Appends.

Lemma appends_assign f : appends_only (assign f).
Proof. intros rows ints w. reflexivity. Qed.

Lemma appends_render p : appends_only (render p).
Proof. intros rows ints w. reflexivity. Qed.

Lemma appends_insert_study_session r :
  appends_only (insert_study_session r).
Proof.
  intros rows ints w.
  unfold insert_study_session, with_study_session, with_earlier;
    cbn [fst snd ss study_sessions interruptions pie].
  now rewrite app_assoc.
Qed.

Lemma appends_insert_interruption r :
  appends_only (insert_interruption r).
Proof.
  intros rows ints w.
  unfold insert_interruption, with_interruption, with_earlier;
    cbn [fst snd ss study_sessions interruptions pie].
  now rewrite app_assoc.
Qed.

(** Goes through a handler statement by statement. *)
Ltac appends_step :=
  lazymatch goal with
  | |- appends_only (bind _ _) => apply appends_bind; [|intros ?]
  | |- appends_only (ret _) => apply appends_ret
  | |- appends_only st_rerun => apply appends_rerun
  | |- appends_only (read _) => apply appends_read
  | |- appends_only (assign _) => apply appends_assign
  | |- appends_only (render _) => apply appends_render
  | |- appends_only (insert_study_session _) =>
      apply appends_insert_study_session
  | |- appends_only (insert_interruption _) =>
      apply appends_insert_interruption
  | |- appends_only (when ?b _) => unfold when; destruct b
  | |- appends_only (if ?b then _ else _) => destruct b
  | |- appends_only (match ?x with _ => _ end) => destruct x
  end.

Ltac appends_run := repeat appends_step.

Lemma appends_handler e : appends_only (handler e).
Proof.
  destruct e as [clock|toggle edit clock|ref new_time click clock
                |click clock|click|mode click clock|click clock
                |reason click clock|reason click clock];
    cbn [handler].
  - unfold run_timer_fragment, _switch_phase, _request_extension_popup,
      log_focus_segment_if_any, _clear_dialog_flags.
    appends_run.
  - unfold seat_toggle_row, _open_dialog, _clear_dialog_flags. appends_run.
  - unfold seat_settings_dialog, _clear_dialog_flags. appends_run.
  - unfold top_button, _open_dialog, _resume_timer, _clear_dialog_flags.
    appends_run.
  - unfold bottom_buttons, _open_dialog, _clear_dialog_flags. appends_run.
  - unfold start_setup_dialog, _start_timer_session,
      _request_extension_popup, _clear_dialog_flags.
    appends_run.
  - unfold extension_dialog, add_extension, _switch_phase,
      _start_timer_session, _resume_timer, _request_extension_popup,
      _clear_dialog_flags.
    appends_run.
  - unfold pause_dialog, log_focus_segment_if_any, _clear_dialog_flags.
    appends_run.
  - unfold stop_dialog, log_focus_segment_if_any, _clear_dialog_flags.
    appends_run.
Qed.

(** X11.  No handler of the timer reads, changes or deletes a row of
    [study_sessions] or [interruptions]: with older rows in the two
    tables a run ends the same way, leaves the same session and the
    same pie, and appends the same rows behind the older ones.  So does
    every sequence of runs; [reset_db] alone empties the tables. *)
Theorem handlers_append_only :
  (forall e, appends_only (handler e))
  /\ (forall es rows ints w,
        run es (with_earlier rows ints w) = with_earlier rows ints (run es w))
  /\ (forall es w,
        exists new_rows new_ints,
          study_sessions (run es w) = study_sessions w ++ new_rows
          /\ interruptions (run es w) = interruptions w ++ new_ints)
  /\ (forall w,
        study_sessions (exec reset_db w) = []
        /\ interruptions (exec reset_db w) = []
        /\ ss (exec reset_db w) = ss w).
Proof.
  assert (Hrun : forall es rows ints w,
            run es (with_earlier rows ints w)
            = with_earlier rows ints (run es w)).
  { unfold run. induction es as [|e es IH]; intros rows ints w;
      cbn [fold_left]; [reflexivity|].
    unfold step at 2, exec. rewrite (appends_handler e rows ints w).
    cbn [snd]. apply IH. }
  split; [exact appends_handler|]. split; [exact Hrun|]. split.
  - intros es w.
    exists (study_sessions (run es (mkworld (ss w) [] [] (pie w)))),
           (interruptions (run es (mkworld (ss w) [] [] (pie w)))).
    specialize (Hrun es (study_sessions w) (interruptions w)
                  (mkworld (ss w) [] [] (pie w))).
    unfold with_earlier at 1 in Hrun.
    cbn [ss study_sessions interruptions pie] in Hrun.
    rewrite !app_nil_r in Hrun.
    replace (mkworld (ss w) (study_sessions w) (interruptions w) (pie w))
      with w in Hrun by now destruct w.
    rewrite Hrun. split; reflexivity.
  - intros w. repeat split.
Qed.

(** States a goal about [m w] for the tactics that run [m]. *)
Ltac about_run m w :=
  pattern (m w);
  lazymatch goal with
  | |- ?P (m w) => change (after_run P (m w))
  end.

Ltac about_this_run :=
  match goal with
  | |- context [snd (?m ?w)] => about_run m w
  | |- context [fst (?m ?w)] => about_run m w
  | |- @eq (outcome _ * world) (?m ?w) _ => about_run m w
  end.

Ltac run_done := unfold after_run; cbv beta; session_simpl.

(** X12.  A run writes to [interruptions] exactly when it confirms a
    pause or a stop: one row, stamped with the time of the click, the
    reason and the phase the timer was in, with no time lost.  Every
    other run leaves the table alone; so does the stop that closing the
    extension dialog forces. *)
Theorem interruptions_written :
  (forall e w,
     interruptions (step w e) = interruptions w ++ interruption_of e (ss w))
  /\ (forall w reason clock,
        interruptions (step w (ev_pause_dialog reason click_confirm clock))
        = interruptions w
          ++ [mkinterruption (strftime (now_of clock)) ("[중단] " ++ reason) 0
                (phase (ss w))])
  /\ (forall w click clock,
        interruptions (step w (ev_extension_dialog click clock))
        = interruptions w).
Proof.
  assert (H : forall e w,
            interruptions (step w e)
            = interruptions w ++ interruption_of e (ss w)).
  { intros e w. unfold step, exec.
    destruct e as [clock|toggle edit clock|ref new_time click clock
                  |click clock|click|mode click clock|click clock
                  |reason click clock|reason click clock];
      cbn [handler interruption_of].
    - about_run (run_timer_fragment clock) w.
      unfold run_timer_fragment, _switch_phase, _request_extension_popup.
      prog_run; run_done; now rewrite app_nil_r.
    - about_run (seat_toggle_row toggle edit clock) w.
      unfold seat_toggle_row, _open_dialog.
      prog_run; run_done; now rewrite app_nil_r.
    - about_run (seat_settings_dialog ref new_time click clock) w.
      unfold seat_settings_dialog.
      destruct click, new_time, ref; prog_run; run_done;
        now rewrite app_nil_r.
    - about_run (top_button click clock) w.
      unfold top_button, _open_dialog, _resume_timer.
      destruct click; prog_run; run_done; now rewrite app_nil_r.
    - about_run (bottom_buttons click) w.
      unfold bottom_buttons, _open_dialog.
      destruct click; prog_run; run_done; now rewrite app_nil_r.
    - about_run (start_setup_dialog mode click clock) w.
      unfold start_setup_dialog, _start_timer_session,
        _request_extension_popup.
      destruct click, mode; prog_run; run_done; now rewrite app_nil_r.
    - about_run (extension_dialog click clock) w.
      unfold extension_dialog, add_extension, _switch_phase,
        _start_timer_session, _resume_timer.
      destruct click; prog_run; run_done; now rewrite app_nil_r.
    - destruct click; about_this_run;
        unfold pause_dialog; prog_run; run_done;
        first [now rewrite app_nil_r | congruence].
    - destruct click; about_this_run;
        unfold stop_dialog; prog_run; run_done;
        first [now rewrite app_nil_r | congruence]. }
  split; [exact H|]. split.
  - intros w reason clock. apply H.
  - intros w click clock. rewrite H. apply app_nil_r.
Qed.

(* ================================================================== *)
(** ** The dialogs *)
(* ================================================================== *)

Ltac closes_done :=
  run_done; unfold no_dialog_flag, dialog_chain; session_simpl;
  first
    [ reflexivity
    | split; [reflexivity|]; split; [reflexivity|];
      first
        [ left; repeat split; reflexivity
        | right; do 3 eexists;
          split; [reflexivity|]; split; [eassumption | reflexivity] ] ].

(** X13.  A dialog that is open changes nothing until one of its buttons
    is clicked.  Every button ends the run with [st.rerun()] and takes
    the flag of its dialog down; no dialog flag is left up, except that
    the start button, when the seat check fires, hands over to the
    extension dialog. *)
Theorem dialog_buttons_close e d w (Hd : dialog_of e = Some d) :
  (clicked e (ss w) = false -> handler e w = (Ret tt, w))
  /\ (clicked e (ss w) = true ->
      fst (handler e w) = Rerun
      /\ flag (ss (snd (handler e w))) d = false
      /\ (no_dialog_flag (ss (snd (handler e w)))
          \/ exists mode clock left,
               e = ev_start_dialog mode start_go clock
               /\ seat_short (now_of clock) (ss w) = Some left
               /\ dialog_chain (ss (snd (handler e w)))
                  = Some show_extension_dialog)).
Proof.
  destruct e as [clock|toggle edit clock|ref new_time click clock
                |click clock|click|mode click clock|click clock
                |reason click clock|reason click clock];
    try discriminate Hd; injection Hd as <-; cbn [handler clicked].
  - split; intros Hc; destruct click; try discriminate Hc;
      about_this_run; unfold seat_settings_dialog;
      try destruct new_time; try destruct ref; prog_run; closes_done.
  - split; intros Hc; destruct click; try discriminate Hc;
      about_this_run;
      unfold start_setup_dialog, _start_timer_session,
        _request_extension_popup;
      try destruct mode; prog_run; closes_done.
  - split; intros Hc; destruct click; try discriminate Hc;
      rewrite ?negb_true_iff, ?negb_false_iff in Hc;
      about_this_run;
      unfold extension_dialog, add_extension, _switch_phase,
        _start_timer_session, _resume_timer;
      prog_run; closes_done.
  - split; intros Hc; destruct click; try discriminate Hc;
      about_this_run; unfold pause_dialog; prog_run; closes_done.
  - split; intros Hc; destruct click; try discriminate Hc;
      about_this_run; unfold stop_dialog; prog_run; closes_done.
Qed.

Lemma dialog_buttons_close_witness :
  let e := ev_pause_dialog "화장실" click_close (day0 10 10 0) in
  let w := run [ev_start_dialog mode_25_5 start_go (day0 10 0 0);
                ev_bottom page_pause] fresh in
  flag (ss w) show_pause_dialog = true
  /\ fst (handler e w) = Rerun
  /\ flag (ss (snd (handler e w))) show_pause_dialog = false.
Proof.
  intros e w.
  destruct (dialog_buttons_close e show_pause_dialog w eq_refl) as [_ H].
  destruct (H eq_refl) as (H1 & H2 & _).
  split; [reflexivity|]. split; [exact H1 | exact H2].
Defined.

(* ================================================================== *)
(** ** The timer between and after its phases *)
(* ================================================================== *)

(** X14.  A running timer at the end of a rest starts the next focus
    when the seat check does not fire (seat tracking off, or the reset
    window, or no seat time to count, or more than 59 minutes left): the
    focus runs from the tick for the focus minutes of the settings, the
    timer is not held, and nothing is written to the tables. *)
Theorem rest_expiry_starts_focus w clock ps pe
    (Hrun : flag (ss w) running = true)
    (Hnp : flag (ss w) paused = false)
    (Hnb : flag (ss w) block_next_focus_until_seat_extended = false)
    (Hphase : phase (ss w) = REST)
    (Hps : stamp (ss w) phase_start_dt = Some ps)
    (Hpe : stamp (ss w) phase_end_dt = Some pe)
    (Hover : dt_ge (now_of clock) pe = true)
    (Hfine : use_seat (settings (ss w)) = false
             \/ is_seat_reset_window (now_of clock) = true
             \/ forall left,
                  compute_seat_left_seconds (now_of clock)
                    (seat_start_dt (settings (ss w)))
                    (num (ss w) seat_extension_min) = Some left ->
                  ~ (left <= inject_Z SEAT_ALERT_WINDOW_SEC)%Q) :
  let now := now_of clock in
  let w' := step w (ev_tick clock) in
  fst (run_timer_fragment clock w) = Ret tt
  /\ phase (ss w') = FOCUS
  /\ stamp (ss w') phase_start_dt = Some now
  /\ stamp (ss w') phase_end_dt
     = Some (dt_add now (td_minutes (focus (settings (ss w)))))
  /\ dt_sub (dt_add now (td_minutes (focus (settings (ss w))))) now
     = td_minutes (focus (settings (ss w)))
  /\ flag (ss w') block_next_focus_until_seat_extended = false
  /\ flag (ss w') running = true
  /\ flag (ss w') paused = false
  /\ (forall k, flag (ss w') k = flag (ss w) k)
  /\ settings (ss w') = settings (ss w)
  /\ study_sessions w' = study_sessions w
  /\ interruptions w' = interruptions w.
Proof.
  intros now w'. subst now w'. set (now := now_of clock) in *.
  assert (Hs : seat_short now (ss w) = None).
  { destruct (seat_short now (ss w)) as [left|] eqn:E; [|reflexivity].
    apply seat_short_spec in E. destruct E as (E1 & E2 & E3 & E4).
    destruct Hfine as [H|[H|H]]; [congruence | congruence |].
    exfalso. apply (H left E3). exact E4. }
  destruct (progress ps pe now) as [prog rem] eqn:EP.
  eassert (E : run_timer_fragment clock w = _).
  { unfold run_timer_fragment, _switch_phase. fold now. app_run.
    reflexivity. }
  unfold step, handler, exec. rewrite E. clear E. session_simpl.
  assert (Hlen : dt_sub (dt_add now (td_minutes (focus (settings (ss w)))))
                   now = td_minutes (focus (settings (ss w))))
    by (unfold dt_sub; rewrite to_us_dt_add; lia).
  repeat split; try reflexivity; try assumption.
  intros k. destruct k; session_simpl; congruence.
Qed.

Lemma rest_expiry_starts_focus_witness :
  let w := run [ev_start_dialog mode_25_5 start_go (day0 10 0 0);
                ev_tick (day0 10 25 0)] fresh in
  let w' := step w (ev_tick (day0 10 30 0)) in
  phase (ss w) = REST
  /\ phase (ss w') = FOCUS
  /\ stamp (ss w') phase_start_dt = Some (mkdt 738000 10 30 0 0)
  /\ stamp (ss w') phase_end_dt = Some (mkdt 738000 10 55 0 0).
Proof.
  intros w w'.
  destruct (rest_expiry_starts_focus w (day0 10 30 0)
              (mkdt 738000 10 25 0 0) (mkdt 738000 10 30 0 0)
              eq_refl eq_refl eq_refl eq_refl eq_refl eq_refl eq_refl
              (or_introl eq_refl))
    as (_ & H1 & H2 & H3 & _).
  split; [reflexivity|]. split; [exact H1|]. split; [exact H2 | exact H3].
Defined.

(** X15.  Before the end of its phase a tick of a running timer changes
    nothing of the session or the tables, with one exception: during a
    rest, the first tick at which the seat check fires raises the seat
    alert, once, and the extension dialog with context "break"; the
    phase and its times stay as they are, and the ticks that follow
    change nothing. *)
Theorem tick_before_end w clock ps pe
    (Hrun : flag (ss w) running = true)
    (Hnp : flag (ss w) paused = false)
    (Hnb : flag (ss w) block_next_focus_until_seat_extended = false)
    (Hphase : phase (ss w) = FOCUS \/ phase (ss w) = REST)
    (Hps : stamp (ss w) phase_start_dt = Some ps)
    (Hpe : stamp (ss w) phase_end_dt = Some pe)
    (Hbefore : dt_ge (now_of clock) pe = false) :
  let now := now_of clock in
  let w' := step w (ev_tick clock) in
  study_sessions w' = study_sessions w
  /\ interruptions w' = interruptions w
  /\ (phase (ss w) = FOCUS
      \/ flag (ss w) seat_alert_shown_in_rest = true
      \/ seat_short now (ss w) = None ->
      ss w' = ss w /\ fst (run_timer_fragment clock w) = Ret tt)
  /\ (forall left,
        phase (ss w) = REST ->
        flag (ss w) seat_alert_shown_in_rest = false ->
        seat_short now (ss w) = Some left ->
        fst (run_timer_fragment clock w) = Rerun
        /\ flag (ss w') seat_alert_shown_in_rest = true
        /\ flag (ss w') show_extension_dialog = true
        /\ context_str (seat_extension_context (ss w')) = "break"%string
        /\ float (ss w') extension_seat_left_sec = Some left
        /\ flag (ss w') block_next_focus_until_seat_extended = false
        /\ phase (ss w') = REST
        /\ (forall k, stamp (ss w') k = stamp (ss w) k)
        /\ forall clock',
             dt_ge (now_of clock') pe = false ->
             ss (step w' (ev_tick clock')) = ss w').
Proof.
  intros now w'. subst now w'. set (now := now_of clock) in *.
  destruct (progress ps pe now) as [prog rem] eqn:EP.
  unfold step, handler, exec.
  destruct Hphase as [Hphase|Hphase].
  - eassert (E : run_timer_fragment clock w = _).
    { unfold run_timer_fragment. fold now. app_run. reflexivity. }
    rewrite E. clear E. session_simpl.
    split; [reflexivity|]. split; [reflexivity|].
    split; [intros _; split; reflexivity|].
    intros left H. congruence.
  - destruct (seat_short now (ss w)) as [left0|] eqn:Hs;
      [destruct (flag (ss w) seat_alert_shown_in_rest) eqn:Ha|].
    + eassert (E : run_timer_fragment clock w = _).
      { unfold run_timer_fragment. fold now. app_run. reflexivity. }
      rewrite E. clear E. session_simpl.
      split; [reflexivity|]. split; [reflexivity|].
      split; [intros _; split; reflexivity|].
      intros left _ H. discriminate H.
    + eassert (E : run_timer_fragment clock w = _).
      { unfold run_timer_fragment. fold now. app_run. reflexivity. }
      rewrite E. clear E. session_simpl.
      split; [reflexivity|]. split; [reflexivity|]. split.
      * intros [H|[H|H]]; congruence.
      * intros left _ _ Hl. injection Hl as <-.
        use_facts. do 7 (split; [reflexivity|]).
        split; [intros k; destruct k; session_simpl; congruence|].
        intros clock' Hb'.
        destruct (progress ps pe (now_of clock')) as [prog' rem'] eqn:EP'.
        destruct (seat_short (now_of clock') (ss w)) as [l'|] eqn:Hs'.
        all: match goal with
             | |- context [run_timer_fragment ?c ?w0] =>
                 eassert (E : run_timer_fragment c w0 = _);
                 [ unfold run_timer_fragment; app_run; reflexivity
                 | rewrite E; reflexivity ]
             end.
    + eassert (E : run_timer_fragment clock w = _).
      { unfold run_timer_fragment. fold now. app_run. reflexivity. }
      rewrite E. clear E. session_simpl.
      split; [reflexivity|]. split; [reflexivity|].
      split; [intros _; split; reflexivity|].
      intros left _ _ H. discriminate H.
Qed.

Lemma tick_before_end_witness :
  let w := run [ev_start_dialog mode_25_5 start_go (day0 10 0 0)] fresh in
  ss (step w (ev_tick (day0 10 12 0))) = ss w.
Proof.
  intros w.
  destruct (tick_before_end w (day0 10 12 0) (mkdt 738000 10 0 0 0)
              (mkdt 738000 10 25 0 0)
              eq_refl eq_refl eq_refl (or_introl eq_refl) eq_refl eq_refl
              eq_refl)
    as (_ & _ & H & _).
  apply H. left. reflexivity.
Defined.

(** A tick of a timer that is not running changes nothing and shows the
    idle pie. *)
Lemma idle_tick w clock :
  flag (ss w) running = false ->
  run_timer_fragment clock w
  = (Ret tt, with_pie (mkpie 0 "#ccc" "00:00" "대기 중") w).
Proof.
  intros H. unfold run_timer_fragment. app_run. reflexivity.
Qed.

Lemma idle_ticks clocks : forall w,
  flag (ss w) running = false ->
  ss (ticks clocks w) = ss w
  /\ study_sessions (ticks clocks w) = study_sessions w
  /\ interruptions (ticks clocks w) = interruptions w
  /\ (clocks <> [] ->
      pie (ticks clocks w) = Some (mkpie 0 "#ccc" "00:00" "대기 중")).
Proof.
  unfold ticks, run.
  induction clocks as [|c cs IH]; intros w H; cbn [map fold_left].
  - repeat split. congruence.
  - unfold step at 2 4 6 8, handler, exec. rewrite (idle_tick w c H).
    cbn [snd].
    destruct (IH (with_pie (mkpie 0 "#ccc" "00:00" "대기 중") w) H)
      as (E1 & E2 & E3 & E4).
    rewrite E1, E2, E3. repeat split.
    intros _. destruct cs as [|c' cs']; [reflexivity|].
    apply E4. discriminate.
Qed.

(** X16.  Confirming the stop dialog ends the session: one row goes to
    [interruptions], with the phase the timer was in, no row goes to
    [study_sessions] unless a focus was under way, and the timer is idle,
    with no phase times, no pause and no hold left.  From then on the
    ticks change nothing and the pie shows the idle 00:00. *)
Theorem stop_ends_session w reason clock later :
  let now := now_of clock in
  let w' := step w (ev_stop_dialog reason click_confirm clock) in
  fst (stop_dialog reason click_confirm clock w) = Rerun
  /\ flag (ss w') running = false
  /\ flag (ss w') paused = false
  /\ phase (ss w') = IDLE
  /\ (forall k, stamp (ss w') k = None)
  /\ float (ss w') pause_snapshot_prog = None
  /\ float (ss w') pause_snapshot_rem_sec = None
  /\ flag (ss w') block_next_focus_until_seat_extended = false
  /\ no_dialog_flag (ss w')
  /\ settings (ss w') = settings (ss w)
  /\ interruptions w'
     = interruptions w
       ++ [mkinterruption (strftime now) ("[종료] " ++ reason) 0
             (phase (ss w))]
  /\ (phase (ss w) <> FOCUS -> study_sessions w' = study_sessions w)
  /\ ss (ticks later w') = ss w'
  /\ study_sessions (ticks later w') = study_sessions w'
  /\ interruptions (ticks later w') = interruptions w'
  /\ (later <> [] -> shown_time (ticks later w') = Some "00:00"%string).
Proof.
  intros now w'. subst now.
  assert (H : fst (stop_dialog reason click_confirm clock w) = Rerun
              /\ flag (ss w') running = false
              /\ flag (ss w') paused = false
              /\ phase (ss w') = IDLE
              /\ (forall k, stamp (ss w') k = None)
              /\ float (ss w') pause_snapshot_prog = None
              /\ float (ss w') pause_snapshot_rem_sec = None
              /\ flag (ss w') block_next_focus_until_seat_extended = false
              /\ no_dialog_flag (ss w')
              /\ settings (ss w') = settings (ss w)
              /\ interruptions w'
                 = interruptions w
                   ++ [mkinterruption (strftime (now_of clock))
                         ("[종료] " ++ reason) 0 (phase (ss w))]
              /\ (phase (ss w) <> FOCUS ->
                  study_sessions w' = study_sessions w)).
  { subst w'. unfold step, handler, exec.
    about_run (stop_dialog reason click_confirm clock) w.
    unfold stop_dialog. prog_run; run_done; unfold no_dialog_flag;
      session_simpl;
      repeat split; try reflexivity; try congruence;
      intros k; destruct k; reflexivity. }
  destruct H as (H1 & H2 & H3 & H4 & H5 & H6 & H7 & H8 & H9 & H10 & H11 & H12).
  destruct (idle_ticks later w' H2) as (T1 & T2 & T3 & T4).
  repeat split; try assumption; try apply H9.
  intros Hl. unfold shown_time. now rewrite (T4 Hl).
Qed.

Lemma stop_ends_session_witness :
  let w := run [ev_start_dialog mode_25_5 start_go (day0 10 0 0)] fresh in
  let w' := step w (ev_stop_dialog "기타" click_confirm (day0 10 7 30)) in
  flag (ss w) running = true
  /\ flag (ss w') running = false
  /\ phase (ss (ticks [day0 10 7 31; day0 10 30 0] w')) = IDLE.
Proof.
  intros w w'.
  destruct (stop_ends_session w "기타"%string (day0 10 7 30)
              [day0 10 7 31; day0 10 30 0])
    as (_ & H1 & _ & H2 & _ & _ & _ & _ & _ & _ & _ & _ & H3 & _).
  split; [reflexivity|]. split; [exact H1|].
  fold w' in H3. rewrite H3. exact H2.
Defined.

(* ================================================================== *)
(** ** The seat toggle *)
(* ================================================================== *)




(* ================================================================== *)
(** ** The page of a held timer *)
(* ================================================================== *)

Lemma bind_cases {A B} (m : App A) (k : A -> App B) w :
  (exists a w1, m w = (Ret a, w1) /\ bind m k w = k a w1)
  \/ (exists w1, m w = (Rerun, w1) /\ bind m k w = (Rerun, w1)).
Proof.
  unfold bind. destruct (m w) as [[a|] w1]; [left | right]; eauto.
Qed.

Ltac held_done :=
  run_done; unfold still_held; session_simpl; use_facts;
  repeat split; first [assumption | reflexivity | discriminate | idtac].

Lemma held_seat_toggle_row w x seat_toggle edit clock :
  still_held w x ->
  still_held w (snd (seat_toggle_row seat_toggle edit clock x)).
Proof.
  intros (Hr & Hb & Hs & Hi).
  about_run (seat_toggle_row seat_toggle edit clock) x.
  unfold seat_toggle_row, _open_dialog.
  destruct (flag (ss x) paused) eqn:Hp;
    destruct (flag (ss x) prev_seat_toggle) eqn:Hprev;
    destruct seat_toggle, edit; prog_run; held_done.
Qed.

Lemma held_top_button w x click clock :
  still_held w x -> still_held w (snd (top_button click clock x)).
Proof.
  intros (Hr & Hb & Hs & Hi).
  about_run (top_button click clock) x.
  unfold top_button, _open_dialog, _resume_timer.
  destruct click; prog_run; held_done.
Qed.

Lemma held_bottom_buttons w x click :
  still_held w x -> still_held w (snd (bottom_buttons click x)).
Proof.
  intros (Hr & Hb & Hs & Hi).
  about_run (bottom_buttons click) x.
  unfold bottom_buttons, _open_dialog.
  destruct click; prog_run; held_done.
Qed.

Lemma held_run_timer_fragment w x clock :
  still_held w x ->
  still_held w (snd (run_timer_fragment clock x))
  /\ (fst (run_timer_fragment clock x) = Rerun
      \/ flag (ss (snd (run_timer_fragment clock x))) show_extension_dialog
         = true).
Proof.
  intros (Hr & Hb & Hs & Hi).
  about_run (run_timer_fragment clock) x.
  unfold run_timer_fragment.
  prog_run; held_done; auto.
Qed.

(** X18.  While the timer is held for a seat extension, a run of the
    page never opens the pause dialog or the stop dialog, whatever is
    clicked: the run ends in [st.rerun()], or it opens the seat, the
    start or the extension dialog; the timer is still running and held
    after it, and nothing is written to the tables. *)
Theorem held_page_opens_no_stop_dialog w seat_toggle edit click c1 c2 c3
    (Hrun : flag (ss w) running = true)
    (Hheld : flag (ss w) block_next_focus_until_seat_extended = true) :
  let r := page_script seat_toggle edit click c1 c2 c3 w in
  (fst r = Rerun
   \/ fst r = Ret (Some show_seat_settings)
   \/ fst r = Ret (Some show_start_setup)
   \/ fst r = Ret (Some show_extension_dialog))
  /\ flag (ss (snd r)) running = true
  /\ flag (ss (snd r)) block_next_focus_until_seat_extended = true
  /\ study_sessions (snd r) = study_sessions w
  /\ interruptions (snd r) = interruptions w.
Proof.
  intros r. subst r.
  assert (H0 : still_held w w) by (repeat split; assumption).
  enough (H : (fst (page_script seat_toggle edit click c1 c2 c3 w) = Rerun
               \/ fst (page_script seat_toggle edit click c1 c2 c3 w)
                  = Ret (Some show_seat_settings)
               \/ fst (page_script seat_toggle edit click c1 c2 c3 w)
                  = Ret (Some show_start_setup)
               \/ fst (page_script seat_toggle edit click c1 c2 c3 w)
                  = Ret (Some show_extension_dialog))
              /\ still_held w
                   (snd (page_script seat_toggle edit click c1 c2 c3 w))).
  { destruct H as (H1 & H2 & H3 & H4 & H5). auto. }
  unfold page_script.
  pose proof (held_seat_toggle_row w w seat_toggle edit c1 H0) as H1.
  destruct (bind_cases (seat_toggle_row seat_toggle edit c1)
              (fun _ =>
                 top_button click c2 ;; run_timer_fragment c3 ;;
                 opened <- read dialog_chain ;;
                 need <- read (fun s => flag s need_main_rerun) ;;
                 when need (assign (set_flag need_main_rerun false) ;;
                            st_rerun) ;;
                 bottom_buttons click ;; ret opened) w)
    as [(a1 & w1 & E1 & ->)|(w1 & E1 & ->)];
    rewrite E1 in H1; cbn [snd] in H1; [|auto].
  pose proof (held_top_button w w1 click c2 H1) as H2.
  destruct (bind_cases (top_button click c2)
              (fun _ =>
                 run_timer_fragment c3 ;;
                 opened <- read dialog_chain ;;
                 need <- read (fun s => flag s need_main_rerun) ;;
                 when need (assign (set_flag need_main_rerun false) ;;
                            st_rerun) ;;
                 bottom_buttons click ;; ret opened) w1)
    as [(a2 & w2 & E2 & ->)|(w2 & E2 & ->)];
    rewrite E2 in H2; cbn [snd] in H2; [|auto].
  destruct (held_run_timer_fragment w w2 c3 H2) as [H3 Hshown].
  destruct (bind_cases (run_timer_fragment c3)
              (fun _ =>
                 opened <- read dialog_chain ;;
                 need <- read (fun s => flag s need_main_rerun) ;;
                 when need (assign (set_flag need_main_rerun false) ;;
                            st_rerun) ;;
                 bottom_buttons click ;; ret opened) w2)
    as [(a3 & w3 & E3 & ->)|(w3 & E3 & ->)];
    rewrite E3 in H3, Hshown; cbn [fst snd] in H3, Hshown; [|auto].
  destruct Hshown as [Hshown|Hshown]; [discriminate Hshown|].
  rewrite !bind_read, bind_when.
  destruct (flag (ss w3) need_main_rerun).
  { rewrite bind_bind, bind_assign, bind_rerun. cbn [fst snd].
    split; [auto|]. exact H3. }
  pose proof (held_bottom_buttons w w3 click H3) as H4.
  destruct (bind_cases (bottom_buttons click)
              (fun _ => ret (dialog_chain (ss w3))) w3)
    as [(a4 & w4 & E4 & ->)|(w4 & E4 & ->)];
    rewrite E4 in H4; cbn [snd] in H4; [|auto].
  rewrite run_ret. cbn [fst snd]. split; [|exact H4].
  unfold dialog_chain. rewrite Hshown.
  destruct (flag (ss w3) show_seat_settings);
    destruct (flag (ss w3) show_start_setup); auto.
Qed.

Lemma held_page_opens_no_stop_dialog_witness :
  let r := page_script true false page_stop (day0 21 20 5) (day0 21 20 5)
             (day0 21 20 5) held_at_21_20 in
  fst r = Rerun
  /\ flag (ss (snd r)) block_next_focus_until_seat_extended = true.
Proof.
  intros r.
  destruct (held_page_opens_no_stop_dialog held_at_21_20 true false page_stop
              (day0 21 20 5) (day0 21 20 5) (day0 21 20 5)
              eq_refl eq_refl)
    as (_ & _ & H & _).
  split; [reflexivity | exact H].
Defined.

(* ================================================================== *)
(** ** The to-do list *)
(* ================================================================== *)

Lemma column_max_bound l :
  match column_max l with
  | Some m => In m l /\ forall x, In x l -> x <= m
  | None => l = []
  end.
Proof.
  induction l as [|a l IH]; [reflexivity|].
  cbn [column_max fold_right]. fold (column_max l).
  destruct (column_max l) as [m|].
  - destruct IH as [Hin Hmax]. split.
    + destruct (Z.max_spec a m) as [[_ ->]|[_ ->]]; [right | left]; auto.
    + intros x [<-|Hx]; [lia|]. specialize (Hmax x Hx). lia.
  - subst l. split; [now left|]. intros x [<-|[]]. lia.
Qed.

Lemma next_id_fresh rows r : In r rows -> todo_id r < next_id rows.
Proof.
  intros Hr. unfold next_id.
  pose proof (column_max_bound (map todo_id rows)) as H.
  destruct (column_max (map todo_id rows)) as [m|].
  - destruct H as [_ H]. specialize (H (todo_id r) (in_map _ _ _ Hr)). lia.
  - apply map_eq_nil in H. subst rows. destruct Hr.
Qed.



Lemma shown_row_some id rows row :
  shown_row id rows = Some row ->
  In row rows /\ not_deleted row = true /\ todo_id row = id.
Proof.
  intros H. apply find_some in H. destruct H as [Hin H].
  apply andb_true_iff in H. destruct H as [H1 H2].
  apply Z.eqb_eq in H2. auto.
Qed.

(** An id is the id of one row. *)
Lemma todo_id_unique rows r r' :
  NoDup (map todo_id rows) ->
  In r rows -> In r' rows -> todo_id r = todo_id r' -> r = r'.
Proof.
  induction rows as [|a rows IH]; intros Hnd Hr Hr' E; [destruct Hr|].
  cbn [map] in Hnd. inversion Hnd as [|? ? Hnotin Hnd']; subst.
  destruct Hr as [->|Hr], Hr' as [->|Hr'].
  - reflexivity.
  - exfalso. apply Hnotin. rewrite E. now apply in_map.
  - exfalso. apply Hnotin. rewrite <- E. now apply in_map.
  - now apply IH.
Qed.

Lemma shown_row_unique id rows row :
  NoDup (map todo_id rows) ->
  In row rows -> not_deleted row = true -> todo_id row = id ->
  shown_row id rows = Some row.
Proof.
  intros Hnd Hin Hvis Hid. unfold shown_row.
  destruct (find (fun r => not_deleted r && (todo_id r =? id)) rows)
    as [r|] eqn:F.
  - apply find_some in F. destruct F as [Hr H].
    apply andb_true_iff in H. destruct H as [_ H]. apply Z.eqb_eq in H.
    f_equal. apply (todo_id_unique rows r row Hnd Hr Hin). congruence.
  - pose proof (find_none _ _ F row Hin) as H. cbv beta in H.
    rewrite Hvis, Hid, Z.eqb_refl in H. discriminate H.
Qed.

Lemma update_status_ids v id rows :
  map todo_id (update_status v id rows) = map todo_id rows.
Proof.
  unfold update_status. rewrite map_map. apply map_ext.
  intros r. now destruct (todo_id r =? id).
Qed.

Lemma update_task_ids v id rows :
  map todo_id (update_task v id rows) = map todo_id rows.
Proof.
  unfold update_task. rewrite map_map. apply map_ext.
  intros r. now destruct (todo_id r =? id).
Qed.

(** X20.  Ticking the checkbox of a task twice gives back the table as
    it was: the first click turns a pending task into a done one (and a
    done one into a pending one) and touches no other row, the second
    click undoes it. *)
Theorem todo_toggle_twice rows id row
    (Hids : NoDup (map todo_id rows))
    (Hrow : shown_row id rows = Some row)
    (Hstatus : status row = "pending"%string \/ status row = "done"%string) :
  let flipped :=
    mktodo (todo_id row) (task row)
      (if String.eqb (status row) "done" then "pending" else "done")%string
      (date row) (is_subtask row) (task_order row) in
  shown_row id (toggle_todo id rows) = Some flipped
  /\ status flipped <> status row
  /\ (forall r, In r rows -> todo_id r <> id -> In r (toggle_todo id rows))
  /\ List.length (toggle_todo id rows) = List.length rows
  /\ toggle_todo id (toggle_todo id rows) = rows.
Proof.
  intros flipped.
  destruct (shown_row_some id rows row Hrow) as (Hin & Hvis & Hid).
  set (s1 := (if String.eqb (status row) "done" then "pending" else "done")
               %string) in *.
  assert (E1 : toggle_todo id rows = update_status s1 id rows)
    by (unfold toggle_todo; now rewrite Hrow).
  assert (Hf : shown_row id (update_status s1 id rows) = Some flipped).
  { apply shown_row_unique.
    - now rewrite update_status_ids.
    - unfold update_status. apply in_map_iff. exists row.
      split; [|exact Hin].
      replace (todo_id row =? id) with true
        by (symmetry; apply Z.eqb_eq; exact Hid).
      reflexivity.
    - subst flipped s1. unfold not_deleted; cbn [status].
      now destruct (String.eqb (status row) "done").
    - exact Hid. }
  rewrite E1. split; [exact Hf|]. split; [|split; [|split]].
  - subst flipped s1. cbn [status].
    destruct Hstatus as [-> | ->]; discriminate.
  - intros r Hr Hne. unfold update_status. apply in_map_iff. exists r.
    split; [|exact Hr]. apply Z.eqb_neq in Hne. now rewrite Hne.
  - unfold update_status. apply List.length_map.
  - unfold toggle_todo at 1. rewrite Hf. cbv zeta.
    unfold update_status. rewrite map_map.
    rewrite <- (map_id rows) at 2. apply map_ext_in.
    intros r Hr. destruct (todo_id r =? id) eqn:Er; cbn [todo_id].
    + rewrite Er. apply Z.eqb_eq in Er.
      assert (r = row)
        by (apply (todo_id_unique rows); auto; congruence).
      subst r. subst flipped s1. cbn [status task date is_subtask task_order].
      destruct row as [i t st d sub o]. cbn in *.
      destruct Hstatus as [-> | ->]; reflexivity.
    + now rewrite Er.
Qed.

Lemma todo_toggle_twice_witness :
  let rows := [mktodo 1 "수학"%string "pending"%string 738000 0 1;
               mktodo 2 "영어"%string "done"%string 738000 0 2] in
  toggle_todo 1 rows
  = [mktodo 1 "수학"%string "done"%string 738000 0 1;
     mktodo 2 "영어"%string "done"%string 738000 0 2]
  /\ toggle_todo 1 (toggle_todo 1 rows) = rows.
Proof.
  intros rows.
  assert (Hids : NoDup (map todo_id rows))
    by (repeat constructor; simpl; intuition discriminate).
  destruct (todo_toggle_twice rows 1
              (mktodo 1 "수학"%string "pending"%string 738000 0 1)
              Hids eq_refl (or_introl eq_refl))
    as (_ & _ & _ & _ & H).
  split; [reflexivity | exact H].
Defined.

Lemma permutation_filter {A} (p : A -> bool) l l' :
  Permutation l l' -> Permutation (filter p l) (filter p l').
Proof.
  induction 1 as [|x l l' _ IH|x y l|l l' l'' _ IH1 _ IH2]; cbn [filter].
  - constructor.
  - destruct (p x); [now constructor | exact IH].
  - destruct (p x), (p y); try apply Permutation_refl.
    apply perm_swap.
  - now apply Permutation_trans with (filter p l').
Qed.

Lemma sorted_filter {A} (R : A -> A -> Prop) (p : A -> bool) l :
  StronglySorted R l -> StronglySorted R (filter p l).
Proof.
  induction 1 as [|a l _ IH Hall]; cbn [filter]; [constructor|].
  destruct (p a); [|exact IH].
  constructor; [exact IH|].
  apply Forall_forall. intros x Hx. apply filter_In in Hx.
  rewrite Forall_forall in Hall. apply Hall. tauto.
Qed.

(** Ids stay unique, and a row that is deleted stays in the table as it
    is, whatever is done with the list. *)
Lemma todo_step_keeps rows e d :
  NoDup (map todo_id rows) -> In d rows -> not_deleted d = false ->
  NoDup (map todo_id (todo_step rows e)) /\ In d (todo_step rows e).
Proof.
  intros Hnd Hd Hdel.
  assert (Hother : forall id r, shown_row id rows = Some r ->
                                todo_id d <> id).
  { intros id r Hr E. destruct (shown_row_some id rows r Hr) as (Hin & Hv & Hi).
    assert (r = d) by (apply (todo_id_unique rows); auto; congruence).
    subst r. congruence. }
  destruct e as [new_task today|id|id new_val|id]; cbn [todo_step].
  - unfold add_todo. destruct (negb (String.eqb new_task "")); [|auto].
    split; [|apply in_or_app; now left].
    rewrite map_app. cbn [map todo_id].
    apply NoDup_app; [exact Hnd | repeat constructor; intros [] |].
    intros x Hx [<-|[]]. apply in_map_iff in Hx.
    destruct Hx as (r & E & Hr). pose proof (next_id_fresh rows r Hr). lia.
  - unfold toggle_todo. destruct (shown_row id rows) as [r|] eqn:Hr; [|auto].
    split; [now rewrite update_status_ids|].
    unfold update_status. apply in_map_iff. exists d. split; [|exact Hd].
    replace (todo_id d =? id) with false; [reflexivity|].
    symmetry. apply Z.eqb_neq. exact (Hother id r Hr).
  - unfold edit_todo. destruct (shown_row id rows) as [r|] eqn:Hr; [|auto].
    destruct (String.eqb (status r) "done"); [auto|].
    destruct (negb (String.eqb new_val (task r))); [|auto].
    split; [now rewrite update_task_ids|].
    unfold update_task. apply in_map_iff. exists d. split; [|exact Hd].
    replace (todo_id d =? id) with false; [reflexivity|].
    symmetry. apply Z.eqb_neq. exact (Hother id r Hr).
  - unfold delete_todo. destruct (shown_row id rows) as [r|] eqn:Hr; [|auto].
    split; [now rewrite update_status_ids|].
    unfold update_status. apply in_map_iff. exists d. split; [|exact Hd].
    replace (todo_id d =? id) with false; [reflexivity|].
    symmetry. apply Z.eqb_neq. exact (Hother id r Hr).
Qed.

(** X21.  The delete button removes no row: the row stays in the table
    with the status "deleted", and the listing is the listing before
    without that row.  Nothing that is done with the list afterwards
    brings the task back or changes its row. *)
Theorem deleted_todo_stays_hidden rows id row es
    (Hids : NoDup (map todo_id rows))
    (Hrow : shown_row id rows = Some row) :
  let rows' := delete_todo id rows in
  let gone :=
    mktodo id (task row) "deleted"%string (date row) (is_subtask row)
      (task_order row) in
  List.length rows' = List.length rows
  /\ In gone rows'
  /\ filter not_deleted rows'
     = filter (fun r => negb (todo_id r =? id)) (filter not_deleted rows)
  /\ (forall l,
        listing rows l ->
        listing rows' (filter (fun r => negb (todo_id r =? id)) l))
  /\ In gone (todo_run es rows')
  /\ shown_row id (todo_run es rows') = None.
Proof.
  intros rows' gone.
  destruct (shown_row_some id rows row Hrow) as (Hin & Hvis & Hid).
  assert (E : rows' = update_status "deleted" id rows)
    by (unfold rows', delete_todo; now rewrite Hrow).
  assert (Hgone : In gone rows').
  { rewrite E. unfold update_status. apply in_map_iff. exists row.
    split; [|exact Hin]. rewrite Hid, Z.eqb_refl. reflexivity. }
  assert (Hfilter : filter not_deleted rows'
                    = filter (fun r => negb (todo_id r =? id))
                        (filter not_deleted rows)).
  { rewrite E. unfold update_status. clear.
    induction rows as [|a rows IH]; [reflexivity|].
    cbn [map filter]. destruct (todo_id a =? id) eqn:Ea.
    - match goal with
      | |- context [not_deleted (mktodo ?i ?t ?s ?d ?b ?o)] =>
          change (not_deleted (mktodo i t s d b o)) with false
      end.
      destruct (not_deleted a); cbn [filter];
        rewrite ?Ea; cbn [negb]; exact IH.
    - destruct (not_deleted a); cbn [filter]; rewrite ?Ea; cbn [negb];
        now rewrite IH. }
  assert (Hnd' : NoDup (map todo_id rows'))
    by (rewrite E, update_status_ids; exact Hids).
  assert (Hrun : NoDup (map todo_id (todo_run es rows'))
                 /\ In gone (todo_run es rows')).
  { unfold todo_run. clear E Hfilter. clearbody rows'.
    revert rows' Hgone Hnd'.
    induction es as [|e es IH]; intros rows' Hgone Hnd'; cbn [fold_left];
      [auto|].
    destruct (todo_step_keeps rows' e gone Hnd' Hgone eq_refl) as [H1 H2].
    exact (IH _ H2 H1). }
  destruct Hrun as [Hnd'' Hgone''].
  split; [rewrite E; apply List.length_map|].
  split; [exact Hgone|]. split; [exact Hfilter|].
  split; [|split; [exact Hgone''|]].
  - intros l [Hp Hs]. split.
    + rewrite Hfilter. now apply permutation_filter.
    + now apply sorted_filter.
  - destruct (shown_row id (todo_run es rows')) as [r|] eqn:Hr;
      [exfalso|reflexivity].
    destruct (shown_row_some _ _ _ Hr) as (Hrin & Hrv & Hri).
    assert (r = gone)
      by (apply (todo_id_unique (todo_run es rows')); auto).
    subst r. discriminate Hrv.
Qed.

Lemma deleted_todo_stays_hidden_witness :
  let rows := [mktodo 1 "수학"%string "pending"%string 738000 0 1;
               mktodo 2 "영어"%string "done"%string 738000 0 2] in
  let es := [todo_toggle 1; todo_add "국어"%string 738001; todo_delete 1] in
  In (mktodo 1 "수학"%string "deleted"%string 738000 0 1)
    (todo_run es (delete_todo 1 rows))
  /\ shown_row 1 (todo_run es (delete_todo 1 rows)) = None.
Proof.
  intros rows es.
  assert (Hids : NoDup (map todo_id rows))
    by (repeat constructor; simpl; intuition discriminate).
  destruct (deleted_todo_stays_hidden rows 1
              (mktodo 1 "수학"%string "pending"%string 738000 0 1) es
              Hids eq_refl)
    as (_ & _ & _ & _ & H1 & H2).
  split; [exact H1 | exact H2].
Defined.

(* ================================================================== *)
(** ** What holds of every timer *)
(* ================================================================== *)

Lemma progress_percent ps pe now prog rem :
  progress ps pe now = (prog, rem) -> (0 <= prog)%Q /\ (prog <= 100)%Q.
Proof.
  unfold progress. intros E. injection E as <- _.
  set (total := float_max 1 (total_seconds (dt_sub pe ps))).
  set (elapsed := float_max 0 (total_seconds (dt_sub now ps))).
  assert (Ht : (1 <= total)%Q) by apply float_max_spec.
  assert (He : (0 <= elapsed)%Q) by apply float_max_spec.
  assert (Hq : (0 <= elapsed / total * 100)%Q).
  { apply Qmult_le_0_compat; [|discriminate].
    apply Qmult_le_0_compat; [exact He|].
    apply Qinv_le_0_compat. apply Qle_trans with 1%Q; [discriminate|exact Ht]. }
  split; [|apply float_min_spec].
  destruct (float_min_spec 100 (elapsed / total * 100)) as (_ & _ & [E|E]);
    rewrite E; [discriminate | exact Hq].
Qed.

Ltac snapshot_done :=
  run_done; unfold snapshot_ok in *; session_simpl;
  let q := fresh "q" in
  let Hq := fresh "Hq" in
  intros q Hq;
  first
    [ discriminate Hq
    | match goal with
      | H : forall x, float ?s pause_snapshot_prog = Some x -> _ |- _ =>
          apply H; congruence
      end
    | injection Hq as <-;
      first
        [ split; discriminate
        | eapply progress_percent; eassumption ] ].

Lemma handler_snapshot e w :
  snapshot_ok (ss w) -> snapshot_ok (ss (snd (handler e w))).
Proof.
  intros Hw.
  destruct e as [clock|toggle edit clock|ref new_time click clock
                |click clock|click|mode click clock|click clock
                |reason click clock|reason click clock];
    cbn [handler]; about_this_run.
  - unfold run_timer_fragment, _switch_phase, _request_extension_popup.
    prog_run; snapshot_done.
  - unfold seat_toggle_row, _open_dialog. prog_run; snapshot_done.
  - unfold seat_settings_dialog.
    destruct click, new_time, ref; prog_run; snapshot_done.
  - unfold top_button, _open_dialog, _resume_timer.
    destruct click; prog_run; snapshot_done.
  - unfold bottom_buttons, _open_dialog.
    destruct click; prog_run; snapshot_done.
  - unfold start_setup_dialog, _start_timer_session,
      _request_extension_popup.
    destruct click, mode; prog_run; snapshot_done.
  - unfold extension_dialog, add_extension, _switch_phase,
      _start_timer_session, _resume_timer.
    destruct click; prog_run; snapshot_done.
  - unfold pause_dialog. destruct click; prog_run; snapshot_done.
  - unfold stop_dialog. destruct click; prog_run; snapshot_done.
Qed.

Ltac pie_done :=
  run_done; unfold snapshot_ok in *;
  let p := fresh "p" in
  let Hp := fresh "Hp" in
  intros p Hp; injection Hp as <-; cbn [pie_percentage];
  first
    [ split; discriminate
    | eapply progress_percent; eassumption
    | match goal with
      | H : forall x, float ?s pause_snapshot_prog = Some x -> _ |- _ =>
          apply H; congruence
      end ].

Lemma handler_pie e w :
  snapshot_ok (ss w) ->
  (forall p, pie w = Some p ->
             (0 <= pie_percentage p)%Q /\ (pie_percentage p <= 100)%Q) ->
  forall p, pie (snd (handler e w)) = Some p ->
            (0 <= pie_percentage p)%Q /\ (pie_percentage p <= 100)%Q.
Proof.
  intros Hw Hold.
  destruct e as [clock|toggle edit clock|ref new_time click clock
                |click clock|click|mode click clock|click clock
                |reason click clock|reason click clock];
    cbn [handler]; about_this_run.
  - unfold run_timer_fragment, _switch_phase, _request_extension_popup.
    prog_run; first [pie_done | run_done; exact Hold].
  - unfold seat_toggle_row, _open_dialog. prog_run; run_done; exact Hold.
  - unfold seat_settings_dialog.
    destruct click, new_time, ref; prog_run; run_done; exact Hold.
  - unfold top_button, _open_dialog, _resume_timer.
    destruct click; prog_run; run_done; exact Hold.
  - unfold bottom_buttons, _open_dialog.
    destruct click; prog_run; run_done; exact Hold.
  - unfold start_setup_dialog, _start_timer_session,
      _request_extension_popup.
    destruct click, mode; prog_run; run_done; exact Hold.
  - unfold extension_dialog, add_extension, _switch_phase,
      _start_timer_session, _resume_timer.
    destruct click; prog_run; run_done; exact Hold.
  - unfold pause_dialog. destruct click; prog_run; run_done; exact Hold.
  - unfold stop_dialog. destruct click; prog_run; run_done; exact Hold.
Qed.

(** X22.  The pie never shows a percentage below 0 or above 100: the
    progress of a running phase is such a percentage, so is the progress
    kept at a pause, and the two properties hold after every sequence
    of events from the first run on. *)
Theorem pie_percentage_in_range :
  (forall e w, percent_ok w -> percent_ok (step w e))
  /\ (forall es clock, percent_ok (run es (first_world clock)))
  /\ (forall es clock p,
        pie (run es (first_world clock)) = Some p ->
        (0 <= pie_percentage p)%Q /\ (pie_percentage p <= 100)%Q).
Proof.
  assert (Hstep : forall e w, percent_ok w -> percent_ok (step w e)).
  { intros e w [H1 H2]. split.
    - apply handler_snapshot. exact H1.
    - apply handler_pie; assumption. }
  assert (Hrun : forall es w, percent_ok w -> percent_ok (run es w)).
  { unfold run. induction es as [|e es IH]; intros w Hw; cbn [fold_left];
      [exact Hw|].
    apply IH, Hstep, Hw. }
  assert (H0 : forall clock, percent_ok (first_world clock)).
  { intros clock. split.
    - intros q Hq. discriminate Hq.
    - intros p Hp. discriminate Hp. }
  split; [exact Hstep|]. split.
  - intros es clock. apply Hrun, H0.
  - intros es clock p Hp. exact (proj2 (Hrun es _ (H0 clock)) p Hp).
Qed.

Lemma pie_percentage_in_range_witness :
  let w := run [ev_start_dialog mode_25_5 start_go (day0 10 0 0);
                ev_tick (day0 10 5 0)] fresh in
  percent_ok w /\ percent_ok (step w (ev_tick (day0 10 40 0))).
Proof.
  intros w.
  destruct pie_percentage_in_range as (H1 & H2 & _).
  assert (Hw : percent_ok w) by apply (H2 _ (day0 9 0 12)).
  split; [exact Hw|]. apply H1. exact Hw.
Defined.

Ltac inv_absurd :=
  exfalso;
  match goal with
  | I1 : _ <-> _, I2 : _ -> _ /\ _, I3 : _ -> _ |- _ =>
      first
        [ destruct I1 as [I1 _]; now apply I1
        | destruct I1 as [_ I1]; discriminate (I1 ltac:(discriminate))
        | destruct (I2 eq_refl) as [H1 H2]; first [now apply H1 | now apply H2]
        | discriminate (I3 eq_refl) ]
  end.

Ltac inv_done :=
  run_done; unfold timer_inv; session_simpl; use_facts;
  repeat split; intros; try reflexivity; try discriminate; try congruence.

Lemma handler_timer_inv e w :
  timer_inv (ss w) -> timer_inv (ss (snd (handler e w))).
Proof.
  intros (I1 & I2 & I3).
  destruct (flag (ss w) running) eqn:Hrun;
    destruct (phase (ss w)) eqn:Hphase;
    destruct (flag (ss w) block_next_focus_until_seat_extended) eqn:Hb;
    destruct (stamp (ss w) phase_start_dt) as [ps|] eqn:Hps;
    destruct (stamp (ss w) phase_end_dt) as [pe|] eqn:Hpe;
    try inv_absurd; clear I1 I2 I3.
  all: destruct e as [clock|toggle edit clock|ref new_time click clock
                     |click clock|click|mode click clock|click clock
                     |reason click clock|reason click clock];
    cbn [handler]; about_this_run.
  all: unfold run_timer_fragment, seat_toggle_row, seat_settings_dialog,
         top_button, bottom_buttons, start_setup_dialog, extension_dialog,
         pause_dialog, stop_dialog, add_extension, _switch_phase,
         _start_timer_session, _resume_timer, _request_extension_popup,
         _open_dialog.
  all: prog_run; inv_done.
Qed.

(** X23.  After every sequence of events from the first run on, the
    timer is running exactly when its phase is FOCUS or REST, a running
    timer has the start and the end of its phase, and a timer held for
    a seat extension is running: the fall-back of the timer fragment for
    a running timer without a phase is never taken. *)
Theorem running_timer_has_phase :
  (forall e w, timer_inv (ss w) -> timer_inv (ss (step w e)))
  /\ (forall es clock, timer_inv (ss (run es (first_world clock))))
  /\ (forall es clock,
        let s := ss (run es (first_world clock)) in
        flag s running = true ->
        (phase s = FOCUS \/ phase s = REST)
        /\ exists ps pe,
             stamp s phase_start_dt = Some ps
             /\ stamp s phase_end_dt = Some pe).
Proof.
  assert (Hrun : forall es w, timer_inv (ss w) -> timer_inv (ss (run es w))).
  { unfold run. induction es as [|e es IH]; intros w Hw; cbn [fold_left];
      [exact Hw|].
    apply IH. apply handler_timer_inv. exact Hw. }
  assert (H0 : forall clock, timer_inv (ss (first_world clock))).
  { intros clock. unfold timer_inv, first_world, defaults; cbn.
    split; [split; [discriminate | intros E; now contradiction E]|].
    split; discriminate. }
  split; [exact handler_timer_inv|]. split.
  - intros es clock. apply Hrun, H0.
  - intros es clock s Hr. subst s.
    destruct (Hrun es _ (H0 clock)) as (I1 & I2 & _).
    split.
    + apply I1 in Hr.
      destruct (phase (ss (run es (first_world clock))));
        [contradiction | auto | auto].
    + destruct (I2 Hr) as [H1 H2].
      destruct (stamp (ss (run es (first_world clock))) phase_start_dt)
        as [ps|]; [|contradiction].
      destruct (stamp (ss (run es (first_world clock))) phase_end_dt)
        as [pe|]; [|contradiction].
      eauto.
Qed.

Lemma running_timer_has_phase_witness :
  let s := ss (run [ev_start_dialog mode_25_5 start_go (day0 10 0 0);
                    ev_tick (day0 10 25 0)] (first_world (day0 9 0 12))) in
  flag s running = true /\ (phase s = FOCUS \/ phase s = REST).
Proof.
  intros s.
  destruct running_timer_has_phase as (_ & _ & H).
  destruct (H [ev_start_dialog mode_25_5 start_go (day0 10 0 0);
               ev_tick (day0 10 25 0)] (day0 9 0 12) eq_refl) as [Hp _].
  split; [reflexivity | exact Hp].
Defined.

(* ================================================================== *)
(** ** A start that waits for the seat *)
(* ================================================================== *)

(** A grant runs the start that was waiting. *)
Lemma grant_runs_pending_start w click clock m :
  is_expired (ss w) = false ->
  flag (ss w) block_next_focus_until_seat_extended = false ->
  flag (ss w) pending_start = true ->
  granted_minutes click = Some m ->
  let now := now_of clock in
  let r := extension_dialog click clock w in
  fst r = Rerun
  /\ flag (ss (snd r)) running = true
  /\ flag (ss (snd r)) paused = false
  /\ phase (ss (snd r)) = FOCUS
  /\ stamp (ss (snd r)) phase_start_dt = Some now
  /\ stamp (ss (snd r)) phase_end_dt
     = Some (dt_add now (td_minutes (num (ss w) pending_focus)))
  /\ focus (settings (ss (snd r))) = num (ss w) pending_focus
  /\ rest (settings (ss (snd r))) = num (ss w) pending_rest
  /\ flag (ss (snd r)) pending_start = false
  /\ num (ss (snd r)) seat_extension_min = num (ss w) seat_extension_min + m
  /\ no_dialog_flag (ss (snd r)).
Proof.
  intros F1 F2 F3 Hgrant now r. subst now r.
  assert (Hclick : click = ext_1h \/ click = ext_2h \/ click = ext_3h)
    by (destruct click; try discriminate; auto).
  destruct Hclick as [->|[->| ->]]; injection Hgrant as <-.
  all: match goal with
       | |- context [extension_dialog ?ck ?c ?w0] =>
           eassert (E2 : extension_dialog ck c w0 = _)
       end;
    [ unfold extension_dialog, add_extension, _start_timer_session;
      app_run; reflexivity
    | rewrite E2; clear E2; unfold no_dialog_flag; session_simpl;
      repeat split; reflexivity ].
Qed.

(** X24.  When the seat check fires at the start button, with seat time
    left, the timer is not started: the request is kept with the minutes
    of the chosen mode and the extension dialog is raised with context
    "prestart".  Granting an extension there starts the session then,
    with the minutes of the mode that was chosen, from the time of the
    grant. *)
Theorem deferred_start_runs_chosen_mode w mode c1 click c2 m left
    (Hshort : seat_short (now_of c1) (ss w) = Some left)
    (Hleft : (0 < left)%Q)
    (Hfree : flag (ss w) block_next_focus_until_seat_extended = false)
    (Hgrant : granted_minutes click = Some m) :
  let w1 := step w (ev_start_dialog mode start_go c1) in
  let w2 := step w1 (ev_extension_dialog click c2) in
  let now := now_of c2 in
  (fst (start_setup_dialog mode start_go c1 w) = Rerun
   /\ flag (ss w1) running = flag (ss w) running
   /\ phase (ss w1) = phase (ss w)
   /\ (forall k, stamp (ss w1) k = stamp (ss w) k)
   /\ settings (ss w1) = settings (ss w)
   /\ flag (ss w1) pending_start = true
   /\ (num (ss w1) pending_focus, num (ss w1) pending_rest)
      = mode_minutes mode
   /\ dialog_chain (ss w1) = Some show_extension_dialog
   /\ context_str (seat_extension_context (ss w1)) = "prestart"%string
   /\ float (ss w1) extension_seat_left_sec = Some left
   /\ is_expired (ss w1) = false)
  /\ (fst (extension_dialog click c2 w1) = Rerun
      /\ flag (ss w2) running = true
      /\ flag (ss w2) paused = false
      /\ phase (ss w2) = FOCUS
      /\ stamp (ss w2) phase_start_dt = Some now
      /\ stamp (ss w2) phase_end_dt
         = Some (dt_add now (td_minutes (fst (mode_minutes mode))))
      /\ (focus (settings (ss w2)), rest (settings (ss w2)))
         = mode_minutes mode
      /\ flag (ss w2) pending_start = false
      /\ num (ss w2) seat_extension_min = num (ss w) seat_extension_min + m
      /\ no_dialog_flag (ss w2)).
Proof.
  intros w1 w2 now. subst w2 w1 now.
  assert (Hmax : float_max 0 left = left).
  { unfold float_max.
    now rewrite (proj2 (Qlt_bool_iff 0 left) Hleft). }
  assert (Hexp : Qle_bool left 0 = false).
  { destruct (Qle_bool left 0) eqn:E; [|reflexivity].
    apply Qle_bool_iff in E. exfalso. exact (Qlt_not_le _ _ Hleft E). }
  assert (Hclick : click = ext_1h \/ click = ext_2h \/ click = ext_3h)
    by (destruct click; try discriminate; auto).
  unfold step, handler, exec.
  destruct mode.
  all: match goal with
       | |- context [start_setup_dialog ?md ?ck ?c ?w0] =>
           eassert (E1 : start_setup_dialog md ck c w0 = _)
       end;
    [ unfold start_setup_dialog, _request_extension_popup;
      app_run; rewrite Hmax; reflexivity |];
    rewrite E1; cbn [fst snd];
    match type of E1 with _ = (_, ?x) => set (w1 := x) end;
    assert (F1 : is_expired (ss w1) = false)
      by (unfold is_expired, w1; session_simpl; exact Hexp);
    assert (F2 : flag (ss w1) block_next_focus_until_seat_extended = false)
      by (unfold w1; session_simpl; exact Hfree);
    assert (F3 : flag (ss w1) pending_start = true) by reflexivity;
    (split;
     [ unfold w1, dialog_chain, is_expired; session_simpl; rewrite ?Hexp;
       repeat split; try reflexivity; intros k; destruct k; reflexivity
     | pose proof (grant_runs_pending_start w1 click c2 m F1 F2 F3 Hgrant)
         as G; cbv zeta in G;
       destruct G as (G1 & G2 & G3 & G4 & G5 & G6 & G7 & G8 & G9 & G10 & G11);
       repeat split; try assumption;
       first [exact G6 | exact G10 | rewrite G7, G8; reflexivity | apply G11]
     ]).
Qed.

Lemma deferred_start_runs_chosen_mode_witness :
  let w1 := step seated (ev_start_dialog mode_50_10 start_go (day0 21 30 0)) in
  let w2 := step w1 (ev_extension_dialog ext_1h (day0 21 30 20)) in
  flag (ss w1) running = false
  /\ flag (ss w1) pending_start = true
  /\ phase (ss w2) = FOCUS
  /\ stamp (ss w2) phase_end_dt = Some (mkdt 738000 22 20 20 0).
Proof.
  intros w1 w2.
  assert (Hl : (0 < 1800000000 # 1000000)%Q) by reflexivity.
  destruct (deferred_start_runs_chosen_mode seated mode_50_10 (day0 21 30 0)
              ext_1h (day0 21 30 20) 60 (1800000000 # 1000000)
              eq_refl Hl eq_refl eq_refl)
    as ((_ & H1 & _ & _ & _ & H2 & _) & (_ & _ & _ & H3 & _ & H4 & _)).
  split; [exact (eq_trans H1 eq_refl)|]. split; [exact H2|].
  split; [exact H3 | exact H4].
Defined.



(** X26.  A held timer whose extension dialog has been taken off the
    screen raises it again at the next tick, with context "break" and,
    when seat tracking is on and there is seat time to count, with the
    time left then, never negative; the tick ends in [st.rerun()] before
    anything is drawn, the phase stays REST and its end is the time of
    the tick. *)
Theorem held_tick_raises_dialog_again w clock
    (Hrun : flag (ss w) running = true)
    (Hheld : flag (ss w) block_next_focus_until_seat_extended = true)
    (Hdown : flag (ss w) show_extension_dialog = false) :
  let now := now_of clock in
  let w' := step w (ev_tick clock) in
  let left :=
    compute_seat_left_seconds now (seat_start_dt (settings (ss w)))
      (num (ss w) seat_extension_min) in
  fst (run_timer_fragment clock w) = Rerun
  /\ flag (ss w') show_extension_dialog = true
  /\ dialog_chain (ss w') <> Some show_stop_dialog
  /\ dialog_chain (ss w') <> Some show_pause_dialog
  /\ context_str (seat_extension_context (ss w')) = "break"%string
  /\ phase (ss w') = REST
  /\ stamp (ss w') phase_end_dt = Some now
  /\ flag (ss w') block_next_focus_until_seat_extended = true
  /\ flag (ss w') running = true
  /\ float (ss w') extension_seat_left_sec
     = (if use_seat (settings (ss w))
        then match left with
             | Some l => Some (float_max 0 l)
             | None => float (ss w) extension_seat_left_sec
             end
        else float (ss w) extension_seat_left_sec)
  /\ (forall l, float (ss w') extension_seat_left_sec = Some l ->
                float (ss w) extension_seat_left_sec = Some l \/ (0 <= l)%Q)
  /\ pie w' = pie w
  /\ study_sessions w' = study_sessions w.
Proof.
  intros now w' left. subst w' left now.
  unfold step, handler, exec.
  destruct (use_seat (settings (ss w))) eqn:Hseat;
    [destruct (compute_seat_left_seconds (now_of clock)
                 (seat_start_dt (settings (ss w)))
                 (num (ss w) seat_extension_min)) as [l0|] eqn:Hleft|].
  all: eassert (E : run_timer_fragment clock w = _);
    [ unfold run_timer_fragment; app_run;
      rewrite ?Hseat; app_run; rewrite ?Hleft; app_run; reflexivity
    | rewrite E; clear E; unfold dialog_chain; session_simpl; use_facts ].
  all: repeat match goal with
              | |- context [if ?b then _ else _] => destruct b
              end.
  all: repeat split; try reflexivity; try discriminate.
  all: intros l Hl; first [left; exact Hl | right].
  all: injection Hl as <-; apply float_max_spec.
Qed.

Lemma held_tick_raises_dialog_again_witness :
  let w := step held_at_21_20 (ev_bottom page_stop) in
  let w' := step w (ev_tick (day0 21 20 10)) in
  flag (ss w) show_extension_dialog = false
  /\ flag (ss w') show_extension_dialog = true
  /\ stamp (ss w') phase_end_dt = Some (mkdt 738000 21 20 10 0).
Proof.
  intros w w'.
  destruct (held_tick_raises_dialog_again w (day0 21 20 10)
              eq_refl eq_refl eq_refl)
    as (_ & H1 & _ & _ & _ & _ & H2 & _).
  split; [reflexivity|]. split; [exact H1 | exact H2].
Defined.

(* ================================================================== *)
(** ** The buttons of the page *)
(* ================================================================== *)

(** X27.  The buttons around the timer act by the state of the timer:
    the start button only while the timer is not running, the resume
    button only while it is paused, the stop button while it is running
    and the pause button while it is running and not paused; any other
    click changes nothing.  The start, stop and pause buttons do no more
    than open their dialog: the timer is as it was. *)
Theorem buttons_by_state w click clock :
  let s := ss w in
  let top := top_button click clock w in
  let bottom := bottom_buttons click w in
  (top = (Ret tt, w)
   \/ (flag s running = false /\ click = page_start)
   \/ (flag s running = true /\ flag s paused = true /\ click = page_resume))
  /\ (bottom = (Ret tt, w)
      \/ (flag s running = true /\ click = page_stop)
      \/ (flag s running = true /\ flag s paused = false
          /\ click = page_pause))
  /\ (flag s running = false -> click = page_start ->
      fst top = Rerun
      /\ dialog_chain (ss (snd top)) = Some show_start_setup
      /\ same_timer s (ss (snd top)))
  /\ (flag s running = true -> click = page_stop ->
      fst bottom = Rerun
      /\ dialog_chain (ss (snd bottom)) = Some show_stop_dialog
      /\ same_timer s (ss (snd bottom)))
  /\ (flag s running = true -> flag s paused = false ->
      click = page_pause ->
      fst bottom = Rerun
      /\ dialog_chain (ss (snd bottom)) = Some show_pause_dialog
      /\ same_timer s (ss (snd bottom))).
Proof.
  intros s top bottom. subst s top bottom.
  destruct (flag (ss w) running) eqn:Hrun;
    destruct (flag (ss w) paused) eqn:Hp; destruct click.
  all: try destruct (seat_short (now_of clock) (ss w)) as [l|] eqn:Hs.
  all: match goal with
       | |- context [top_button ?ck ?c ?w0] =>
           eassert (E1 : top_button ck c w0 = _)
       end;
    [ unfold top_button, _open_dialog, _resume_timer; app_run; reflexivity
    | rewrite E1; clear E1 ].
  all: match goal with
       | |- context [bottom_buttons ?ck ?w0] =>
           eassert (E2 : bottom_buttons ck w0 = _)
       end;
    [ unfold bottom_buttons, _open_dialog; app_run; reflexivity
    | rewrite E2; clear E2 ].
  all: unfold dialog_chain, same_timer; session_simpl; use_facts.
  all: split; [auto 6|]; split; [auto 6|].
  all: repeat split; intros; try reflexivity; try discriminate.
Qed.

Lemma buttons_by_state_witness :
  let w := run [ev_start_dialog mode_25_5 start_go (day0 10 0 0)] fresh in
  fst (bottom_buttons page_pause w) = Rerun
  /\ dialog_chain (ss (snd (bottom_buttons page_pause w)))
     = Some show_pause_dialog
  /\ flag (ss (snd (bottom_buttons page_pause w))) paused = false.
Proof.
  intros w.
  destruct (buttons_by_state w page_pause (day0 10 5 0))
    as (_ & _ & _ & _ & H).
  destruct (H eq_refl eq_refl eq_refl) as (H1 & H2 & H3).
  split; [exact H1|]. split; [exact H2|].
  destruct H3 as (_ & H3 & _). exact H3.
Defined.

Lemma filter_map_same {A} (p : A -> bool) (g : A -> A) l :
  (forall x, p (g x) = p x) -> filter p (map g l) = map g (filter p l).
Proof.
  intros H. induction l as [|a l IH]; [reflexivity|].
  cbn [map filter]. rewrite H. destruct (p a); cbn [map]; now rewrite IH.
Qed.

(** X28.  The text field of a task changes the text of that row and
    nothing else: a task that is done has no text field, the same text
    is no change, and a new text leaves the status, the order and every
    other row as they are. *)
Theorem todo_edit_changes_text_only rows id row new_val
    (Hids : NoDup (map todo_id rows))
    (Hrow : shown_row id rows = Some row) :
  let edited :=
    mktodo (todo_id row) new_val (status row) (date row) (is_subtask row)
      (task_order row) in
  (status row = "done"%string -> edit_todo id new_val rows = rows)
  /\ (new_val = task row -> edit_todo id new_val rows = rows)
  /\ (status row <> "done"%string -> new_val <> task row ->
      shown_row id (edit_todo id new_val rows) = Some edited
      /\ (forall r, In r rows -> todo_id r <> id ->
                    In r (edit_todo id new_val rows))
      /\ filter not_deleted (edit_todo id new_val rows)
         = map (fun r => if todo_id r =? id then edited else r)
             (filter not_deleted rows)
      /\ map task_order (edit_todo id new_val rows) = map task_order rows
      /\ map todo_id (edit_todo id new_val rows) = map todo_id rows).
Proof.
  intros edited.
  destruct (shown_row_some id rows row Hrow) as (Hin & Hvis & Hid).
  unfold edit_todo. rewrite Hrow. cbv zeta.
  split; [|split].
  - intros Hd. rewrite Hd. reflexivity.
  - intros ->. destruct (String.eqb (status row) "done"); [reflexivity|].
    now rewrite String.eqb_refl.
  - intros Hnd Hne.
    apply String.eqb_neq in Hnd, Hne. rewrite Hnd, Hne. cbn [negb].
    assert (Hsame : forall r, In r rows -> todo_id r = id ->
              mktodo (todo_id r) new_val (status r) (date r) (is_subtask r)
                (task_order r) = edited).
    { intros r Hr Er.
      assert (r = row) by (apply (todo_id_unique rows); auto; congruence).
      now subst r. }
    split; [|split; [|split; [|split]]].
    + apply shown_row_unique.
      * now rewrite update_task_ids.
      * unfold update_task. apply in_map_iff. exists row.
        split; [|exact Hin].
        replace (todo_id row =? id) with true
          by (symmetry; apply Z.eqb_eq; exact Hid).
        reflexivity.
      * exact Hvis.
      * exact Hid.
    + intros r Hr Hother. unfold update_task. apply in_map_iff. exists r.
      split; [|exact Hr]. apply Z.eqb_neq in Hother. now rewrite Hother.
    + unfold update_task.
      rewrite filter_map_same by (intros r; now destruct (todo_id r =? id)).
      apply map_ext_in. intros r Hr. apply filter_In in Hr.
      destruct Hr as [Hr _].
      destruct (todo_id r =? id) eqn:Er; [|reflexivity].
      apply Z.eqb_eq in Er. exact (Hsame r Hr Er).
    + unfold update_task. rewrite map_map. apply map_ext.
      intros r. now destruct (todo_id r =? id).
    + apply update_task_ids.
Qed.

Lemma todo_edit_changes_text_only_witness :
  let rows := [mktodo 1 "수학"%string "pending"%string 738000 0 1;
               mktodo 2 "영어"%string "done"%string 738000 0 2] in
  edit_todo 2 "영어 단어"%string rows = rows
  /\ shown_row 1 (edit_todo 1 "수학 숙제"%string rows)
     = Some (mktodo 1 "수학 숙제"%string "pending"%string 738000 0 1).
Proof.
  intros rows.
  assert (Hids : NoDup (map todo_id rows))
    by (repeat constructor; simpl; intuition discriminate).
  destruct (todo_edit_changes_text_only rows 2
              (mktodo 2 "영어"%string "done"%string 738000 0 2)
              "영어 단어"%string Hids eq_refl) as (H1 & _).
  destruct (todo_edit_changes_text_only rows 1
              (mktodo 1 "수학"%string "pending"%string 738000 0 1)
              "수학 숙제"%string Hids eq_refl) as (_ & _ & H2).
  split; [apply H1; reflexivity|].
  destruct H2 as (H2 & _); [discriminate | discriminate | exact H2].
Defined.
